(** * StripeWebhookServerService: the Stripe webhook receiver

    A shallow embedding of
    [packages/backend/src/server/StripeWebhookServerService.ts]: the
    [POST /webhook] handler registered by [createServer], with its three
    subscription transitions, and the properties of the handler that the
    specification states.

    The content-type parser that [createServer] registers hands the body
    over as a buffer and is not part of the embedding.

    The handler is asynchronous imperative code over injected collaborators.
    It is embedded as a state-and-exception monad over one [State] record: the
    three tables the repositories give access to, the role assignments kept by
    the role service, the status code set on the reply, and a chronological
    trace of every call made to a collaborator. A run of the handler ends
    in what the handler returns ([undefined], or the reply object) or in what
    it throws.

    The lookups of the collaborators fail where the code lets them fail:
    [findOneByOrFail] on a missing row, the first item of an event without
    items, the missing profile. Their writes ([update], [assign] of a role
    that is not held, [unassign], [pack], [publishMainStream]) complete: a
    delivery that one of them cuts short is not among the runs. The
    properties that speak of every delivery are about what such a delivery
    keeps as well: the order of its calls, and what it leaves alone. *)

From Stdlib Require Import String Ascii List Bool Arith Lia.
Import ListNotations.

Local Open Scope string_scope.
Local Open Scope list_scope.

(** ** JavaScript values *)

(** Truthiness of a string: only the empty string is falsy. *)
Definition truthy (s : string) : bool := negb (s =? EmptyString).

(** Truthiness of a [string | null] (or [string | undefined]) value. *)
Definition truthy_opt (o : option string) : bool :=
  match o with
  | Some s => truthy s
  | None => false
  end.

(** [a !== b] for [a : string | null] and [b : string]. *)
Definition strict_neq (a : option string) (b : string) : bool :=
  match a with
  | Some s => negb (s =? b)
  | None => true
  end.

(** [a != null]. *)
Definition not_null {A : Type} (a : option A) : bool :=
  match a with
  | Some _ => true
  | None => false
  end.

(** The double-quote character of the log messages. *)
Definition dquote : string := String (ascii_of_nat 34) EmptyString.

(** ** Entities

    The entity classes live in the models of the backend, outside this file;
    each record has the fields the handler reads or writes. *)

Module UserProfile.
(** Modelled from the spec: the user profile entity is declared outside
    this file. It is keyed by the internal user id and holds the
    billing-customer identifier. *)
Record t : Type := mk {
  userId : string;
  stripeCustomerId : option string
}.
End UserProfile.

Module User.
(** Modelled from the spec: the user entity is declared outside this file.
    It holds the subscription status, the nullable reference to a plan and
    the nullable external subscription id. *)
Record t : Type := mk {
  id : string;
  subscriptionStatus : string;
  subscriptionPlanId : option string;
  stripeSubscriptionId : option string
}.
End User.

Module SubscriptionPlan.
(** Modelled from the spec: the plan entity is declared outside this file.
    It maps an external price identifier to an internal role identifier. *)
Record t : Type := mk {
  id : string;
  stripePriceId : string;
  roleId : string
}.
End SubscriptionPlan.

Module Role.
(** Modelled from the spec: the role entity is declared outside this file;
    the handler reads the id of the roles [getUserRoles] returns. *)
Record t : Type := mk { id : string }.
End Role.

(** The partial entity given to [usersRepository.update]: a field left
    [undefined] ([None] here) is not written; a nullable column takes
    [Some None] for [null]. *)
Module UserPatch.
Record t : Type := mk {
  subscriptionStatus : option string;
  subscriptionPlanId : option (option string);
  stripeSubscriptionId : option (option string)
}.

Definition apply (p : t) (u : User.t) : User.t :=
  User.mk (User.id u)
    (match subscriptionStatus p with
     | Some v => v
     | None => User.subscriptionStatus u
     end)
    (match subscriptionPlanId p with
     | Some v => v
     | None => User.subscriptionPlanId u
     end)
    (match stripeSubscriptionId p with
     | Some v => v
     | None => User.stripeSubscriptionId u
     end).
End UserPatch.

(** ** The Stripe event, as far as the handler reads it *)

Module Stripe.
Record Plan : Type := mkPlan { plan_id : string }.

Record SubscriptionItem : Type := mkItem { plan : Plan }.

(** [event.data.object]; [items_data] is [items.data]. *)
Record Subscription : Type := mkSubscription {
  id : string;
  customer : string;
  status : string;
  cancel_at_period_end : bool;
  items_data : list SubscriptionItem
}.

(** [event.data.previous_attributes], of which only [status] is read. *)
Record PreviousAttributes : Type := mkPrevious {
  previous_status : option string
}.

Record Event : Type := mkEvent {
  type : string;
  data_object : Subscription;
  data_previous_attributes : option PreviousAttributes
}.
End Stripe.

(** ** Configuration and request *)

Module Config.
(** Modelled from the spec: the configuration type is declared outside this
    file. Of it the handler reads the provider credentials, each of which
    may be unset. *)
Record StripeConfig : Type := mkStripe {
  secretKey : option string;
  webhookSecret : option string
}.

Record t : Type := mk { stripe : option StripeConfig }.
End Config.

(** [request.rawBody]: absent, a string or a buffer. A buffer is an object
    and so is truthy even when it is empty. *)
Inductive RawBody : Type :=
| BodyUndefined
| BodyString (s : string)
| BodyBuffer (bytes : list Byte.byte).

Definition body_truthy (b : RawBody) : bool :=
  match b with
  | BodyUndefined => false
  | BodyString s => truthy s
  | BodyBuffer _ => true
  end.

(** A request header: absent, one value, or several. *)
Inductive HeaderValue : Type :=
| HeaderUndefined
| HeaderString (s : string)
| HeaderArray (l : list string).

Definition header_truthy (h : HeaderValue) : bool :=
  match h with
  | HeaderUndefined => false
  | HeaderString s => truthy s
  | HeaderArray _ => true
  end.

Module Request.
Record t : Type := mk {
  rawBody : RawBody;
  stripe_signature : HeaderValue
}.
End Request.

(** ** Effects *)

Inductive Table : Type := UserProfiles | Users | SubscriptionPlans.

Inductive LogLevel : Type := Info | Warn | Error.

(** One entry per call to a collaborator, in the order the calls are made. *)
Inductive Effect : Type :=
| DbRead (t : Table)
| DbWrite (t : Table)
| RoleRead (userId : string)
| RoleAssign (userId roleId : string)
| RoleUnassign (userId roleId : string)
| Pack (userId : string)
| Publish (userId eventName : string)
| Log (level : LogLevel) (message : string)
| ReplyCode (code : nat).

(** What an [await]ed call can throw. *)
Inductive Exn : Type :=
| PlainError
| TypeError
| EntityNotFoundError (t : Table)
| AlreadyAssigned.

Record State : Type := mkState {
  userProfiles : list UserProfile.t;
  users : list User.t;
  subscriptionPlans : list SubscriptionPlan.t;
  roleAssignments : list (string * string);
  statusCode : option nat;
  trace : list Effect
}.

Inductive Result (A : Type) : Type :=
| Ok (a : A)
| Throw (e : Exn).

Arguments Ok {A} a.
Arguments Throw {A} e.

Definition M (A : Type) : Type := State -> Result A * State.

Definition ret {A : Type} (a : A) : M A := fun s => (Ok a, s).

Definition throw {A : Type} (e : Exn) : M A := fun s => (Throw e, s).

Definition bind {A B : Type} (m : M A) (k : A -> M B) : M B :=
  fun s =>
    match m s with
    | (Ok a, s') => k a s'
    | (Throw e, s') => (Throw e, s')
    end.

Declare Scope handler_scope.
Delimit Scope handler_scope with handler.
Bind Scope handler_scope with M.

Notation "x <- m ;; k" := (bind m (fun x => k))
  (at level 61, m at next level, right associativity) : handler_scope.
Notation "m ;; k" := (bind m (fun _ => k))
  (at level 61, right associativity) : handler_scope.

Local Open Scope handler_scope.

Definition gets {A : Type} (f : State -> A) : M A := fun s => (Ok (f s), s).

Definition emit (e : Effect) : M unit :=
  fun s =>
    (Ok tt,
     mkState (userProfiles s) (users s) (subscriptionPlans s)
       (roleAssignments s) (statusCode s) (trace s ++ [e])).

Definition set_users (us : list User.t) : M unit :=
  fun s =>
    (Ok tt,
     mkState (userProfiles s) us (subscriptionPlans s)
       (roleAssignments s) (statusCode s) (trace s)).

Definition set_roleAssignments (ra : list (string * string)) : M unit :=
  fun s =>
    (Ok tt,
     mkState (userProfiles s) (users s) (subscriptionPlans s)
       ra (statusCode s) (trace s)).

Definition set_statusCode (c : nat) : M unit :=
  fun s =>
    (Ok tt,
     mkState (userProfiles s) (users s) (subscriptionPlans s)
       (roleAssignments s) (Some c) (trace s)).

(** [for (const x of xs) { body x }]. *)
Fixpoint for_of {A : Type} (xs : list A) (body : A -> M unit) : M unit :=
  match xs with
  | [] => ret tt
  | x :: xs' => body x ;; for_of xs' body
  end.

(** ** Collaborators *)

Module Logger.
(** Modelled from the spec: the logger is defined outside this file. A call
    is recorded with its level and message. *)
Definition info (message : string) : M unit := emit (Log Info message).
Definition warn (message : string) : M unit := emit (Log Warn message).
Definition error (message : string) : M unit := emit (Log Error message).
End Logger.

(** What the promise of the handler resolves to: [return;] gives
    [undefined], [return reply.code(c)] gives the reply object. *)
Inductive Returned : Type := Undefined | TheReply.

Module Reply.
(** [reply.code(c)]: sets the status code and gives the reply back, so that
    calls can be chained. Nothing is sent by it. *)
Definition code (c : nat) : M Returned :=
  emit (ReplyCode c) ;; set_statusCode c ;; ret TheReply.
End Reply.

(** The repositories: a point lookup returns the first matching row, an
    update rewrites every matching row. *)
Module UserProfilesRepository.
Definition by_stripeCustomerId (customer : string) (p : UserProfile.t) : bool :=
  match UserProfile.stripeCustomerId p with
  | Some c => c =? customer
  | None => false
  end.

Definition lookup (customer : string) (ps : list UserProfile.t)
  : option UserProfile.t :=
  find (by_stripeCustomerId customer) ps.

(** [findOneBy({ stripeCustomerId: customer })]. *)
Definition findOneBy (customer : string) : M (option UserProfile.t) :=
  emit (DbRead UserProfiles) ;;
  gets (fun s => lookup customer (userProfiles s)).
End UserProfilesRepository.

Module UsersRepository.
Definition by_id (id : string) (u : User.t) : bool := User.id u =? id.

Definition lookup (id : string) (us : list User.t) : option User.t :=
  find (by_id id) us.

(** [findOneByOrFail({ id })]. *)
Definition findOneByOrFail (id : string) : M User.t :=
  emit (DbRead Users) ;;
  found <- gets (fun s => lookup id (users s)) ;;
  match found with
  | Some u => ret u
  | None => throw (EntityNotFoundError Users)
  end.

Definition patch_rows (id : string) (p : UserPatch.t) (us : list User.t)
  : list User.t :=
  map (fun u => if by_id id u then UserPatch.apply p u else u) us.

(** [update({ id }, p)]. *)
Definition update (id : string) (p : UserPatch.t) : M unit :=
  emit (DbWrite Users) ;;
  us <- gets users ;;
  set_users (patch_rows id p us).
End UsersRepository.

Module SubscriptionPlansRepository.
Definition by_stripePriceId (priceId : string) (p : SubscriptionPlan.t) : bool :=
  SubscriptionPlan.stripePriceId p =? priceId.

(** A criterion [{ id }] whose value is [undefined] selects every row. *)
Definition by_id (id : option string) (p : SubscriptionPlan.t) : bool :=
  match id with
  | Some i => SubscriptionPlan.id p =? i
  | None => true
  end.

Definition lookup (criterion : SubscriptionPlan.t -> bool)
    (ps : list SubscriptionPlan.t) : option SubscriptionPlan.t :=
  List.find criterion ps.

Definition findOneByOrFail (criterion : SubscriptionPlan.t -> bool)
  : M SubscriptionPlan.t :=
  emit (DbRead SubscriptionPlans) ;;
  found <- gets (fun s => lookup criterion (subscriptionPlans s)) ;;
  match found with
  | Some p => ret p
  | None => throw (EntityNotFoundError SubscriptionPlans)
  end.

(** [find()]: every plan of the catalog. *)
Definition find : M (list SubscriptionPlan.t) :=
  emit (DbRead SubscriptionPlans) ;;
  gets subscriptionPlans.
End SubscriptionPlansRepository.

Module RoleService.
Definition is_assignment (userId roleId : string) (a : string * string) : bool :=
  (fst a =? userId) && (snd a =? roleId).

Definition holds (userId roleId : string) (ra : list (string * string)) : bool :=
  existsb (is_assignment userId roleId) ra.

Definition roles_of (userId : string) (ra : list (string * string))
  : list Role.t :=
  map (fun a => Role.mk (snd a)) (filter (fun a => fst a =? userId) ra).

(** Modelled from the spec: [RoleService.getUserRoles] is not part of this
    file. The spec names it as the role-assignment service's query of the
    roles a user currently holds. *)
Definition getUserRoles (userId : string) : M (list Role.t) :=
  emit (RoleRead userId) ;;
  gets (fun s => roles_of userId (roleAssignments s)).

(** The assignments after the role is granted, and after it is revoked. *)
Definition grant (userId roleId : string) (ra : list (string * string))
  : list (string * string) :=
  ra ++ [(userId, roleId)].

Definition revoke (userId roleId : string) (ra : list (string * string))
  : list (string * string) :=
  filter (fun a => negb (is_assignment userId roleId a)) ra.

(** Modelled from the spec: [RoleService.assign] is not part of this file.
    The spec has it grant the role to the user and answer a duplicate
    assignment with an error. *)
Definition assign (userId roleId : string) : M unit :=
  emit (RoleAssign userId roleId) ;;
  ra <- gets roleAssignments ;;
  if holds userId roleId ra
  then throw AlreadyAssigned
  else set_roleAssignments (grant userId roleId ra).

(** Modelled from the spec: [RoleService.unassign] is not part of this
    file. The spec has it revoke the role from the user. *)
Definition unassign (userId roleId : string) : M unit :=
  emit (RoleUnassign userId roleId) ;;
  ra <- gets roleAssignments ;;
  set_roleAssignments (revoke userId roleId ra).
End RoleService.

Module UserEntityService.
(** Modelled from the spec: [UserEntityService.pack] is not part of this
    file. The packed user is only handed on to the publisher as the payload
    of the notification; the call is recorded. *)
Definition pack (userId : string) : M unit := emit (Pack userId).
End UserEntityService.

Module GlobalEventService.
(** Modelled from the spec: [GlobalEventService.publishMainStream] is not
    part of this file. The spec names it as the notification publisher; the
    call is recorded with the user and the name of the event. *)
Definition publishMainStream (userId eventName : string) : M unit :=
  emit (Publish userId eventName).
End GlobalEventService.

(** ** The handler *)

(** The message [`${userId} has been ${verb} the role "${roleId}" by the
    subscription ${eventName} event.`]. *)
Definition role_message (userId verb roleId eventName : string) : string :=
  userId ++ " has been " ++ verb ++ " the role " ++ dquote ++ roleId ++ dquote
  ++ " by the subscription " ++ eventName ++ " event.".

(** [roles.some((role) => role.id === roleId)]. *)
Definition some_role (roleId : string) (roles : list Role.t) : bool :=
  existsb (fun role => Role.id role =? roleId) roles.

(** [if (!roles.some(...)) { await assign(userId, roleId); info(...) }],
    the block each transition uses to grant a plan's role. *)
Definition assign_if_absent (roles : list Role.t) (userId roleId eventName : string)
  : M unit :=
  if negb (some_role roleId roles)
  then
    RoleService.assign userId roleId ;;
    Logger.info (role_message userId "assigned" roleId eventName)
  else ret tt.

(** [if (roles.some(...)) { await unassign(userId, roleId); info(...) }]. *)
Definition unassign_if_present (roles : list Role.t) (userId roleId eventName : string)
  : M unit :=
  if some_role roleId roles
  then
    RoleService.unassign userId roleId ;;
    Logger.info (role_message userId "unassigned" roleId eventName)
  else ret tt.

(** [roleIds.includes(id)]. *)
Definition includes (roleIds : list string) (id : string) : bool :=
  existsb (fun r => r =? id) roleIds.

(** The loop of the updated transition that takes every other catalog role
    away from a user who had no plan. *)
Definition unassign_other_plan_roles
    (roles : list Role.t) (roleIds : list string) (userId roleId : string)
  : M unit :=
  for_of roles (fun role =>
    if includes roleIds (Role.id role) && negb (Role.id role =? roleId)
    then
      RoleService.unassign userId (Role.id role) ;;
      Logger.info (role_message userId "unassigned" (Role.id role) "update")
    else ret tt).

(** [subscription.items.data[0].plan.id]; reading [plan] of a missing first
    item throws. *)
Definition items_data_0_plan_id (subscription : Stripe.Subscription) : M string :=
  match Stripe.items_data subscription with
  | item :: _ => ret (Stripe.plan_id (Stripe.plan item))
  | [] => throw TypeError
  end.

(** [publishMainStream(userId, 'meUpdated', await pack(userId, ...))]. *)
Definition publish_meUpdated (userId : string) : M unit :=
  UserEntityService.pack userId ;;
  GlobalEventService.publishMainStream userId "meUpdated".

(** [previousData && previousData.status]. *)
Definition previous_status_truthy (previousData : option Stripe.PreviousAttributes)
  : bool :=
  match previousData with
  | Some p => truthy_opt (Stripe.previous_status p)
  | None => false
  end.

(** [preprocessEvent(event.data.object)]. *)
Definition preprocessEvent (eventData : Stripe.Subscription)
  : M (UserProfile.t * Stripe.Subscription) :=
  let customer := Stripe.customer eventData in
  userProfile <- UserProfilesRepository.findOneBy customer ;;
  match userProfile with
  | None =>
      Logger.warn ("CustomerId: " ++ dquote ++ customer ++ dquote
                   ++ " has no user profile found.") ;;
      throw PlainError
  | Some userProfile => ret (userProfile, eventData)
  end.

(** [case 'customer.subscription.created']. *)
Definition customer_subscription_created
    (userProfile : UserProfile.t) (subscription : Stripe.Subscription)
  : M Returned :=
  let userId := UserProfile.userId userProfile in
  priceId <- items_data_0_plan_id subscription ;;
  subscriptionPlan <- SubscriptionPlansRepository.findOneByOrFail
                        (SubscriptionPlansRepository.by_stripePriceId priceId) ;;
  user <- UsersRepository.findOneByOrFail userId ;;
  if not_null (User.stripeSubscriptionId user)
  then
    Logger.info ("Subscription already exists for user ID " ++ User.id user
                 ++ ". No processing is needed.") ;;
    ret Undefined
  else
    (if Stripe.status subscription =? "active"
     then
       roles <- RoleService.getUserRoles userId ;;
       assign_if_absent roles userId (SubscriptionPlan.roleId subscriptionPlan)
         "creation"
     else ret tt) ;;
    UsersRepository.update userId
      (UserPatch.mk
         (Some (Stripe.status subscription))
         (Some (Some (SubscriptionPlan.id subscriptionPlan)))
         (Some (Some (Stripe.id subscription)))) ;;
    publish_meUpdated userId ;;
    ret Undefined.

(** The entity written by the updated transition. *)
Definition updated_patch
    (user : User.t) (subscriptionPlan : SubscriptionPlan.t)
    (subscription : Stripe.Subscription) : UserPatch.t :=
  let live := negb (Stripe.status subscription =? "incomplete_expired") in
  UserPatch.mk
    (Some (Stripe.status subscription))
    (Some (if live then Some (SubscriptionPlan.id subscriptionPlan) else None))
    (if live
     then
       if truthy_opt (User.stripeSubscriptionId user)
       then None
       else Some (Some (Stripe.id subscription))
     else Some None).

(** [case 'customer.subscription.updated']. The statements after the role
    reconciliation ([persist]) are reached from every branch that does not
    [return]. *)
Definition customer_subscription_updated
    (event : Stripe.Event) (userProfile : UserProfile.t)
    (subscription : Stripe.Subscription) : M Returned :=
  let previousData := Stripe.data_previous_attributes event in
  user <- UsersRepository.findOneByOrFail (UserProfile.userId userProfile) ;;
  priceId <- items_data_0_plan_id subscription ;;
  subscriptionPlan <- SubscriptionPlansRepository.findOneByOrFail
                        (SubscriptionPlansRepository.by_stripePriceId priceId) ;;
  let roleId := SubscriptionPlan.roleId subscriptionPlan in
  let persist :=
    UsersRepository.update (User.id user)
      (updated_patch user subscriptionPlan subscription) ;;
    publish_meUpdated (User.id user) ;;
    ret Undefined in
  if truthy_opt (User.stripeSubscriptionId user)
     && strict_neq (User.stripeSubscriptionId user) (Stripe.id subscription)
  then ret Undefined
  else if Stripe.status subscription =? "active"
  then
    (if negb (truthy_opt (User.subscriptionPlanId user))
     then
       plans <- SubscriptionPlansRepository.find ;;
       let roleIds := map SubscriptionPlan.roleId plans in
       roles <- RoleService.getUserRoles (User.id user) ;;
       unassign_other_plan_roles roles roleIds (User.id user) roleId ;;
       assign_if_absent roles (User.id user) roleId "update"
     else if strict_neq (User.subscriptionPlanId user)
               (SubscriptionPlan.id subscriptionPlan)
     then
       oldSubscriptionPlan <- SubscriptionPlansRepository.findOneByOrFail
                                (SubscriptionPlansRepository.by_id
                                   (User.subscriptionPlanId user)) ;;
       roles <- RoleService.getUserRoles (User.id user) ;;
       unassign_if_present roles (User.id user)
         (SubscriptionPlan.roleId oldSubscriptionPlan) "update" ;;
       assign_if_absent roles (User.id user) roleId "update"
     else if previous_status_truthy previousData
     then
       roles <- RoleService.getUserRoles (User.id user) ;;
       assign_if_absent roles (User.id user) roleId "update"
     else ret tt) ;;
    persist
  else if Stripe.cancel_at_period_end subscription
  then ret Undefined
  else persist.

(** [case 'customer.subscription.deleted']. *)
Definition customer_subscription_deleted
    (userProfile : UserProfile.t) (subscription : Stripe.Subscription)
  : M Returned :=
  let userId := UserProfile.userId userProfile in
  priceId <- items_data_0_plan_id subscription ;;
  subscriptionPlan <- SubscriptionPlansRepository.findOneByOrFail
                        (SubscriptionPlansRepository.by_stripePriceId priceId) ;;
  user <- UsersRepository.findOneByOrFail userId ;;
  if truthy_opt (User.stripeSubscriptionId user)
     && strict_neq (User.stripeSubscriptionId user) (Stripe.id subscription)
  then ret Undefined
  else
    roles <- RoleService.getUserRoles userId ;;
    unassign_if_present roles userId (SubscriptionPlan.roleId subscriptionPlan)
      "deletion" ;;
    UsersRepository.update userId
      (UserPatch.mk (Some (Stripe.status subscription)) (Some None) (Some None)) ;;
    publish_meUpdated userId ;;
    ret Undefined.

(** [switch (event.type)]. *)
Definition handle_event
    (event : Stripe.Event) (userProfile : UserProfile.t)
    (subscription : Stripe.Subscription) : M Returned :=
  if Stripe.type event =? "customer.subscription.created"
  then customer_subscription_created userProfile subscription
  else if Stripe.type event =? "customer.subscription.updated"
  then customer_subscription_updated event userProfile subscription
  else if Stripe.type event =? "customer.subscription.deleted"
  then customer_subscription_deleted userProfile subscription
  else
    Logger.warn ("Unhandled event type: " ++ Stripe.type event) ;;
    Reply.code 400.

(** [this.config.stripe && this.config.stripe.secretKey &&
    this.config.stripe.webhookSecret]. *)
Definition stripe_configured (config : Config.t) : bool :=
  match Config.stripe config with
  | Some c =>
      truthy_opt (Config.secretKey c) && truthy_opt (Config.webhookSecret c)
  | None => false
  end.

(** The webhook secret the verification is given; a string once
    [stripe_configured] holds. *)
Definition webhookSecret_of (config : Config.t) : string :=
  match Config.stripe config with
  | Some c =>
      match Config.webhookSecret c with
      | Some k => k
      | None => EmptyString
      end
  | None => EmptyString
  end.

Section Webhook.

(** [stripe.webhooks.constructEvent(body, signature, secret)] of the Stripe
    SDK, on the client built from the secret key: the parsed event, or
    [None] when it throws (the signature does not verify, or the payload
    does not parse). *)
Variable constructEvent : RawBody -> HeaderValue -> string -> option Stripe.Event.

(** The handler of [POST /webhook]. *)
Definition webhook (config : Config.t) (request : Request.t) : M Returned :=
  if negb (stripe_configured config)
  then
    Logger.error "The Stripe webhook configuration is not set correctly." ;;
    Reply.code 503
  else
    let body := Request.rawBody request in
    if negb (body_truthy body)
    then
      Logger.error "Request body from Stripe webhook is empty." ;;
      Reply.code 400
    else
      let signature := Request.stripe_signature request in
      if negb (header_truthy signature)
      then
        Logger.error "Webhook does not contain a signature." ;;
        Reply.code 400
      else
        match constructEvent body signature (webhookSecret_of config) with
        | None =>
            Logger.error "Webhook signature verification or event parsing failed." ;;
            Reply.code 400
        | Some event =>
            preprocessed <- preprocessEvent (Stripe.data_object event) ;;
            let '(userProfile, subscription) := preprocessed in
            Reply.code 204 ;;
            handle_event event userProfile subscription
        end.

End Webhook.

(** ** The framework's side

    The handler is an [async] function registered with fastify, and what goes
    out on the wire is decided by fastify from the way the handler ends.
    fastify is a dependency, not code of this repository; the three cases
    below are the contract its documentation gives for an async handler.
    - The handler returns [undefined]: fastify sends the reply as the handler
      left it, with the status code set on it (200 when none was set) and no
      payload.
    - The handler returns the reply object: the reply is a thenable that
      settles once a response has been sent, so fastify leaves the sending to
      the handler. This handler never calls [send], and nothing goes out.
    - The handler throws: fastify sends the error, and a status code below
      400 is replaced by 500. *)

Inductive Response : Type :=
| Sent (code : nat)
| NoResponse.

Module Fastify.
(** The status code of an error response: none of the errors of the handler
    carries a status code of its own. *)
Definition error_code (code : option nat) : nat :=
  match code with
  | Some c => if Nat.leb 400 c then c else 500
  | None => 500
  end.

Definition response (out : Result Returned * State) : Response :=
  match out with
  | (Ok Undefined, s) =>
      Sent (match statusCode s with Some c => c | None => 200 end)
  | (Ok TheReply, _) => NoResponse
  | (Throw _, s) => Sent (error_code (statusCode s))
  end.
End Fastify.

(** ** Vocabulary of the properties *)

(** Every path of [m] that returns ends in a bare [return]: the handler
    never returns the reply object from it. *)
Definition bare_return (m : M Returned) : Prop :=
  forall s, fst (m s) <> Ok TheReply.

(** The state after a request that only set a status code: the stores are those of
    [s], the reply carries [code], and [es] was appended to the trace. *)
Definition replied (code : nat) (es : list Effect) (s : State) : State :=
  mkState (userProfiles s) (users s) (subscriptionPlans s) (roleAssignments s)
    (Some code) (trace s ++ es).

(** The state a later request starts from: the stores carry over, the reply
    and the trace are fresh. *)
Definition new_request (s : State) : State :=
  mkState (userProfiles s) (users s) (subscriptionPlans s) (roleAssignments s)
    None [].

(** The event of a request that passes every check before preprocessing:
    the configuration is set, the body and the signature header are present,
    and the signature verifies. *)
Definition verified
    (constructEvent : RawBody -> HeaderValue -> string -> option Stripe.Event)
    (config : Config.t) (request : Request.t) : option Stripe.Event :=
  if stripe_configured config
     && body_truthy (Request.rawBody request)
     && header_truthy (Request.stripe_signature request)
  then constructEvent (Request.rawBody request) (Request.stripe_signature request)
         (webhookSecret_of config)
  else None.

(** The three event types the handler has a transition for. *)
Definition recognized (type : string) : bool :=
  (type =? "customer.subscription.created")
  || (type =? "customer.subscription.updated")
  || (type =? "customer.subscription.deleted").

(** Calls that change a store. *)
Definition is_write (e : Effect) : bool :=
  match e with
  | DbWrite _ | RoleAssign _ _ | RoleUnassign _ _ => true
  | _ => false
  end.

(** Calls that reach a store, to read or to write. *)
Definition is_store_access (e : Effect) : bool :=
  match e with
  | DbRead _ | DbWrite _ | RoleRead _ | RoleAssign _ _ | RoleUnassign _ _
  | Pack _ => true
  | _ => false
  end.

Definition is_publish (e : Effect) : bool :=
  match e with
  | Publish _ _ => true
  | _ => false
  end.

Definition is_warning (e : Effect) : bool :=
  match e with
  | Log Warn _ => true
  | _ => false
  end.

Definition is_reply (e : Effect) : bool :=
  match e with
  | ReplyCode _ => true
  | _ => false
  end.

Definition is_assign (e : Effect) : bool :=
  match e with
  | RoleAssign _ _ => true
  | _ => false
  end.

(** Neither a write nor a notification. *)
Definition passive (e : Effect) : bool := negb (is_write e || is_publish e).

Definition count (p : Effect -> bool) (es : list Effect) : nat :=
  length (filter p es).

(** The user holds the role. *)
Definition holds_role (s : State) (userId roleId : string) : bool :=
  RoleService.holds userId roleId (roleAssignments s).

(** The role is the role of some plan of the catalog. *)
Definition catalog_role (s : State) (roleId : string) : bool :=
  includes (map SubscriptionPlan.roleId (subscriptionPlans s)) roleId.

(** The plan the event's price resolves to. *)
Definition event_plan (s : State) (subscription : Stripe.Subscription)
  : option SubscriptionPlan.t :=
  match Stripe.items_data subscription with
  | item :: _ =>
      SubscriptionPlansRepository.lookup
        (SubscriptionPlansRepository.by_stripePriceId
           (Stripe.plan_id (Stripe.plan item)))
        (subscriptionPlans s)
  | [] => None
  end.

(** The foreign-event guard of the updated and deleted transitions lets the
    event through. *)
Definition passes_guard (user : User.t) (subscription : Stripe.Subscription) : bool :=
  negb (truthy_opt (User.stripeSubscriptionId user)
        && strict_neq (User.stripeSubscriptionId user) (Stripe.id subscription)).

(** Where the updated transition looks up the plan of the user row, it
    finds it: the lookup is made for an active event that names another plan
    than the one the row refers to, and for no other event. *)
Definition old_plan_found
    (s : State) (user : User.t) (subscriptionPlan : SubscriptionPlan.t)
    (subscription : Stripe.Subscription) : bool :=
  negb ((Stripe.status subscription =? "active")
        && truthy_opt (User.subscriptionPlanId user)
        && strict_neq (User.subscriptionPlanId user)
             (SubscriptionPlan.id subscriptionPlan))
  || not_null
       (SubscriptionPlansRepository.lookup
          (SubscriptionPlansRepository.by_id (User.subscriptionPlanId user))
          (subscriptionPlans s)).

(** The updated transition is not cut short by a pending cancellation. *)
Definition not_pending_cancellation (subscription : Stripe.Subscription) : bool :=
  (Stripe.status subscription =? "active")
  || negb (Stripe.cancel_at_period_end subscription).

(** The row the updated transition persists. *)
Definition updated_row
    (user : User.t) (subscriptionPlan : SubscriptionPlan.t)
    (subscription : Stripe.Subscription) : User.t :=
  if Stripe.status subscription =? "incomplete_expired"
  then User.mk (User.id user) (Stripe.status subscription) None None
  else User.mk (User.id user) (Stripe.status subscription)
         (Some (SubscriptionPlan.id subscriptionPlan))
         (Some (Stripe.id subscription)).







(** Every run of [m] takes a state to one related to it by [R]. *)
Definition respects {A : Type} (R : State -> State -> Prop) (m : M A) : Prop :=
  forall s, R s (snd (m s)).

(** From [s] to [s'] the status code of the reply is kept and no call of
    [reply.code] is made. *)
Definition keeps_reply (s s' : State) : Prop :=
  statusCode s' = statusCode s
  /\ exists es, trace s' = trace s ++ es /\ count is_reply es = 0.

(** ** Closed forms of the role reconciliation

    What the role blocks of the transitions leave in the role assignments and
    append to the trace, as functions of the assignments they start from. *)

(** [assign_if_absent] on the snapshot of the assignments [seen]: the role is
    granted unless the snapshot already has it. *)
Definition ensured (userId roleId : string) (seen ra : list (string * string))
  : list (string * string) :=
  if RoleService.holds userId roleId seen
  then ra
  else RoleService.grant userId roleId ra.

(** [unassign_if_present] on the snapshot [seen]: the role is revoked when
    the snapshot has it. *)
Definition dropped (userId roleId : string) (seen ra : list (string * string))
  : list (string * string) :=
  if RoleService.holds userId roleId seen
  then RoleService.revoke userId roleId ra
  else ra.

(** The calls of [assign_if_absent] on the snapshot [seen]. *)
Definition ensured_trace (userId roleId eventName : string)
    (seen : list (string * string)) : list Effect :=
  if RoleService.holds userId roleId seen
  then []
  else [RoleAssign userId roleId;
        Log Info (role_message userId "assigned" roleId eventName)].

(** The calls of [unassign_if_present] on the snapshot [seen]. *)
Definition dropped_trace (userId roleId eventName : string)
    (seen : list (string * string)) : list Effect :=
  if RoleService.holds userId roleId seen
  then [RoleUnassign userId roleId;
        Log Info (role_message userId "unassigned" roleId eventName)]
  else [].

(** The loop [unassign_other_plan_roles] over the snapshot [roles]. *)
Fixpoint others_revoked (roles : list Role.t) (roleIds : list string)
    (userId roleId : string) (ra : list (string * string))
  : list (string * string) :=
  match roles with
  | [] => ra
  | role :: roles' =>
      others_revoked roles' roleIds userId roleId
        (if includes roleIds (Role.id role) && negb (Role.id role =? roleId)
         then RoleService.revoke userId (Role.id role) ra
         else ra)
  end.

Fixpoint others_revoked_trace (roles : list Role.t) (roleIds : list string)
    (userId roleId : string) : list Effect :=
  match roles with
  | [] => []
  | role :: roles' =>
      (if includes roleIds (Role.id role) && negb (Role.id role =? roleId)
       then [RoleUnassign userId (Role.id role);
             Log Info (role_message userId "unassigned" (Role.id role) "update")]
       else [])
      ++ others_revoked_trace roles' roleIds userId roleId
  end.

(** The created transition grants the role only to an active subscription. *)
Definition created_roles (userId roleId status : string)
    (ra : list (string * string)) : list (string * string) :=
  if status =? "active" then ensured userId roleId ra ra else ra.

Definition created_role_trace (userId roleId status : string)
    (ra : list (string * string)) : list Effect :=
  if status =? "active"
  then RoleRead userId :: ensured_trace userId roleId "creation" ra
  else [].

(** The state the updated transition leaves when it persists: the rows of the
    user patched, the role assignments [ra], and the calls [es] of the role
    reconciliation between the two lookups and the update. *)
Definition updated_state
    (user : User.t) (subscriptionPlan : SubscriptionPlan.t)
    (subscription : Stripe.Subscription)
    (ra : list (string * string)) (es : list Effect) (s : State) : State :=
  mkState (userProfiles s)
    (UsersRepository.patch_rows (User.id user)
       (updated_patch user subscriptionPlan subscription) (users s))
    (subscriptionPlans s) ra (statusCode s)
    (trace s ++ [DbRead Users; DbRead SubscriptionPlans] ++ es
     ++ [DbWrite Users; Pack (User.id user); Publish (User.id user) "meUpdated"]).

(** The state a transition leaves when it only read: [es] is appended to the
    trace. *)
Definition observed (es : list Effect) (s : State) : State :=
  mkState (userProfiles s) (users s) (subscriptionPlans s) (roleAssignments s)
    (statusCode s) (trace s ++ es).

(** ** Sample data *)

Module Sample.
Definition basic : SubscriptionPlan.t :=
  SubscriptionPlan.mk "plan_basic" "price_basic" "role_basic".

Definition pro : SubscriptionPlan.t :=
  SubscriptionPlan.mk "plan_pro" "price_pro" "role_pro".

Definition profile : UserProfile.t := UserProfile.mk "alice" (Some "cus_alice").

(** A store with one profile, one user row and a catalog of two plans. *)
Definition state (user : User.t) (ra : list (string * string)) : State :=
  mkState [profile] [user] [basic; pro] ra None [].

Definition subscription (id status price : string) (cancel : bool)
  : Stripe.Subscription :=
  Stripe.mkSubscription id "cus_alice" status cancel
    [Stripe.mkItem (Stripe.mkPlan price)].

Definition config : Config.t :=
  Config.mk (Some (Config.mkStripe (Some "sk_test") (Some "whsec_test"))).

Definition request : Request.t :=
  Request.mk (BodyBuffer [Byte.x7b; Byte.x7d]) (HeaderString "t=1,v1=5257a8").

(** A verification that accepts every signature and parses the body to
    [event]. *)
Definition accepting (event : Stripe.Event)
  : RawBody -> HeaderValue -> string -> option Stripe.Event :=
  fun _ _ _ => Some event.

(** A verification that rejects every signature. *)
Definition rejecting : RawBody -> HeaderValue -> string -> option Stripe.Event :=
  fun _ _ _ => None.

Definition created (status price : string) : Stripe.Event :=
  Stripe.mkEvent "customer.subscription.created"
    (subscription "sub_1" status price false) None.

Definition updated (id status price : string) : Stripe.Event :=
  Stripe.mkEvent "customer.subscription.updated"
    (subscription id status price false) None.

Definition deleted (id price : string) : Stripe.Event :=
  Stripe.mkEvent "customer.subscription.deleted"
    (subscription id "canceled" price false) None.

Definition unknown : Stripe.Event :=
  Stripe.mkEvent "foo.bar" (subscription "sub_1" "active" "price_basic" false) None.

(** Alice before any subscription. *)
Definition fresh : User.t := User.mk "alice" "none" None None.

(** A store whose two plans grant the same role. *)
Definition yearly : SubscriptionPlan.t :=
  SubscriptionPlan.mk "plan_yearly" "price_yearly" "role_basic".

Definition shared_role_state (user : User.t) (ra : list (string * string))
  : State :=
  mkState [profile] [user] [basic; yearly] ra None [].

(** Alice subscribed to [plan] through the subscription [id]. *)
Definition subscribed (id : string) (plan : SubscriptionPlan.t) : User.t :=
  User.mk "alice" "active" (Some (SubscriptionPlan.id plan)) (Some id).

(** The outcome of the delivery of [event] in the state [s], and the state
    it leaves. *)
Definition run (event : Stripe.Event) (s : State) : Result Returned * State :=
  webhook (accepting event) config request s.

Definition after (event : Stripe.Event) (s : State) : State :=
  snd (run event s).

(** Alice with a plan and an external subscription id that is the empty
    string. *)
Definition subscribed_with_empty_id : User.t :=
  User.mk "alice" "active" (Some "plan_basic") (Some EmptyString).
End Sample.

(** ** Vocabulary of the outcomes

    Every delivery ends in one of two ways: it leaves the stores as they
    were, having only looked up and logged, or it has rewritten the row of
    one user and published one notification. *)

(** Calls that neither change a store nor reach the role service or the
    publisher: lookups, log entries and status codes. *)
Definition idle (e : Effect) : bool :=
  match e with
  | DbRead _ | Log _ _ | ReplyCode _ => true
  | _ => false
  end.

(** Calls that come before the update of the user row. *)
Definition preparatory (e : Effect) : bool :=
  match e with
  | DbWrite _ | Pack _ | Publish _ _ => false
  | _ => true
  end.

Definition is_row_write (e : Effect) : bool :=
  match e with
  | DbWrite _ => true
  | _ => false
  end.

(** Calls to the role service. *)
Definition is_role_call (e : Effect) : bool :=
  match e with
  | RoleRead _ | RoleAssign _ _ | RoleUnassign _ _ => true
  | _ => false
  end.

Definition is_unassign (e : Effect) : bool :=
  match e with
  | RoleUnassign _ _ => true
  | _ => false
  end.

(** The four stores are the same in both states. *)
Definition same_stores (s s' : State) : Prop :=
  userProfiles s' = userProfiles s
  /\ users s' = users s
  /\ subscriptionPlans s' = subscriptionPlans s
  /\ roleAssignments s' = roleAssignments s.

(** From [s] to [s'] nothing was stored: only idle calls were made. *)
Definition quiet (s s' : State) : Prop :=
  same_stores s s'
  /\ exists es, trace s' = trace s ++ es /\ forallb idle es = true.

(** The lookups of the handler: the reads of a repository and
    [getUserRoles]. *)
Definition is_lookup (e : Effect) : bool :=
  match e with
  | DbRead _ | RoleRead _ => true
  | _ => false
  end.

(** Calls through which nothing changes: lookups, log entries and status
    codes. *)
Definition looks (e : Effect) : bool :=
  match e with
  | DbRead _ | RoleRead _ | Log _ _ | ReplyCode _ => true
  | _ => false
  end.

(** The calls of the role reconciliation: grants, revocations and their log
    entries. *)
Definition changes_roles (e : Effect) : bool :=
  match e with
  | RoleAssign _ _ | RoleUnassign _ _ | Log _ _ => true
  | _ => false
  end.

(** From [s] to [s'] the rows of [userId] were patched, the roles of no other
    user changed, and the calls were the lookups, then the role
    reconciliation, then the one write to a table, followed by the one
    notification. *)
Definition settled (userId : string) (s s' : State) : Prop :=
  userProfiles s' = userProfiles s
  /\ subscriptionPlans s' = subscriptionPlans s
  /\ (exists p, users s' = UsersRepository.patch_rows userId p (users s))
  /\ (forall u r,
         u <> userId ->
         RoleService.holds u r (roleAssignments s')
         = RoleService.holds u r (roleAssignments s))
  /\ exists reads changes,
       trace s'
       = trace s ++ (reads ++ changes)
         ++ [DbWrite Users; Pack userId; Publish userId "meUpdated"]
       /\ forallb looks reads = true
       /\ forallb changes_roles changes = true.

(** The user row has no plan and no external subscription id, under the
    status [status]. *)
Definition cleared (user : User.t) (status : string) : User.t :=
  User.mk (User.id user) status None None.

(** A second user beside the one of the samples. *)
Module Crowd.
Definition bob : User.t := User.mk "bob" "active" (Some "plan_pro") (Some "sub_9").

Definition bob_profile : UserProfile.t := UserProfile.mk "bob" (Some "cus_bob").

(** Alice and Bob, each with a role through a plan. *)
Definition state : State :=
  mkState [Sample.profile; bob_profile]
    [Sample.subscribed "sub_1" Sample.basic; bob]
    [Sample.basic; Sample.pro]
    [("alice", "role_basic"); ("bob", "role_pro")]
    None [].

(** A verification that accepts every signature and parses the body
    [created] to a created event and the body [deleted] to the deleted event
    of the same subscription. *)
Definition by_body : RawBody -> HeaderValue -> string -> option Stripe.Event :=
  fun body _ _ =>
    match body with
    | BodyString b =>
        if b =? "created" then Some (Sample.created "active" "price_basic")
        else if b =? "deleted" then Some (Sample.deleted "sub_1" "price_basic")
        else None
    | _ => None
    end.

Definition request (body : string) : Request.t :=
  Request.mk (BodyString body) (HeaderString "t=1,v1=5257a8").
End Crowd.

(** The outcome of a transition whose lookup failed: the exception of the
    lookup, after idle calls only. *)
Definition lookup_failed (s : State) (out : Result Returned * State) : Prop :=
  exists e es,
    out = (Throw e, observed es s)
    /\ e <> AlreadyAssigned
    /\ forallb idle es = true.

(** ** Symbolic execution *)

Ltac unfold_monad :=
  cbv [bind ret throw gets emit set_users set_roleAssignments set_statusCode
       Logger.info Logger.warn Logger.error Reply.code
       UserProfilesRepository.findOneBy UsersRepository.findOneByOrFail
       UsersRepository.update SubscriptionPlansRepository.findOneByOrFail
       SubscriptionPlansRepository.find RoleService.getUserRoles
       RoleService.assign RoleService.unassign UserEntityService.pack
       GlobalEventService.publishMainStream
       items_data_0_plan_id publish_meUpdated assign_if_absent
       unassign_if_present].

Ltac proj :=
  cbn [userProfiles users subscriptionPlans roleAssignments statusCode trace
       fst snd negb andb orb not_null].

Ltac norm_trace := repeat rewrite <- app_assoc; cbn [app].

Ltac settle := proj; norm_trace; proj; reflexivity.

Ltac unfold_steps :=
  cbv [bind ret throw gets emit set_users set_roleAssignments set_statusCode
       Logger.info Logger.warn Logger.error Reply.code
       UserProfilesRepository.findOneBy UsersRepository.findOneByOrFail
       UsersRepository.update SubscriptionPlansRepository.findOneByOrFail
       SubscriptionPlansRepository.find RoleService.getUserRoles
       UserEntityService.pack GlobalEventService.publishMainStream
       items_data_0_plan_id publish_meUpdated].

(** ** From the request to the transition *)

Lemma verified_inv constructEvent config request event :
  verified constructEvent config request = Some event ->
  stripe_configured config = true
  /\ body_truthy (Request.rawBody request) = true
  /\ header_truthy (Request.stripe_signature request) = true
  /\ constructEvent (Request.rawBody request) (Request.stripe_signature request)
       (webhookSecret_of config) = Some event.
Proof.
  unfold verified.
  destruct (stripe_configured config); [ | discriminate ].
  destruct (body_truthy _); [ | discriminate ].
  destruct (header_truthy _); [ | discriminate ].
  auto.
Qed.

(** A verified event whose customer has a profile reaches the [switch] with
    the profile already read and the reply already set to 204. *)
Lemma webhook_dispatch constructEvent config request event userProfile s :
  verified constructEvent config request = Some event ->
  UserProfilesRepository.lookup (Stripe.customer (Stripe.data_object event))
    (userProfiles s) = Some userProfile ->
  webhook constructEvent config request s =
    handle_event event userProfile (Stripe.data_object event)
      (replied 204 [DbRead UserProfiles; ReplyCode 204] s).
Proof.
  intros Hv Hp.
  destruct (verified_inv _ _ _ _ Hv) as (Hc & Hb & Hh & Hce).
  cbv [webhook preprocessEvent]. unfold_monad.
  rewrite Hc, Hb, Hh, Hce. proj. rewrite Hp. proj.
  unfold replied. norm_trace. reflexivity.
Qed.

(** Without a profile the handler throws before it sets any status code. *)
Lemma webhook_no_profile constructEvent config request event s :
  verified constructEvent config request = Some event ->
  UserProfilesRepository.lookup (Stripe.customer (Stripe.data_object event))
    (userProfiles s) = None ->
  exists message,
    webhook constructEvent config request s =
      (Throw PlainError,
       mkState (userProfiles s) (users s) (subscriptionPlans s)
         (roleAssignments s) (statusCode s)
         (trace s ++ [DbRead UserProfiles; Log Warn message])).
Proof.
  intros Hv Hp.
  destruct (verified_inv _ _ _ _ Hv) as (Hc & Hb & Hh & Hce).
  cbv [webhook preprocessEvent]. unfold_monad.
  rewrite Hc, Hb, Hh, Hce. proj. rewrite Hp. proj.
  eexists. norm_trace. reflexivity.
Qed.

Lemma recognized_false type :
  recognized type = false ->
  (type =? "customer.subscription.created") = false
  /\ (type =? "customer.subscription.updated") = false
  /\ (type =? "customer.subscription.deleted") = false.
Proof.
  unfold recognized. intros H.
  apply orb_false_iff in H. destruct H as [H H3].
  apply orb_false_iff in H. destruct H as [H1 H2]. auto.
Qed.

Lemma recognized_true type :
  recognized type = true ->
  type = "customer.subscription.created"
  \/ type = "customer.subscription.updated"
  \/ type = "customer.subscription.deleted".
Proof.
  unfold recognized. intros H.
  apply orb_true_iff in H. destruct H as [H | H].
  - apply orb_true_iff in H. destruct H as [H | H];
      apply String.eqb_eq in H; auto.
  - apply String.eqb_eq in H. auto.
Qed.

Lemma handle_created event userProfile subscription :
  Stripe.type event = "customer.subscription.created" ->
  handle_event event userProfile subscription
  = customer_subscription_created userProfile subscription.
Proof. intros H. unfold handle_event. rewrite H. reflexivity. Qed.

Lemma handle_updated event userProfile subscription :
  Stripe.type event = "customer.subscription.updated" ->
  handle_event event userProfile subscription
  = customer_subscription_updated event userProfile subscription.
Proof. intros H. unfold handle_event. rewrite H. reflexivity. Qed.

Lemma handle_deleted event userProfile subscription :
  Stripe.type event = "customer.subscription.deleted" ->
  handle_event event userProfile subscription
  = customer_subscription_deleted userProfile subscription.
Proof. intros H. unfold handle_event. rewrite H. reflexivity. Qed.

(** ** The repositories *)

Lemma by_id_apply id p u :
  UsersRepository.by_id id (UserPatch.apply p u) = UsersRepository.by_id id u.
Proof. reflexivity. Qed.

(** The row a point lookup finds after an update is the patched row. *)
Lemma lookup_patch_rows id p us :
  UsersRepository.lookup id (UsersRepository.patch_rows id p us)
  = option_map (UserPatch.apply p) (UsersRepository.lookup id us).
Proof.
  unfold UsersRepository.lookup, UsersRepository.patch_rows.
  induction us as [ | u us IH ]; [ reflexivity | ].
  cbn [map find]. destruct (UsersRepository.by_id id u) eqn:E.
  - rewrite by_id_apply, E. reflexivity.
  - rewrite E. exact IH.
Qed.

Lemma lookup_id id us u :
  UsersRepository.lookup id us = Some u -> User.id u = id.
Proof.
  unfold UsersRepository.lookup. intros H. apply find_some in H.
  destruct H as [_ H]. apply String.eqb_eq. exact H.
Qed.

Lemma includes_In roleIds id : includes roleIds id = true <-> In id roleIds.
Proof.
  unfold includes. rewrite existsb_exists. split.
  - intros [r [Hin H]]. apply String.eqb_eq in H. subst. exact Hin.
  - intros Hin. exists id. split; [ exact Hin | apply String.eqb_refl ].
Qed.

(** A plan found in the catalog makes its role a catalog role. *)
Lemma lookup_catalog_role criterion s plan :
  SubscriptionPlansRepository.lookup criterion (subscriptionPlans s) = Some plan ->
  catalog_role s (SubscriptionPlan.roleId plan) = true.
Proof.
  unfold SubscriptionPlansRepository.lookup, catalog_role. intros H.
  apply find_some in H. destruct H as [Hin _].
  apply includes_In. apply in_map. exact Hin.
Qed.






(** ** The role service *)

Lemma some_role_roles_of userId roleId ra :
  some_role roleId (RoleService.roles_of userId ra)
  = RoleService.holds userId roleId ra.
Proof.
  unfold some_role, RoleService.roles_of, RoleService.holds,
    RoleService.is_assignment.
  induction ra as [ | a ra IH ]; [ reflexivity | ].
  cbn [filter existsb]. destruct (fst a =? userId) eqn:E.
  - cbn [map existsb Role.id andb]. rewrite IH. reflexivity.
  - cbn [andb orb]. exact IH.
Qed.

Lemma some_role_cons roleId role roles :
  some_role roleId (role :: roles)
  = (Role.id role =? roleId) || some_role roleId roles.
Proof. reflexivity. Qed.

Lemma holds_In userId roleId ra :
  RoleService.holds userId roleId ra = true <-> In (userId, roleId) ra.
Proof.
  unfold RoleService.holds, RoleService.is_assignment.
  rewrite existsb_exists. split.
  - intros [[u r] [Hin H]]. cbn [fst snd] in H.
    apply andb_true_iff in H. destruct H as [Hu Hr].
    apply String.eqb_eq in Hu, Hr. subst. exact Hin.
  - intros Hin. exists (userId, roleId). split; [ exact Hin | ].
    cbn [fst snd]. rewrite !String.eqb_refl. reflexivity.
Qed.

Lemma holds_revoke userId roleId userId' roleId' ra :
  RoleService.holds userId' roleId' (RoleService.revoke userId roleId ra)
  = RoleService.holds userId' roleId' ra
    && negb ((userId' =? userId) && (roleId' =? roleId)).
Proof.
  apply eq_true_iff_eq. rewrite andb_true_iff, !holds_In.
  unfold RoleService.revoke. rewrite filter_In.
  unfold RoleService.is_assignment. cbn [fst snd]. reflexivity.
Qed.

Lemma holds_grant userId roleId userId' roleId' ra :
  RoleService.holds userId' roleId' (RoleService.grant userId roleId ra)
  = RoleService.holds userId' roleId' ra
    || ((userId =? userId') && (roleId =? roleId')).
Proof.
  unfold RoleService.holds, RoleService.grant, RoleService.is_assignment.
  rewrite existsb_app. cbn [existsb fst snd]. rewrite orb_false_r. reflexivity.
Qed.

(** The role a block ensures is held afterwards, when the assignments the
    block runs on kept what the snapshot had of it. *)
Lemma holds_ensured userId roleId seen ra userId' roleId' :
  RoleService.holds userId' roleId' (ensured userId roleId seen ra)
  = RoleService.holds userId' roleId' ra
    || (negb (RoleService.holds userId roleId seen)
        && (userId =? userId') && (roleId =? roleId')).
Proof.
  unfold ensured. destruct (RoleService.holds userId roleId seen).
  - cbn [negb andb]. rewrite orb_false_r. reflexivity.
  - rewrite holds_grant. reflexivity.
Qed.

Lemma holds_dropped userId roleId ra userId' roleId' :
  RoleService.holds userId' roleId' (dropped userId roleId ra ra)
  = RoleService.holds userId' roleId' ra
    && negb ((userId' =? userId) && (roleId' =? roleId)).
Proof.
  unfold dropped. destruct (RoleService.holds userId roleId ra) eqn:H.
  - apply holds_revoke.
  - destruct ((userId' =? userId) && (roleId' =? roleId)) eqn:E.
    + apply andb_true_iff in E. destruct E as [Eu Er].
      apply String.eqb_eq in Eu, Er. subst. rewrite H. reflexivity.
    + rewrite andb_true_r. reflexivity.
Qed.

Lemma holds_others_revoked roles roleIds userId roleId userId' roleId' ra :
  RoleService.holds userId' roleId' ra = false ->
  RoleService.holds userId' roleId'
    (others_revoked roles roleIds userId roleId ra) = false.
Proof.
  revert ra. induction roles as [ | role roles IH ]; intros ra H; [ exact H | ].
  cbn [others_revoked]. apply IH.
  destruct (includes roleIds (Role.id role) && negb (Role.id role =? roleId));
    [ | exact H ].
  rewrite holds_revoke, H. reflexivity.
Qed.

(** After the loop a role is held when it was held and the loop had no
    reason to revoke it. *)
Lemma holds_others_revoked_eq roles roleIds userId roleId userId' roleId' ra :
  RoleService.holds userId' roleId'
    (others_revoked roles roleIds userId roleId ra)
  = RoleService.holds userId' roleId' ra
    && negb ((userId' =? userId) && some_role roleId' roles
             && includes roleIds roleId' && negb (roleId' =? roleId)).
Proof.
  revert ra. induction roles as [ | role roles IH ]; intros ra.
  - cbn [others_revoked some_role existsb]. rewrite andb_false_r.
    cbn [andb negb]. rewrite andb_true_r. reflexivity.
  - cbn [others_revoked]. rewrite IH, some_role_cons. clear IH.
    destruct (Role.id role =? roleId') eqn:E.
    + apply String.eqb_eq in E. subst roleId'.
      destruct (includes roleIds (Role.id role)),
        (negb (Role.id role =? roleId));
        cbn [andb orb]; rewrite ?holds_revoke, ?String.eqb_refl;
        destruct (RoleService.holds userId' (Role.id role) ra),
          (userId' =? userId), (some_role (Role.id role) roles);
        reflexivity.
    + cbn [orb].
      destruct (includes roleIds (Role.id role) && negb (Role.id role =? roleId));
        [ | reflexivity ].
      rewrite holds_revoke, (String.eqb_sym roleId'), E, andb_false_r.
      cbn [negb]. rewrite andb_true_r. reflexivity.
Qed.

(** The roles held after branch (a) of the updated transition. *)
Lemma holds_after_new_plan s userId roleId r :
  RoleService.holds userId r
    (ensured userId roleId (roleAssignments s)
       (others_revoked (RoleService.roles_of userId (roleAssignments s))
          (map SubscriptionPlan.roleId (subscriptionPlans s))
          userId roleId (roleAssignments s)))
  = RoleService.holds userId r (roleAssignments s)
    && negb (catalog_role s r && negb (r =? roleId))
    || negb (RoleService.holds userId roleId (roleAssignments s))
       && (roleId =? r).
Proof.
  rewrite holds_ensured, holds_others_revoked_eq, some_role_roles_of,
    !String.eqb_refl.
  unfold catalog_role. cbn [andb]. rewrite andb_true_r.
  destruct (RoleService.holds userId r (roleAssignments s));
    cbn [andb negb orb]; reflexivity.
Qed.

(** The roles held after branch (b) of the updated transition. *)
Lemma holds_after_plan_change ra userId oldRoleId roleId r :
  RoleService.holds userId r
    (ensured userId roleId ra (dropped userId oldRoleId ra ra))
  = RoleService.holds userId r ra && negb (r =? oldRoleId)
    || negb (RoleService.holds userId roleId ra) && (roleId =? r).
Proof.
  rewrite holds_ensured, holds_dropped, !String.eqb_refl.
  cbn [andb]. rewrite andb_true_r. reflexivity.
Qed.

(** ** The role blocks, run *)

(** [assign_if_absent] on a snapshot [seen] returns, provided a role the
    snapshot lacks is still not held when the block runs. *)
Lemma assign_if_absent_run seen userId roleId eventName s :
  (RoleService.holds userId roleId seen = false ->
   RoleService.holds userId roleId (roleAssignments s) = false) ->
  assign_if_absent (RoleService.roles_of userId seen) userId roleId eventName s
  = (Ok tt,
     mkState (userProfiles s) (users s) (subscriptionPlans s)
       (ensured userId roleId seen (roleAssignments s)) (statusCode s)
       (trace s ++ ensured_trace userId roleId eventName seen)).
Proof.
  intros H. unfold assign_if_absent, ensured, ensured_trace.
  rewrite some_role_roles_of.
  destruct (RoleService.holds userId roleId seen).
  - cbn [negb]. unfold ret. rewrite app_nil_r. destruct s; reflexivity.
  - cbn [negb]. unfold_monad. proj. rewrite (H eq_refl). settle.
Qed.

Lemma unassign_if_present_run seen userId roleId eventName s :
  unassign_if_present (RoleService.roles_of userId seen) userId roleId eventName s
  = (Ok tt,
     mkState (userProfiles s) (users s) (subscriptionPlans s)
       (dropped userId roleId seen (roleAssignments s)) (statusCode s)
       (trace s ++ dropped_trace userId roleId eventName seen)).
Proof.
  unfold unassign_if_present, dropped, dropped_trace.
  rewrite some_role_roles_of.
  destruct (RoleService.holds userId roleId seen).
  - unfold_monad. settle.
  - unfold ret. rewrite app_nil_r. destruct s; reflexivity.
Qed.

Lemma unassign_other_plan_roles_run roles roleIds userId roleId s :
  unassign_other_plan_roles roles roleIds userId roleId s
  = (Ok tt,
     mkState (userProfiles s) (users s) (subscriptionPlans s)
       (others_revoked roles roleIds userId roleId (roleAssignments s))
       (statusCode s)
       (trace s ++ others_revoked_trace roles roleIds userId roleId)).
Proof.
  unfold unassign_other_plan_roles. revert s.
  induction roles as [ | role roles IH ]; intros s.
  - cbn [for_of others_revoked others_revoked_trace]. unfold ret.
    rewrite app_nil_r. destruct s; reflexivity.
  - cbn [for_of others_revoked others_revoked_trace]. unfold bind at 1.
    destruct (includes roleIds (Role.id role) && negb (Role.id role =? roleId)).
    + unfold_monad. proj. rewrite IH. settle.
    + unfold ret at 1. rewrite IH. settle.
Qed.

Lemma count_app p es es' : count p (es ++ es') = count p es + count p es'.
Proof. unfold count. rewrite filter_app, length_app. reflexivity. Qed.

Lemma others_revoked_trace_no_assign roles roleIds userId roleId :
  count is_assign (others_revoked_trace roles roleIds userId roleId) = 0.
Proof.
  induction roles as [ | role roles IH ]; [ reflexivity | ].
  cbn [others_revoked_trace]. rewrite count_app, IH.
  destruct (includes roleIds (Role.id role) && negb (Role.id role =? roleId));
    reflexivity.
Qed.

Lemma dropped_trace_no_assign userId roleId eventName seen :
  count is_assign (dropped_trace userId roleId eventName seen) = 0.
Proof.
  unfold dropped_trace. destruct (RoleService.holds userId roleId seen);
    reflexivity.
Qed.

Lemma ensured_trace_held userId roleId eventName seen :
  RoleService.holds userId roleId seen = true ->
  ensured_trace userId roleId eventName seen = [].
Proof. unfold ensured_trace. intros ->. reflexivity. Qed.

(** ** The created transition *)

(** The already-processed path of the created transition. *)
Lemma created_noop_run userProfile subscription subscriptionPlan user s :
  event_plan s subscription = Some subscriptionPlan ->
  UsersRepository.lookup (UserProfile.userId userProfile) (users s) = Some user ->
  User.stripeSubscriptionId user <> None ->
  customer_subscription_created userProfile subscription s =
    (Ok Undefined,
     observed
       [DbRead SubscriptionPlans; DbRead Users;
        Log Info ("Subscription already exists for user ID " ++ User.id user
                  ++ ". No processing is needed.")] s).
Proof.
  unfold event_plan. intros Hplan Huser Hid.
  unfold customer_subscription_created. unfold_steps.
  destruct (Stripe.items_data subscription) as [ | item items ]; [ discriminate | ].
  proj. rewrite Hplan. proj. rewrite Huser. proj.
  destruct (User.stripeSubscriptionId user); [ | congruence ].
  unfold observed. settle.
Qed.

(** The full path of the created transition. *)
Lemma created_run userProfile subscription subscriptionPlan user s :
  event_plan s subscription = Some subscriptionPlan ->
  UsersRepository.lookup (UserProfile.userId userProfile) (users s) = Some user ->
  User.stripeSubscriptionId user = None ->
  customer_subscription_created userProfile subscription s =
    (Ok Undefined,
     mkState (userProfiles s)
       (UsersRepository.patch_rows (UserProfile.userId userProfile)
          (UserPatch.mk (Some (Stripe.status subscription))
             (Some (Some (SubscriptionPlan.id subscriptionPlan)))
             (Some (Some (Stripe.id subscription))))
          (users s))
       (subscriptionPlans s)
       (created_roles (UserProfile.userId userProfile)
          (SubscriptionPlan.roleId subscriptionPlan)
          (Stripe.status subscription) (roleAssignments s))
       (statusCode s)
       (trace s ++
        [DbRead SubscriptionPlans; DbRead Users]
        ++ created_role_trace (UserProfile.userId userProfile)
             (SubscriptionPlan.roleId subscriptionPlan)
             (Stripe.status subscription) (roleAssignments s)
        ++ [DbWrite Users; Pack (UserProfile.userId userProfile);
            Publish (UserProfile.userId userProfile) "meUpdated"])).
Proof.
  intros Hplan Huser Hid. unfold event_plan in Hplan.
  unfold customer_subscription_created, created_roles, created_role_trace.
  unfold_steps.
  destruct (Stripe.items_data subscription) as [ | item items ]; [ discriminate | ].
  proj. rewrite Hplan. proj. rewrite Huser. proj. rewrite Hid. proj.
  destruct (Stripe.status subscription =? "active"); proj.
  - rewrite assign_if_absent_run; [ | proj; auto ]. settle.
  - settle.
Qed.

(** A created transition that returns has found the plan and the user. *)
Lemma created_ok_inv userProfile subscription s s1 :
  customer_subscription_created userProfile subscription s = (Ok Undefined, s1) ->
  exists subscriptionPlan user,
    event_plan s subscription = Some subscriptionPlan
    /\ UsersRepository.lookup (UserProfile.userId userProfile) (users s)
       = Some user.
Proof.
  unfold customer_subscription_created, event_plan. unfold_monad.
  destruct (Stripe.items_data subscription) as [ | item items ];
    [ discriminate | ].
  proj.
  destruct (SubscriptionPlansRepository.lookup _ _) as [ plan | ];
    [ | discriminate ].
  proj.
  destruct (UsersRepository.lookup _ _) as [ user | ]; [ | discriminate ].
  intros _. exists plan, user. auto.
Qed.

(** ** The updated transition *)

Lemma passes_guard_true user subscription :
  passes_guard user subscription = true ->
  truthy_opt (User.stripeSubscriptionId user)
  && strict_neq (User.stripeSubscriptionId user) (Stripe.id subscription) = false.
Proof. unfold passes_guard. intros H. apply negb_true_iff in H. exact H. Qed.

Lemma passes_guard_same user subscription :
  User.stripeSubscriptionId user = Some (Stripe.id subscription) ->
  passes_guard user subscription = true.
Proof.
  intros H. unfold passes_guard. rewrite H. cbn [strict_neq].
  rewrite String.eqb_refl. cbn [negb]. rewrite andb_false_r. reflexivity.
Qed.

Ltac updated_start Huser Hplan :=
  unfold customer_subscription_updated; unfold_steps;
  unfold event_plan in Hplan;
  proj; rewrite Huser; proj;
  match type of Hplan with
  | match Stripe.items_data ?sub with _ => _ end = _ =>
      destruct (Stripe.items_data sub) as [ | ? ? ]; [ discriminate | ]
  end;
  proj; rewrite Hplan; proj.

(** The foreign-event guard: the event is dropped after the two lookups. *)
Lemma updated_foreign_run event userProfile subscription subscriptionPlan user s :
  UsersRepository.lookup (UserProfile.userId userProfile) (users s) = Some user ->
  event_plan s subscription = Some subscriptionPlan ->
  passes_guard user subscription = false ->
  customer_subscription_updated event userProfile subscription s
  = (Ok Undefined, observed [DbRead Users; DbRead SubscriptionPlans] s).
Proof.
  intros Huser Hplan Hguard. updated_start Huser Hplan.
  unfold passes_guard in Hguard. apply negb_false_iff in Hguard.
  rewrite Hguard. unfold observed. settle.
Qed.

(** Branch (a): the user had no plan. *)
Lemma updated_new_plan_run event userProfile subscription subscriptionPlan user s :
  UsersRepository.lookup (UserProfile.userId userProfile) (users s) = Some user ->
  event_plan s subscription = Some subscriptionPlan ->
  passes_guard user subscription = true ->
  Stripe.status subscription = "active" ->
  truthy_opt (User.subscriptionPlanId user) = false ->
  customer_subscription_updated event userProfile subscription s
  = (Ok Undefined,
     updated_state user subscriptionPlan subscription
       (ensured (User.id user) (SubscriptionPlan.roleId subscriptionPlan)
          (roleAssignments s)
          (others_revoked
             (RoleService.roles_of (User.id user) (roleAssignments s))
             (map SubscriptionPlan.roleId (subscriptionPlans s))
             (User.id user) (SubscriptionPlan.roleId subscriptionPlan)
             (roleAssignments s)))
       ([DbRead SubscriptionPlans; RoleRead (User.id user)]
        ++ others_revoked_trace
             (RoleService.roles_of (User.id user) (roleAssignments s))
             (map SubscriptionPlan.roleId (subscriptionPlans s))
             (User.id user) (SubscriptionPlan.roleId subscriptionPlan)
        ++ ensured_trace (User.id user)
             (SubscriptionPlan.roleId subscriptionPlan) "update"
             (roleAssignments s))
       s).
Proof.
  intros Huser Hplan Hguard Hstatus Hnone. updated_start Huser Hplan.
  rewrite (passes_guard_true _ _ Hguard), Hstatus, String.eqb_refl, Hnone. proj.
  rewrite unassign_other_plan_roles_run. proj.
  rewrite assign_if_absent_run;
    [ | proj; apply holds_others_revoked ].
  unfold updated_state. settle.
Qed.

(** Branch (b): the plan changed. *)
Lemma updated_plan_change_run
    event userProfile subscription subscriptionPlan oldSubscriptionPlan user s :
  UsersRepository.lookup (UserProfile.userId userProfile) (users s) = Some user ->
  event_plan s subscription = Some subscriptionPlan ->
  passes_guard user subscription = true ->
  Stripe.status subscription = "active" ->
  truthy_opt (User.subscriptionPlanId user) = true ->
  strict_neq (User.subscriptionPlanId user) (SubscriptionPlan.id subscriptionPlan)
    = true ->
  SubscriptionPlansRepository.lookup
    (SubscriptionPlansRepository.by_id (User.subscriptionPlanId user))
    (subscriptionPlans s) = Some oldSubscriptionPlan ->
  customer_subscription_updated event userProfile subscription s
  = (Ok Undefined,
     updated_state user subscriptionPlan subscription
       (ensured (User.id user) (SubscriptionPlan.roleId subscriptionPlan)
          (roleAssignments s)
          (dropped (User.id user) (SubscriptionPlan.roleId oldSubscriptionPlan)
             (roleAssignments s) (roleAssignments s)))
       ([DbRead SubscriptionPlans; RoleRead (User.id user)]
        ++ dropped_trace (User.id user)
             (SubscriptionPlan.roleId oldSubscriptionPlan) "update"
             (roleAssignments s)
        ++ ensured_trace (User.id user)
             (SubscriptionPlan.roleId subscriptionPlan) "update"
             (roleAssignments s))
       s).
Proof.
  intros Huser Hplan Hguard Hstatus Hsome Hneq Hold. updated_start Huser Hplan.
  rewrite (passes_guard_true _ _ Hguard), Hstatus, String.eqb_refl, Hsome, Hneq.
  proj. rewrite Hold. proj.
  rewrite unassign_if_present_run. proj.
  rewrite assign_if_absent_run.
  - unfold updated_state. settle.
  - proj. intros H. unfold dropped.
    destruct (RoleService.holds (User.id user)
                (SubscriptionPlan.roleId oldSubscriptionPlan) (roleAssignments s));
      [ | exact H ].
    rewrite holds_revoke, H. reflexivity.
Qed.

(** Branch (b) with a stored plan that is not in the catalog: the lookup of
    the old plan throws before any role or row is written. *)
Lemma updated_plan_change_throws
    event userProfile subscription subscriptionPlan user s :
  UsersRepository.lookup (UserProfile.userId userProfile) (users s) = Some user ->
  event_plan s subscription = Some subscriptionPlan ->
  passes_guard user subscription = true ->
  Stripe.status subscription = "active" ->
  truthy_opt (User.subscriptionPlanId user) = true ->
  strict_neq (User.subscriptionPlanId user) (SubscriptionPlan.id subscriptionPlan)
    = true ->
  SubscriptionPlansRepository.lookup
    (SubscriptionPlansRepository.by_id (User.subscriptionPlanId user))
    (subscriptionPlans s) = None ->
  customer_subscription_updated event userProfile subscription s
  = (Throw (EntityNotFoundError SubscriptionPlans),
     observed [DbRead Users; DbRead SubscriptionPlans; DbRead SubscriptionPlans] s).
Proof.
  intros Huser Hplan Hguard Hstatus Hsome Hneq Hold. updated_start Huser Hplan.
  rewrite (passes_guard_true _ _ Hguard), Hstatus, String.eqb_refl, Hsome, Hneq.
  proj. rewrite Hold. unfold observed. settle.
Qed.

(** Branch (c): same plan, the status changed. *)
Lemma updated_status_change_run
    event userProfile subscription subscriptionPlan user s :
  UsersRepository.lookup (UserProfile.userId userProfile) (users s) = Some user ->
  event_plan s subscription = Some subscriptionPlan ->
  passes_guard user subscription = true ->
  Stripe.status subscription = "active" ->
  truthy_opt (User.subscriptionPlanId user) = true ->
  strict_neq (User.subscriptionPlanId user) (SubscriptionPlan.id subscriptionPlan)
    = false ->
  previous_status_truthy (Stripe.data_previous_attributes event) = true ->
  customer_subscription_updated event userProfile subscription s
  = (Ok Undefined,
     updated_state user subscriptionPlan subscription
       (ensured (User.id user) (SubscriptionPlan.roleId subscriptionPlan)
          (roleAssignments s) (roleAssignments s))
       (RoleRead (User.id user)
        :: ensured_trace (User.id user)
             (SubscriptionPlan.roleId subscriptionPlan) "update"
             (roleAssignments s))
       s).
Proof.
  intros Huser Hplan Hguard Hstatus Hsome Hneq Hprev. updated_start Huser Hplan.
  rewrite (passes_guard_true _ _ Hguard), Hstatus, String.eqb_refl, Hsome, Hneq,
    Hprev.
  proj. rewrite assign_if_absent_run; [ | proj; auto ].
  unfold updated_state. settle.
Qed.

(** Same plan and no change of status: no role work. *)
Lemma updated_same_run event userProfile subscription subscriptionPlan user s :
  UsersRepository.lookup (UserProfile.userId userProfile) (users s) = Some user ->
  event_plan s subscription = Some subscriptionPlan ->
  passes_guard user subscription = true ->
  Stripe.status subscription = "active" ->
  truthy_opt (User.subscriptionPlanId user) = true ->
  strict_neq (User.subscriptionPlanId user) (SubscriptionPlan.id subscriptionPlan)
    = false ->
  previous_status_truthy (Stripe.data_previous_attributes event) = false ->
  customer_subscription_updated event userProfile subscription s
  = (Ok Undefined,
     updated_state user subscriptionPlan subscription (roleAssignments s) [] s).
Proof.
  intros Huser Hplan Hguard Hstatus Hsome Hneq Hprev. updated_start Huser Hplan.
  rewrite (passes_guard_true _ _ Hguard), Hstatus, String.eqb_refl, Hsome, Hneq,
    Hprev.
  unfold updated_state. settle.
Qed.

(** A status other than active with a cancellation pending: nothing. *)
Lemma updated_cancel_run event userProfile subscription subscriptionPlan user s :
  UsersRepository.lookup (UserProfile.userId userProfile) (users s) = Some user ->
  event_plan s subscription = Some subscriptionPlan ->
  passes_guard user subscription = true ->
  (Stripe.status subscription =? "active") = false ->
  Stripe.cancel_at_period_end subscription = true ->
  customer_subscription_updated event userProfile subscription s
  = (Ok Undefined, observed [DbRead Users; DbRead SubscriptionPlans] s).
Proof.
  intros Huser Hplan Hguard Hstatus Hcancel. updated_start Huser Hplan.
  rewrite (passes_guard_true _ _ Hguard), Hstatus, Hcancel.
  unfold observed. settle.
Qed.

(** A status other than active with no cancellation pending: persisted. *)
Lemma updated_inactive_run event userProfile subscription subscriptionPlan user s :
  UsersRepository.lookup (UserProfile.userId userProfile) (users s) = Some user ->
  event_plan s subscription = Some subscriptionPlan ->
  passes_guard user subscription = true ->
  (Stripe.status subscription =? "active") = false ->
  Stripe.cancel_at_period_end subscription = false ->
  customer_subscription_updated event userProfile subscription s
  = (Ok Undefined,
     updated_state user subscriptionPlan subscription (roleAssignments s) [] s).
Proof.
  intros Huser Hplan Hguard Hstatus Hcancel. updated_start Huser Hplan.
  rewrite (passes_guard_true _ _ Hguard), Hstatus, Hcancel.
  unfold updated_state. settle.
Qed.

(** An updated transition either only observed, whatever its outcome, or
    found the user and the plan and went past the guard. *)
Lemma updated_before_guard event userProfile subscription s :
  (exists r es,
      customer_subscription_updated event userProfile subscription s
      = (r, observed es s)
      /\ forallb passive es = true)
  \/ (exists user subscriptionPlan,
        UsersRepository.lookup (UserProfile.userId userProfile) (users s)
        = Some user
        /\ event_plan s subscription = Some subscriptionPlan
        /\ passes_guard user subscription = true).
Proof.
  destruct (UsersRepository.lookup (UserProfile.userId userProfile) (users s))
    as [ user | ] eqn:Huser.
  2: { left. unfold customer_subscription_updated. unfold_steps. proj.
       rewrite Huser. do 2 eexists. unfold observed.
       split; [ settle | reflexivity ]. }
  destruct (event_plan s subscription) as [ plan | ] eqn:Hplan.
  2: { left. unfold customer_subscription_updated. unfold_steps. proj.
       rewrite Huser. proj. unfold event_plan in Hplan.
       destruct (Stripe.items_data subscription) as [ | item items ].
       - do 2 eexists. unfold observed. split; [ settle | reflexivity ].
       - proj. rewrite Hplan. do 2 eexists. unfold observed.
         split; [ settle | reflexivity ]. }
  destruct (passes_guard user subscription) eqn:Hguard.
  - right. exists user, plan. auto.
  - left. rewrite (updated_foreign_run _ _ _ plan user); try assumption.
    do 2 eexists. split; reflexivity.
Qed.

(** Past the guard, the patch of the updated transition turns the user row
    into [updated_row]: a stored id that is set is the event's id. *)
Lemma updated_patch_apply user subscriptionPlan subscription :
  passes_guard user subscription = true ->
  UserPatch.apply (updated_patch user subscriptionPlan subscription) user
  = updated_row user subscriptionPlan subscription.
Proof.
  intros Hguard. apply passes_guard_true in Hguard.
  unfold updated_patch, updated_row, UserPatch.apply.
  cbn [UserPatch.subscriptionStatus UserPatch.subscriptionPlanId
       UserPatch.stripeSubscriptionId].
  destruct (Stripe.status subscription =? "incomplete_expired");
    cbn [negb]; [ reflexivity | ].
  destruct (truthy_opt (User.stripeSubscriptionId user)) eqn:Hset;
    [ | reflexivity ].
  cbn [andb] in Hguard.
  destruct (User.stripeSubscriptionId user) as [ sid | ]; [ | discriminate ].
  cbn [strict_neq] in Hguard. apply negb_false_iff in Hguard.
  apply String.eqb_eq in Hguard. subst. reflexivity.
Qed.

(** Past the guard and not cut short, the updated transition returns a state
    of the shape [updated_state]. *)
Lemma updated_persists event userProfile subscription subscriptionPlan user s :
  UsersRepository.lookup (UserProfile.userId userProfile) (users s) = Some user ->
  event_plan s subscription = Some subscriptionPlan ->
  passes_guard user subscription = true ->
  not_pending_cancellation subscription = true ->
  old_plan_found s user subscriptionPlan subscription = true ->
  exists ra es,
    customer_subscription_updated event userProfile subscription s
    = (Ok Undefined, updated_state user subscriptionPlan subscription ra es s).
Proof.
  intros Huser Hplan Hguard Hnot Href.
  destruct (Stripe.status subscription =? "active") eqn:Hactive.
  - apply String.eqb_eq in Hactive.
    destruct (truthy_opt (User.subscriptionPlanId user)) eqn:Hsome.
    + destruct (strict_neq (User.subscriptionPlanId user)
                  (SubscriptionPlan.id subscriptionPlan)) eqn:Hneq.
      * unfold old_plan_found in Href.
        rewrite Hactive, String.eqb_refl, Hsome, Hneq in Href.
        cbn [andb negb orb] in Href.
        destruct (SubscriptionPlansRepository.lookup
                    (SubscriptionPlansRepository.by_id
                       (User.subscriptionPlanId user))
                    (subscriptionPlans s)) as [ old | ] eqn:Hold;
          [ | discriminate ].
        do 2 eexists.
        apply (updated_plan_change_run _ _ _ _ old); assumption.
      * destruct (previous_status_truthy (Stripe.data_previous_attributes event))
          eqn:Hprev; do 2 eexists.
        -- apply updated_status_change_run; assumption.
        -- apply updated_same_run; assumption.
    + do 2 eexists. apply updated_new_plan_run; assumption.
  - unfold not_pending_cancellation in Hnot. rewrite Hactive in Hnot.
    cbn [orb] in Hnot. apply negb_true_iff in Hnot.
    do 2 eexists. apply updated_inactive_run; assumption.
Qed.

(** ** The deleted transition *)

(** A deleted transition that finds no plan, or no user, throws and has only
    observed. *)
Lemma deleted_no_plan userProfile subscription s :
  event_plan s subscription = None ->
  exists e es,
    customer_subscription_deleted userProfile subscription s
    = (Throw e, observed es s).
Proof.
  intros Hplan. unfold customer_subscription_deleted. unfold_steps.
  unfold event_plan in Hplan.
  destruct (Stripe.items_data subscription) as [ | item items ].
  - exists TypeError, []. unfold observed. rewrite app_nil_r.
    destruct s; reflexivity.
  - proj. rewrite Hplan. do 2 eexists. unfold observed. settle.
Qed.

Lemma deleted_no_user userProfile subscription subscriptionPlan s :
  event_plan s subscription = Some subscriptionPlan ->
  UsersRepository.lookup (UserProfile.userId userProfile) (users s) = None ->
  exists e es,
    customer_subscription_deleted userProfile subscription s
    = (Throw e, observed es s).
Proof.
  intros Hplan Huser. unfold customer_subscription_deleted. unfold_steps.
  unfold event_plan in Hplan.
  destruct (Stripe.items_data subscription) as [ | item items ];
    [ discriminate | ].
  proj. rewrite Hplan. proj. rewrite Huser. do 2 eexists.
  unfold observed. settle.
Qed.

Lemma deleted_foreign_run userProfile subscription subscriptionPlan user s :
  event_plan s subscription = Some subscriptionPlan ->
  UsersRepository.lookup (UserProfile.userId userProfile) (users s) = Some user ->
  passes_guard user subscription = false ->
  customer_subscription_deleted userProfile subscription s
  = (Ok Undefined, observed [DbRead SubscriptionPlans; DbRead Users] s).
Proof.
  intros Hplan Huser Hguard. unfold event_plan in Hplan.
  unfold customer_subscription_deleted. unfold_steps.
  destruct (Stripe.items_data subscription) as [ | item items ]; [ discriminate | ].
  proj. rewrite Hplan. proj. rewrite Huser. proj.
  unfold passes_guard in Hguard. apply negb_false_iff in Hguard.
  rewrite Hguard. unfold observed. settle.
Qed.

Lemma deleted_run userProfile subscription subscriptionPlan user s :
  event_plan s subscription = Some subscriptionPlan ->
  UsersRepository.lookup (UserProfile.userId userProfile) (users s) = Some user ->
  passes_guard user subscription = true ->
  customer_subscription_deleted userProfile subscription s
  = (Ok Undefined,
     mkState (userProfiles s)
       (UsersRepository.patch_rows (UserProfile.userId userProfile)
          (UserPatch.mk (Some (Stripe.status subscription)) (Some None)
             (Some None))
          (users s))
       (subscriptionPlans s)
       (dropped (UserProfile.userId userProfile)
          (SubscriptionPlan.roleId subscriptionPlan)
          (roleAssignments s) (roleAssignments s))
       (statusCode s)
       (trace s
        ++ [DbRead SubscriptionPlans; DbRead Users;
            RoleRead (UserProfile.userId userProfile)]
        ++ dropped_trace (UserProfile.userId userProfile)
             (SubscriptionPlan.roleId subscriptionPlan) "deletion"
             (roleAssignments s)
        ++ [DbWrite Users; Pack (UserProfile.userId userProfile);
            Publish (UserProfile.userId userProfile) "meUpdated"])).
Proof.
  intros Hplan Huser Hguard. unfold event_plan in Hplan.
  unfold customer_subscription_deleted. unfold_steps.
  destruct (Stripe.items_data subscription) as [ | item items ]; [ discriminate | ].
  proj. rewrite Hplan. proj. rewrite Huser. proj.
  rewrite (passes_guard_true _ _ Hguard).
  rewrite unassign_if_present_run. settle.
Qed.

(** ** What the transitions leave alone *)

Section Footprint.

(** A relation between states that every step other than [reply.code]
    preserves. *)
Variable R : State -> State -> Prop.
Hypothesis R_refl : forall s, R s s.
Hypothesis R_trans : forall s1 s2 s3, R s1 s2 -> R s2 s3 -> R s1 s3.
Hypothesis R_emit : forall e s, is_reply e = false -> R s (snd (emit e s)).
Hypothesis R_users : forall us s, R s (snd (set_users us s)).
Hypothesis R_roles : forall ra s, R s (snd (set_roleAssignments ra s)).

Lemma respects_ret {A : Type} (a : A) : respects R (ret a).
Proof. intros s. apply R_refl. Qed.

Lemma respects_throw {A : Type} (e : Exn) : respects R (@throw A e).
Proof. intros s. apply R_refl. Qed.

Lemma respects_gets {A : Type} (f : State -> A) : respects R (gets f).
Proof. intros s. apply R_refl. Qed.

Lemma respects_emit (e : Effect) : is_reply e = false -> respects R (emit e).
Proof. intros H s. apply R_emit. exact H. Qed.

Lemma respects_set_users us : respects R (set_users us).
Proof. intros s. apply R_users. Qed.

Lemma respects_set_roleAssignments ra : respects R (set_roleAssignments ra).
Proof. intros s. apply R_roles. Qed.

Lemma respects_bind {A B : Type} (m : M A) (k : A -> M B) :
  respects R m -> (forall a, respects R (k a)) -> respects R (bind m k).
Proof.
  intros Hm Hk s. unfold bind. specialize (Hm s).
  destruct (m s) as [[a | e] s1]; cbn [snd] in *.
  - apply R_trans with s1; [ exact Hm | apply Hk ].
  - exact Hm.
Qed.

Lemma respects_for_of {A : Type} (xs : list A) (body : A -> M unit) :
  (forall x, respects R (body x)) -> respects R (for_of xs body).
Proof.
  intros Hbody. induction xs as [ | x xs IH ]; cbn [for_of].
  - apply respects_ret.
  - apply respects_bind; [ apply Hbody | intros _; exact IH ].
Qed.

Ltac respect :=
  repeat first
    [ apply respects_ret
    | apply respects_throw
    | apply respects_gets
    | apply respects_emit; reflexivity
    | apply respects_set_users
    | apply respects_set_roleAssignments
    | apply respects_bind; [ | intros ?; cbv beta ]
    | apply respects_for_of; intros ?; cbv beta
    | match goal with
      | |- respects _ (if ?b then _ else _) => destruct b
      | |- respects _ (match ?x with _ => _ end) => destruct x
      end ].

Ltac open_collaborators :=
  unfold items_data_0_plan_id, publish_meUpdated, assign_if_absent,
    unassign_if_present, unassign_other_plan_roles,
    UsersRepository.findOneByOrFail, UsersRepository.update,
    SubscriptionPlansRepository.findOneByOrFail,
    SubscriptionPlansRepository.find,
    RoleService.getUserRoles, RoleService.assign, RoleService.unassign,
    UserEntityService.pack, GlobalEventService.publishMainStream,
    Logger.info.

Lemma respects_created userProfile subscription :
  respects R (customer_subscription_created userProfile subscription).
Proof.
  unfold customer_subscription_created. cbv zeta. open_collaborators. respect.
Qed.

Lemma respects_updated event userProfile subscription :
  respects R (customer_subscription_updated event userProfile subscription).
Proof.
  unfold customer_subscription_updated. cbv zeta. open_collaborators. respect.
Qed.

Lemma respects_deleted userProfile subscription :
  respects R (customer_subscription_deleted userProfile subscription).
Proof.
  unfold customer_subscription_deleted. cbv zeta. open_collaborators. respect.
Qed.

End Footprint.

Lemma keeps_reply_refl s : keeps_reply s s.
Proof.
  split; [ reflexivity | ]. exists []. rewrite app_nil_r. auto.
Qed.

Lemma keeps_reply_trans s1 s2 s3 :
  keeps_reply s1 s2 -> keeps_reply s2 s3 -> keeps_reply s1 s3.
Proof.
  intros [Hc1 (es1 & Ht1 & Hn1)] [Hc2 (es2 & Ht2 & Hn2)]. split.
  - congruence.
  - exists (es1 ++ es2). rewrite Ht2, Ht1, app_assoc, count_app, Hn1, Hn2. auto.
Qed.

Lemma keeps_reply_emit e s : is_reply e = false -> keeps_reply s (snd (emit e s)).
Proof.
  intros H. split; [ reflexivity | ]. exists [e]. split; [ reflexivity | ].
  unfold count. cbn [filter]. rewrite H. reflexivity.
Qed.

Lemma keeps_reply_users us s : keeps_reply s (snd (set_users us s)).
Proof.
  split; [ reflexivity | ]. exists []. cbn [snd set_users trace].
  rewrite app_nil_r. auto.
Qed.

Lemma keeps_reply_roles ra s : keeps_reply s (snd (set_roleAssignments ra s)).
Proof.
  split; [ reflexivity | ]. exists []. cbn [snd set_roleAssignments trace].
  rewrite app_nil_r. auto.
Qed.

(** ** Rejected requests *)

(** C7. A request whose signature header is present and whose signature does
    not verify against the raw body and the configured secret: the handler
    logs one error, sets the status code 400 on the reply and leaves every
    store as it was, without a single call to a repository or to the role
    service. It then returns the reply object, which it has not sent and
    never sends: no response goes out, where the claim has a response 400. *)
Theorem invalid_signature_gets_no_response :
  forall constructEvent config request s,
    stripe_configured config = true ->
    Request.stripe_signature request <> HeaderUndefined ->
    constructEvent (Request.rawBody request) (Request.stripe_signature request)
      (webhookSecret_of config) = None ->
    (exists message,
        webhook constructEvent config request s =
          (Ok TheReply, replied 400 [Log Error message; ReplyCode 400] s))
    /\ Fastify.response (webhook constructEvent config request s) = NoResponse.
Proof.
  intros constructEvent config request s Hc _ Hv.
  assert (H : exists message,
             webhook constructEvent config request s =
               (Ok TheReply, replied 400 [Log Error message; ReplyCode 400] s)).
  { cbv [webhook]. unfold_monad. rewrite Hc. proj.
    destruct (body_truthy _); proj.
    - destruct (header_truthy _); proj.
      + rewrite Hv. eexists. unfold replied. norm_trace. reflexivity.
      + eexists. unfold replied. norm_trace. reflexivity.
    - eexists. unfold replied. norm_trace. reflexivity. }
  split; [ exact H | ].
  destruct H as [message H]. rewrite H. reflexivity.
Qed.

Lemma invalid_signature_gets_no_response_witness :
  (exists message,
      webhook Sample.rejecting Sample.config Sample.request
        (Sample.state Sample.fresh [])
      = (Ok TheReply,
         replied 400 [Log Error message; ReplyCode 400]
           (Sample.state Sample.fresh [])))
  /\ Fastify.response
       (webhook Sample.rejecting Sample.config Sample.request
          (Sample.state Sample.fresh []))
     = NoResponse.
Proof.
  apply invalid_signature_gets_no_response.
  - reflexivity.
  - discriminate.
  - reflexivity.
Defined.

(** ** Unhandled event types *)

(** C5, as the code has it. For a verified event of an unrecognized type
    whose customer has a profile, the handler sets the status code 204 and
    then 400 on the reply, logs exactly one warning and writes nothing; the
    profile lookup of the common preprocessing is the one call that reaches
    a store. The handler ends by returning the reply object. *)
Theorem unhandled_type_reads_profile_then_400 :
  forall constructEvent config request s event userProfile,
    verified constructEvent config request = Some event ->
    recognized (Stripe.type event) = false ->
    UserProfilesRepository.lookup (Stripe.customer (Stripe.data_object event))
      (userProfiles s) = Some userProfile ->
    webhook constructEvent config request s =
      (Ok TheReply,
       replied 400
         [DbRead UserProfiles; ReplyCode 204;
          Log Warn ("Unhandled event type: " ++ Stripe.type event);
          ReplyCode 400] s).
Proof.
  intros constructEvent config request s event userProfile Hv Hr Hp.
  rewrite (webhook_dispatch _ _ _ _ _ _ Hv Hp).
  destruct (recognized_false _ Hr) as (H1 & H2 & H3).
  unfold handle_event. rewrite H1, H2, H3.
  unfold_monad. proj. unfold replied. proj. norm_trace. reflexivity.
Qed.

Lemma unhandled_type_reads_profile_then_400_witness :
  webhook (Sample.accepting Sample.unknown) Sample.config Sample.request
    (Sample.state Sample.fresh [])
  = (Ok TheReply,
     replied 400
       [DbRead UserProfiles; ReplyCode 204;
        Log Warn ("Unhandled event type: " ++ Stripe.type Sample.unknown);
        ReplyCode 400] (Sample.state Sample.fresh [])).
Proof.
  apply unhandled_type_reads_profile_then_400 with (userProfile := Sample.profile);
    reflexivity.
Defined.

(** The unknown event [foo.bar] is verified and of no recognized type, and
    still the handler has read the profile table for it. *)
Lemma unhandled_type_accesses_store :
  verified (Sample.accepting Sample.unknown) Sample.config Sample.request
    = Some Sample.unknown
  /\ recognized (Stripe.type Sample.unknown) = false
  /\ count is_store_access
       (trace (snd (webhook (Sample.accepting Sample.unknown) Sample.config
                      Sample.request (Sample.state Sample.fresh [])))) <> 0.
Proof.
  split; [ reflexivity | split; [ reflexivity | ] ].
  vm_compute. discriminate.
Qed.

(** ** The response *)

Lemma bare_return_ret : bare_return (ret Undefined).
Proof. intros s. cbn. discriminate. Qed.

Lemma bare_return_bind {A : Type} (m : M A) (k : A -> M Returned) :
  (forall a, bare_return (k a)) -> bare_return (bind m k).
Proof.
  intros H s. unfold bind. destruct (m s) as [[a | e] s'].
  - apply H.
  - cbn. discriminate.
Qed.

Ltac solve_bare_return :=
  repeat first
    [ apply bare_return_ret
    | apply bare_return_bind; intros
    | match goal with
      | |- bare_return (if ?c then _ else _) => destruct c
      end ].

(** The three transitions end in a bare [return] on every path. *)
Lemma bare_return_created userProfile subscription :
  bare_return (customer_subscription_created userProfile subscription).
Proof. unfold customer_subscription_created. cbv zeta. solve_bare_return. Qed.

Lemma bare_return_updated event userProfile subscription :
  bare_return (customer_subscription_updated event userProfile subscription).
Proof. unfold customer_subscription_updated. cbv zeta. solve_bare_return. Qed.

Lemma bare_return_deleted userProfile subscription :
  bare_return (customer_subscription_deleted userProfile subscription).
Proof. unfold customer_subscription_deleted. cbv zeta. solve_bare_return. Qed.

Lemma bare_return_recognized event userProfile subscription :
  recognized (Stripe.type event) = true ->
  bare_return (handle_event event userProfile subscription).
Proof.
  intros Hr s. destruct (recognized_true _ Hr) as [Ht | [Ht | Ht]].
  - rewrite (handle_created _ _ _ Ht). apply bare_return_created.
  - rewrite (handle_updated _ _ _ Ht). apply bare_return_updated.
  - rewrite (handle_deleted _ _ _ Ht). apply bare_return_deleted.
Qed.

(** C8, as the code has it. For a verified event of a recognized type whose
    customer has a profile, the handler sets the status code 204 right after
    the profile lookup of preprocessing and before the first step of the
    transition, and the transition never sets a status code: whether the
    handler returns or throws in the role or persistence work, the reply
    object is left with 204. What goes out follows the outcome: 204 when the
    handler returns, and 500 when it throws. *)
Theorem reply_carries_204_and_a_throw_is_answered_500 :
  forall constructEvent config request s event userProfile,
    verified constructEvent config request = Some event ->
    recognized (Stripe.type event) = true ->
    UserProfilesRepository.lookup (Stripe.customer (Stripe.data_object event))
      (userProfiles s) = Some userProfile ->
    exists r s' es,
      webhook constructEvent config request s = (r, s')
      /\ statusCode s' = Some 204
      /\ trace s' = trace s ++ [DbRead UserProfiles; ReplyCode 204] ++ es
      /\ count is_reply es = 0
      /\ Fastify.response (r, s')
         = match r with
           | Ok _ => Sent 204
           | Throw _ => Sent 500
           end.
Proof.
  intros constructEvent config request s event userProfile Hv Hr Hp.
  rewrite (webhook_dispatch _ _ _ _ _ _ Hv Hp).
  assert (Hkeep : respects keeps_reply
                    (handle_event event userProfile (Stripe.data_object event))).
  { destruct (recognized_true _ Hr) as [Ht | [Ht | Ht]].
    - rewrite (handle_created _ _ _ Ht).
      apply respects_created;
        auto using keeps_reply_refl, keeps_reply_emit, keeps_reply_users,
          keeps_reply_roles.
      exact keeps_reply_trans.
    - rewrite (handle_updated _ _ _ Ht).
      apply respects_updated;
        auto using keeps_reply_refl, keeps_reply_emit, keeps_reply_users,
          keeps_reply_roles.
      exact keeps_reply_trans.
    - rewrite (handle_deleted _ _ _ Ht).
      apply respects_deleted;
        auto using keeps_reply_refl, keeps_reply_emit, keeps_reply_users,
          keeps_reply_roles.
      exact keeps_reply_trans. }
  specialize (Hkeep (replied 204 [DbRead UserProfiles; ReplyCode 204] s)).
  pose proof (bare_return_recognized event userProfile
                (Stripe.data_object event) Hr
                (replied 204 [DbRead UserProfiles; ReplyCode 204] s)) as Hbare.
  destruct (handle_event event userProfile (Stripe.data_object event)
              (replied 204 [DbRead UserProfiles; ReplyCode 204] s)) as [r s'].
  cbn [fst snd] in Hkeep, Hbare. destruct Hkeep as [Hcode (es & Htrace & Hes)].
  exists r, s', es. split; [ reflexivity | ].
  cbn [replied statusCode trace] in Hcode, Htrace.
  split; [ exact Hcode | ]. split; [ rewrite Htrace, <- app_assoc; reflexivity | ].
  split; [ exact Hes | ].
  destruct r as [ [ | ] | e ]; cbn [Fastify.response].
  - rewrite Hcode. reflexivity.
  - contradiction Hbare. reflexivity.
  - rewrite Hcode. reflexivity.
Qed.

Lemma reply_carries_204_and_a_throw_is_answered_500_witness :
  fst (webhook (Sample.accepting (Sample.created "active" "price_basic"))
         Sample.config Sample.request (Sample.state Sample.fresh []))
  = Ok Undefined
  /\ exists r s' es,
       webhook (Sample.accepting (Sample.created "active" "price_basic"))
         Sample.config Sample.request (Sample.state Sample.fresh [])
       = (r, s')
       /\ statusCode s' = Some 204
       /\ trace s'
          = trace (Sample.state Sample.fresh [])
            ++ [DbRead UserProfiles; ReplyCode 204] ++ es
       /\ count is_reply es = 0
       /\ Fastify.response (r, s')
          = match r with
            | Ok _ => Sent 204
            | Throw _ => Sent 500
            end.
Proof.
  split; [ vm_compute; reflexivity | ].
  apply (reply_carries_204_and_a_throw_is_answered_500
           (Sample.accepting (Sample.created "active" "price_basic"))
           Sample.config Sample.request (Sample.state Sample.fresh [])
           (Sample.created "active" "price_basic") Sample.profile);
    reflexivity.
Defined.

(** A created event for a price that is in no plan of the catalog is
    verified, of a recognized type and for a customer with a profile. The
    lookup of the plan throws after the status code 204 was set, and what
    goes out is 500, not 204. *)
Lemma failed_transition_is_answered_500 :
  verified (Sample.accepting (Sample.created "active" "price_unknown"))
    Sample.config Sample.request
  = Some (Sample.created "active" "price_unknown")
  /\ recognized (Stripe.type (Sample.created "active" "price_unknown")) = true
  /\ UserProfilesRepository.lookup
       (Stripe.customer
          (Stripe.data_object (Sample.created "active" "price_unknown")))
       (userProfiles (Sample.state Sample.fresh []))
     = Some Sample.profile
  /\ Sample.run (Sample.created "active" "price_unknown")
       (Sample.state Sample.fresh [])
     = (Throw (EntityNotFoundError SubscriptionPlans),
        replied 204
          [DbRead UserProfiles; ReplyCode 204; DbRead SubscriptionPlans]
          (Sample.state Sample.fresh []))
  /\ Fastify.response
       (Sample.run (Sample.created "active" "price_unknown")
          (Sample.state Sample.fresh []))
     = Sent 500
  /\ Fastify.response
       (Sample.run (Sample.created "active" "price_unknown")
          (Sample.state Sample.fresh []))
     <> Sent 204.
Proof.
  repeat split; try (vm_compute; reflexivity).
  vm_compute. discriminate.
Qed.

(** ** Idempotence of the created event *)

(** C3. A created event for a user whose stored external subscription id is
    not null only reads: the handler looks up the profile, the plan and the
    user, logs one info message and returns, with no role assignment, no
    update of the user row and no notification. Hence, once a created event
    has been processed, delivering it again changes nothing. *)
Theorem created_for_subscribed_user_is_noop :
  forall constructEvent config request event,
    verified constructEvent config request = Some event ->
    Stripe.type event = "customer.subscription.created" ->
    (forall s userProfile subscriptionPlan user,
        UserProfilesRepository.lookup
          (Stripe.customer (Stripe.data_object event)) (userProfiles s)
          = Some userProfile ->
        event_plan s (Stripe.data_object event) = Some subscriptionPlan ->
        UsersRepository.lookup (UserProfile.userId userProfile) (users s)
          = Some user ->
        User.stripeSubscriptionId user <> None ->
        webhook constructEvent config request s =
          (Ok Undefined,
           replied 204
             [DbRead UserProfiles; ReplyCode 204; DbRead SubscriptionPlans;
              DbRead Users;
              Log Info ("Subscription already exists for user ID "
                        ++ User.id user ++ ". No processing is needed.")] s))
    /\ (forall s s1,
           webhook constructEvent config request s = (Ok Undefined, s1) ->
           exists message,
             webhook constructEvent config request (new_request s1) =
               (Ok Undefined,
                replied 204
                  [DbRead UserProfiles; ReplyCode 204; DbRead SubscriptionPlans;
                   DbRead Users; Log Info message] (new_request s1))).
Proof.
  intros constructEvent config request event Hv Ht.
  assert (Hnoop : forall s userProfile subscriptionPlan user,
             UserProfilesRepository.lookup
               (Stripe.customer (Stripe.data_object event)) (userProfiles s)
               = Some userProfile ->
             event_plan s (Stripe.data_object event) = Some subscriptionPlan ->
             UsersRepository.lookup (UserProfile.userId userProfile) (users s)
               = Some user ->
             User.stripeSubscriptionId user <> None ->
             webhook constructEvent config request s =
               (Ok Undefined,
                replied 204
                  [DbRead UserProfiles; ReplyCode 204; DbRead SubscriptionPlans;
                   DbRead Users;
                   Log Info ("Subscription already exists for user ID "
                             ++ User.id user ++ ". No processing is needed.")] s)).
  { intros s userProfile subscriptionPlan user Hp Hplan Huser Hid.
    rewrite (webhook_dispatch _ _ _ _ _ _ Hv Hp), (handle_created _ _ _ Ht).
    rewrite (created_noop_run _ _ subscriptionPlan user); try assumption.
    unfold replied, observed. settle. }
  split; [ exact Hnoop | ].
  intros s s1 Hrun.
  destruct (UserProfilesRepository.lookup
              (Stripe.customer (Stripe.data_object event)) (userProfiles s))
    as [ userProfile | ] eqn:Hp.
  2: { destruct (webhook_no_profile _ _ _ _ _ Hv Hp) as [m Hm].
       rewrite Hm in Hrun. discriminate. }
  rewrite (webhook_dispatch _ _ _ _ _ _ Hv Hp), (handle_created _ _ _ Ht) in Hrun.
  destruct (created_ok_inv _ _ _ _ Hrun) as (plan & user & Hplan & Huser).
  destruct (User.stripeSubscriptionId user) as [ sid | ] eqn:Hid.
  - rewrite (created_noop_run _ _ plan user) in Hrun;
      [ | assumption | assumption | congruence ].
    injection Hrun as <-. eexists.
    apply (Hnoop _ userProfile plan user); try assumption. congruence.
  - rewrite (created_run _ _ plan user) in Hrun; try assumption.
    injection Hrun as <-. eexists.
    apply (Hnoop _ userProfile plan
             (UserPatch.apply
                (UserPatch.mk (Some (Stripe.status (Stripe.data_object event)))
                   (Some (Some (SubscriptionPlan.id plan)))
                   (Some (Some (Stripe.id (Stripe.data_object event)))))
                user)); try assumption.
    + cbn [new_request users]. rewrite lookup_patch_rows.
      cbn [replied users] in Huser. rewrite Huser. reflexivity.
    + discriminate.
Qed.

Lemma created_for_subscribed_user_is_noop_witness :
  webhook (Sample.accepting (Sample.created "active" "price_basic"))
    Sample.config Sample.request
    (Sample.state (Sample.subscribed "sub_1" Sample.basic)
       [("alice", "role_basic")])
  = (Ok Undefined,
     replied 204
       [DbRead UserProfiles; ReplyCode 204; DbRead SubscriptionPlans;
        DbRead Users;
        Log Info ("Subscription already exists for user ID "
                  ++ User.id (Sample.subscribed "sub_1" Sample.basic)
                  ++ ". No processing is needed.")]
       (Sample.state (Sample.subscribed "sub_1" Sample.basic)
          [("alice", "role_basic")]))
  /\ exists message,
       webhook (Sample.accepting (Sample.created "active" "price_basic"))
         Sample.config Sample.request
         (new_request
            (snd (webhook (Sample.accepting (Sample.created "active" "price_basic"))
                    Sample.config Sample.request
                    (Sample.state Sample.fresh []))))
       = (Ok Undefined,
          replied 204
            [DbRead UserProfiles; ReplyCode 204; DbRead SubscriptionPlans;
             DbRead Users; Log Info message]
            (new_request
               (snd (webhook (Sample.accepting
                                (Sample.created "active" "price_basic"))
                       Sample.config Sample.request
                       (Sample.state Sample.fresh []))))).
Proof.
  destruct (created_for_subscribed_user_is_noop
              (Sample.accepting (Sample.created "active" "price_basic"))
              Sample.config Sample.request
              (Sample.created "active" "price_basic") eq_refl eq_refl)
    as [Hnoop Hreplay].
  split.
  - refine (Hnoop (Sample.state (Sample.subscribed "sub_1" Sample.basic)
                     [("alice", "role_basic")])
              Sample.profile Sample.basic
              (Sample.subscribed "sub_1" Sample.basic)
              eq_refl eq_refl eq_refl _).
    discriminate.
  - refine (Hreplay (Sample.state Sample.fresh [])
              (snd (webhook (Sample.accepting
                               (Sample.created "active" "price_basic"))
                      Sample.config Sample.request
                      (Sample.state Sample.fresh []))) _).
    vm_compute. reflexivity.
Defined.

(** ** The foreign-event guard *)

(** C4, as the code has it. An updated event whose subscription id differs
    from a stored external subscription id that is set (neither null nor the
    empty string, which the guard takes for unset) changes nothing: whatever
    the outcome of the lookups, the stores are untouched and the handler
    makes no write and publishes no notification. *)
Theorem foreign_updated_event_changes_nothing :
  forall constructEvent config request s event userProfile user,
    verified constructEvent config request = Some event ->
    Stripe.type event = "customer.subscription.updated" ->
    UserProfilesRepository.lookup (Stripe.customer (Stripe.data_object event))
      (userProfiles s) = Some userProfile ->
    UsersRepository.lookup (UserProfile.userId userProfile) (users s)
      = Some user ->
    truthy_opt (User.stripeSubscriptionId user) = true ->
    strict_neq (User.stripeSubscriptionId user)
      (Stripe.id (Stripe.data_object event)) = true ->
    exists r es,
      webhook constructEvent config request s = (r, replied 204 es s)
      /\ forallb passive es = true.
Proof.
  intros constructEvent config request s event userProfile user
    Hv Ht Hp Huser Hset Hdiff.
  rewrite (webhook_dispatch _ _ _ _ _ _ Hv Hp), (handle_updated _ _ _ Ht).
  destruct (updated_before_guard event userProfile (Stripe.data_object event)
              (replied 204 [DbRead UserProfiles; ReplyCode 204] s))
    as [ (r & es & Hrun & Hes) | (user' & plan & Huser' & _ & Hguard) ].
  - rewrite Hrun. exists r, ([DbRead UserProfiles; ReplyCode 204] ++ es).
    split.
    + unfold observed, replied. settle.
    + cbn [app forallb]. exact Hes.
  - cbn [replied users] in Huser'. rewrite Huser in Huser'.
    injection Huser' as <-. unfold passes_guard in Hguard.
    rewrite Hset, Hdiff in Hguard. discriminate.
Qed.

Lemma foreign_updated_event_changes_nothing_witness :
  exists r es,
    webhook (Sample.accepting (Sample.updated "sub_2" "active" "price_pro"))
      Sample.config Sample.request
      (Sample.state (Sample.subscribed "sub_1" Sample.basic)
         [("alice", "role_basic")])
    = (r,
       replied 204 es
         (Sample.state (Sample.subscribed "sub_1" Sample.basic)
            [("alice", "role_basic")]))
    /\ forallb passive es = true.
Proof.
  apply foreign_updated_event_changes_nothing
    with (event := Sample.updated "sub_2" "active" "price_pro")
         (userProfile := Sample.profile)
         (user := Sample.subscribed "sub_1" Sample.basic);
    reflexivity.
Defined.

(** A stored external subscription id that is the empty string is not null
    and differs from the event's, and yet the updated event is processed: the
    role of the new plan is granted, the user row is rewritten and a
    notification is published. *)
Lemma foreign_updated_event_with_empty_stored_id :
  User.stripeSubscriptionId Sample.subscribed_with_empty_id <> None
  /\ User.stripeSubscriptionId Sample.subscribed_with_empty_id
     <> Some (Stripe.id (Stripe.data_object
                           (Sample.updated "sub_2" "active" "price_pro")))
  /\ roleAssignments
       (snd (webhook (Sample.accepting (Sample.updated "sub_2" "active" "price_pro"))
               Sample.config Sample.request
               (Sample.state Sample.subscribed_with_empty_id
                  [("alice", "role_basic")])))
     = [("alice", "role_pro")]
  /\ users
       (snd (webhook (Sample.accepting (Sample.updated "sub_2" "active" "price_pro"))
               Sample.config Sample.request
               (Sample.state Sample.subscribed_with_empty_id
                  [("alice", "role_basic")])))
     = [User.mk "alice" "active" (Some "plan_pro") (Some "sub_2")]
  /\ count is_publish
       (trace
          (snd (webhook (Sample.accepting
                           (Sample.updated "sub_2" "active" "price_pro"))
                  Sample.config Sample.request
                  (Sample.state Sample.subscribed_with_empty_id
                     [("alice", "role_basic")]))))
     = 1.
Proof.
  split; [ discriminate | ]. split; [ discriminate | ].
  vm_compute. repeat split.
Qed.

(** ** What the updated transition persists *)

(** C9, as the code has it. An updated event that passes the foreign-event
    guard and is not cut short by a pending cancellation and, where it is an
    active event that names another plan than the one the user row refers to,
    finds the plan of the row in the catalog: the handler returns having
    written the user row, which then holds the status of the event, the plan
    of the event and the subscription id of the event, or no plan and no
    subscription id when the status is [incomplete_expired]. *)
Theorem updated_persists_status_plan_and_id :
  forall constructEvent config request s event userProfile subscriptionPlan user,
    verified constructEvent config request = Some event ->
    Stripe.type event = "customer.subscription.updated" ->
    UserProfilesRepository.lookup (Stripe.customer (Stripe.data_object event))
      (userProfiles s) = Some userProfile ->
    UsersRepository.lookup (UserProfile.userId userProfile) (users s)
      = Some user ->
    event_plan s (Stripe.data_object event) = Some subscriptionPlan ->
    passes_guard user (Stripe.data_object event) = true ->
    not_pending_cancellation (Stripe.data_object event) = true ->
    old_plan_found s user subscriptionPlan (Stripe.data_object event) = true ->
    exists s',
      webhook constructEvent config request s = (Ok Undefined, s')
      /\ UsersRepository.lookup (UserProfile.userId userProfile) (users s')
         = Some (updated_row user subscriptionPlan (Stripe.data_object event))
      /\ exists es,
           trace s'
           = trace s ++ es
             ++ [DbWrite Users; Pack (User.id user);
                 Publish (User.id user) "meUpdated"].
Proof.
  intros constructEvent config request s event userProfile plan user
    Hv Ht Hp Huser Hplan Hguard Hnot Href.
  rewrite (webhook_dispatch _ _ _ _ _ _ Hv Hp), (handle_updated _ _ _ Ht).
  destruct (updated_persists event userProfile (Stripe.data_object event) plan
              user (replied 204 [DbRead UserProfiles; ReplyCode 204] s))
    as (ra & es & Hrun); try assumption.
  rewrite Hrun. eexists. split; [ reflexivity | ].
  unfold updated_state. cbn [replied users trace]. split.
  - rewrite (lookup_id _ _ _ Huser), lookup_patch_rows, Huser.
    cbn [option_map]. rewrite updated_patch_apply by assumption. reflexivity.
  - exists ([DbRead UserProfiles; ReplyCode 204; DbRead Users;
             DbRead SubscriptionPlans] ++ es).
    norm_trace. reflexivity.
Qed.

Lemma updated_persists_status_plan_and_id_witness :
  exists s',
    webhook (Sample.accepting (Sample.updated "sub_1" "incomplete_expired"
                                 "price_basic"))
      Sample.config Sample.request
      (Sample.state (Sample.subscribed "sub_1" Sample.basic)
         [("alice", "role_basic")])
    = (Ok Undefined, s')
    /\ UsersRepository.lookup "alice" (users s')
       = Some (User.mk "alice" "incomplete_expired" None None)
    /\ exists es,
         trace s' = es ++ [DbWrite Users; Pack "alice"; Publish "alice" "meUpdated"].
Proof.
  apply (updated_persists_status_plan_and_id
           (Sample.accepting (Sample.updated "sub_1" "incomplete_expired"
                                "price_basic"))
           Sample.config Sample.request
           (Sample.state (Sample.subscribed "sub_1" Sample.basic)
              [("alice", "role_basic")])
           (Sample.updated "sub_1" "incomplete_expired" "price_basic")
           Sample.profile Sample.basic
           (Sample.subscribed "sub_1" Sample.basic));
    reflexivity.
Defined.

(** The user row refers to a plan that has left the catalog, and an active
    updated event of the same subscription names another plan. The event
    passes the guard and is not cut short by a pending cancellation, yet the
    lookup of the old plan throws before the update: nothing is written and
    the user row is as it was. *)
Lemma updated_from_a_retired_plan_persists_nothing :
  verified (Sample.accepting (Sample.updated "sub_1" "active" "price_pro"))
    Sample.config Sample.request
  = Some (Sample.updated "sub_1" "active" "price_pro")
  /\ Stripe.type (Sample.updated "sub_1" "active" "price_pro")
     = "customer.subscription.updated"
  /\ passes_guard (User.mk "alice" "active" (Some "plan_retired") (Some "sub_1"))
       (Stripe.data_object (Sample.updated "sub_1" "active" "price_pro"))
     = true
  /\ not_pending_cancellation
       (Stripe.data_object (Sample.updated "sub_1" "active" "price_pro"))
     = true
  /\ fst (Sample.run (Sample.updated "sub_1" "active" "price_pro")
            (Sample.state
               (User.mk "alice" "active" (Some "plan_retired") (Some "sub_1"))
               [("alice", "role_retired")]))
     = Throw (EntityNotFoundError SubscriptionPlans)
  /\ users
       (Sample.after (Sample.updated "sub_1" "active" "price_pro")
          (Sample.state
             (User.mk "alice" "active" (Some "plan_retired") (Some "sub_1"))
             [("alice", "role_retired")]))
     = [User.mk "alice" "active" (Some "plan_retired") (Some "sub_1")]
  /\ count is_write
       (trace
          (Sample.after (Sample.updated "sub_1" "active" "price_pro")
             (Sample.state
                (User.mk "alice" "active" (Some "plan_retired") (Some "sub_1"))
                [("alice", "role_retired")])))
     = 0.
Proof.
  repeat split; vm_compute; reflexivity.
Qed.

(** ** The change of plan *)

(** C2, as the code has it. The user row refers to the plan P1 of the
    catalog and the user holds its role R1. An updated event with status
    active that passes the foreign-event guard and whose price resolves to
    another plan P2, with another role R2, ends with R2 held and R1 revoked.
    [assign] is not called when R2 was already held; the roles that belong to
    no plan are as before; and when R1 and R2 were the only plan roles the
    user held, R2 is the only plan role held afterwards. *)
Theorem plan_change_swaps_roles :
  forall constructEvent config request s event userProfile user
         oldSubscriptionPlan subscriptionPlan,
    verified constructEvent config request = Some event ->
    Stripe.type event = "customer.subscription.updated" ->
    UserProfilesRepository.lookup (Stripe.customer (Stripe.data_object event))
      (userProfiles s) = Some userProfile ->
    UsersRepository.lookup (UserProfile.userId userProfile) (users s)
      = Some user ->
    User.subscriptionPlanId user = Some (SubscriptionPlan.id oldSubscriptionPlan) ->
    SubscriptionPlansRepository.lookup
      (SubscriptionPlansRepository.by_id (User.subscriptionPlanId user))
      (subscriptionPlans s) = Some oldSubscriptionPlan ->
    holds_role s (UserProfile.userId userProfile)
      (SubscriptionPlan.roleId oldSubscriptionPlan) = true ->
    Stripe.status (Stripe.data_object event) = "active" ->
    event_plan s (Stripe.data_object event) = Some subscriptionPlan ->
    SubscriptionPlan.id subscriptionPlan <> SubscriptionPlan.id oldSubscriptionPlan ->
    SubscriptionPlan.roleId subscriptionPlan
      <> SubscriptionPlan.roleId oldSubscriptionPlan ->
    passes_guard user (Stripe.data_object event) = true ->
    let userId := UserProfile.userId userProfile in
    let R1 := SubscriptionPlan.roleId oldSubscriptionPlan in
    let R2 := SubscriptionPlan.roleId subscriptionPlan in
    exists s' es,
      webhook constructEvent config request s = (Ok Undefined, s')
      /\ trace s' = trace s ++ es
      /\ holds_role s' userId R2 = true
      /\ holds_role s' userId R1 = false
      /\ (holds_role s userId R2 = true -> count is_assign es = 0)
      /\ (forall r, catalog_role s r = false ->
                    holds_role s' userId r = holds_role s userId r)
      /\ ((forall r, catalog_role s r = true -> holds_role s userId r = true ->
                     r = R1 \/ r = R2) ->
          forall r, catalog_role s r = true -> holds_role s' userId r = true ->
                    r = R2).
Proof.
  intros constructEvent config request s event userProfile user old plan
    Hv Ht Hp Huser Hstored Hold Hheld Hstatus Hplan Hdiff Hroles Hguard
    userId R1 R2.
  pose proof (lookup_id _ _ _ Huser) as Hid.
  assert (Hc1 : catalog_role s R1 = true) by (eapply lookup_catalog_role; eauto).
  assert (Hc2 : catalog_role s R2 = true).
  { unfold event_plan in Hplan.
    destruct (Stripe.items_data (Stripe.data_object event)); [ discriminate | ].
    eapply lookup_catalog_role; eauto. }
  assert (H21 : (R2 =? R1) = false) by (apply String.eqb_neq; exact Hroles).
  assert (H12 : (R1 =? R2) = false)
    by (apply String.eqb_neq; intros E; apply Hroles; symmetry; exact E).
  assert (Hneq : strict_neq (User.subscriptionPlanId user)
                   (SubscriptionPlan.id plan) = true).
  { rewrite Hstored. cbn [strict_neq]. apply negb_true_iff.
    apply String.eqb_neq. intros E. apply Hdiff. symmetry. exact E. }
  rewrite (webhook_dispatch _ _ _ _ _ _ Hv Hp), (handle_updated _ _ _ Ht).
  unfold holds_role in *.
  change (RoleService.holds userId R1 (roleAssignments s) = true) in Hheld.
  destruct (truthy_opt (User.subscriptionPlanId user)) eqn:Hsome.
  - (* the plan changed *)
    rewrite (updated_plan_change_run _ _ _ plan old user); try assumption.
    unfold updated_state. cbn [replied users roleAssignments subscriptionPlans trace].
    rewrite Hid. fold userId R1 R2. eexists.
    exists ([DbRead UserProfiles; ReplyCode 204; DbRead Users;
             DbRead SubscriptionPlans; DbRead SubscriptionPlans;
             RoleRead userId]
            ++ dropped_trace userId R1 "update" (roleAssignments s)
            ++ ensured_trace userId R2 "update" (roleAssignments s)
            ++ [DbWrite Users; Pack userId; Publish userId "meUpdated"]).
    split; [ reflexivity | ]. cbn [roleAssignments trace].
    split; [ norm_trace; reflexivity | ].
    pose proof (holds_after_plan_change (roleAssignments s) userId R1 R2)
      as Hra.
    repeat split.
    + rewrite Hra, H21, String.eqb_refl. cbn [negb].
      destruct (RoleService.holds userId R2 (roleAssignments s)); reflexivity.
    + rewrite Hra, String.eqb_refl, H21. cbn [negb].
      rewrite !andb_false_r. reflexivity.
    + intros Hheld2. rewrite !count_app, dropped_trace_no_assign.
      rewrite (ensured_trace_held _ _ _ _ Hheld2). reflexivity.
    + intros r Hr. rewrite Hra.
      assert (E1 : (r =? R1) = false).
      { apply String.eqb_neq. intros E. subst r. congruence. }
      assert (E2 : (R2 =? r) = false).
      { apply String.eqb_neq. intros E. subst r. congruence. }
      rewrite E1, E2. cbn [negb]. rewrite andb_true_r, andb_false_r, orb_false_r.
      reflexivity.
    + intros Hexact r Hr Hafter. rewrite Hra in Hafter.
      apply orb_true_iff in Hafter. destruct Hafter as [H | H].
      * apply andb_true_iff in H. destruct H as [Hbefore Hnot1].
        destruct (Hexact r Hr Hbefore) as [E | E]; [ | exact E ].
        subst r. rewrite String.eqb_refl in Hnot1. discriminate.
      * apply andb_true_iff in H. destruct H as [_ E].
        apply String.eqb_eq in E. symmetry. exact E.
  - (* the stored plan id is the empty string: the branch of a new plan *)
    rewrite (updated_new_plan_run _ _ _ plan user); try assumption.
    unfold updated_state. cbn [replied users roleAssignments subscriptionPlans trace].
    rewrite Hid. fold userId R2. eexists.
    exists ([DbRead UserProfiles; ReplyCode 204; DbRead Users;
             DbRead SubscriptionPlans; DbRead SubscriptionPlans;
             RoleRead userId]
            ++ others_revoked_trace
                 (RoleService.roles_of userId (roleAssignments s))
                 (map SubscriptionPlan.roleId (subscriptionPlans s))
                 userId R2
            ++ ensured_trace userId R2 "update" (roleAssignments s)
            ++ [DbWrite Users; Pack userId; Publish userId "meUpdated"]).
    split; [ reflexivity | ]. cbn [roleAssignments trace].
    split; [ norm_trace; reflexivity | ].
    pose proof (holds_after_new_plan s userId R2) as Hra.
    repeat split.
    + rewrite Hra, String.eqb_refl. cbn [negb]. rewrite andb_false_r.
      cbn [negb]. 
      destruct (RoleService.holds userId R2 (roleAssignments s)); reflexivity.
    + rewrite Hra, Hc1, H12, H21, Hheld. cbn [negb andb].
      rewrite andb_false_r. reflexivity.
    + intros Hheld2. rewrite !count_app, others_revoked_trace_no_assign.
      rewrite (ensured_trace_held _ _ _ _ Hheld2). reflexivity.
    + intros r Hr. rewrite Hra, Hr.
      assert (E2 : (R2 =? r) = false).
      { apply String.eqb_neq. intros E. subst r. congruence. }
      rewrite E2. cbn [negb andb]. rewrite andb_true_r, andb_false_r, orb_false_r.
      reflexivity.
    + intros _ r Hr Hafter. rewrite Hra, Hr in Hafter.
      apply orb_true_iff in Hafter. destruct Hafter as [H | H].
      * apply andb_true_iff in H. destruct H as [_ H]. cbn [andb] in H.
        rewrite negb_involutive in H. apply String.eqb_eq in H. exact H.
      * apply andb_true_iff in H. destruct H as [_ E].
        apply String.eqb_eq in E. symmetry. exact E.
Qed.

Lemma plan_change_swaps_roles_witness :
  exists s' es,
    webhook (Sample.accepting (Sample.updated "sub_1" "active" "price_pro"))
      Sample.config Sample.request
      (Sample.state (Sample.subscribed "sub_1" Sample.basic)
         [("alice", "role_basic"); ("alice", "moderator")])
    = (Ok Undefined, s')
    /\ trace s'
       = trace (Sample.state (Sample.subscribed "sub_1" Sample.basic)
                  [("alice", "role_basic"); ("alice", "moderator")])
         ++ es
    /\ holds_role s' (UserProfile.userId Sample.profile)
         (SubscriptionPlan.roleId Sample.pro) = true
    /\ holds_role s' (UserProfile.userId Sample.profile)
         (SubscriptionPlan.roleId Sample.basic) = false
    /\ (holds_role
          (Sample.state (Sample.subscribed "sub_1" Sample.basic)
             [("alice", "role_basic"); ("alice", "moderator")])
          (UserProfile.userId Sample.profile)
          (SubscriptionPlan.roleId Sample.pro) = true ->
        count is_assign es = 0)
    /\ (forall r,
           catalog_role
             (Sample.state (Sample.subscribed "sub_1" Sample.basic)
                [("alice", "role_basic"); ("alice", "moderator")]) r = false ->
           holds_role s' (UserProfile.userId Sample.profile) r
           = holds_role
               (Sample.state (Sample.subscribed "sub_1" Sample.basic)
                  [("alice", "role_basic"); ("alice", "moderator")])
               (UserProfile.userId Sample.profile) r)
    /\ ((forall r,
            catalog_role
              (Sample.state (Sample.subscribed "sub_1" Sample.basic)
                 [("alice", "role_basic"); ("alice", "moderator")]) r = true ->
            holds_role
              (Sample.state (Sample.subscribed "sub_1" Sample.basic)
                 [("alice", "role_basic"); ("alice", "moderator")])
              (UserProfile.userId Sample.profile) r = true ->
            r = SubscriptionPlan.roleId Sample.basic
            \/ r = SubscriptionPlan.roleId Sample.pro) ->
        forall r,
          catalog_role
            (Sample.state (Sample.subscribed "sub_1" Sample.basic)
               [("alice", "role_basic"); ("alice", "moderator")]) r = true ->
          holds_role s' (UserProfile.userId Sample.profile) r = true ->
          r = SubscriptionPlan.roleId Sample.pro).
Proof.
  apply (plan_change_swaps_roles
           (Sample.accepting (Sample.updated "sub_1" "active" "price_pro"))
           Sample.config Sample.request
           (Sample.state (Sample.subscribed "sub_1" Sample.basic)
              [("alice", "role_basic"); ("alice", "moderator")])
           (Sample.updated "sub_1" "active" "price_pro")
           Sample.profile (Sample.subscribed "sub_1" Sample.basic)
           Sample.basic Sample.pro).
  - vm_compute. reflexivity.
  - reflexivity.
  - vm_compute. reflexivity.
  - vm_compute. reflexivity.
  - reflexivity.
  - vm_compute. reflexivity.
  - vm_compute. reflexivity.
  - reflexivity.
  - vm_compute. reflexivity.
  - discriminate.
  - discriminate.
  - vm_compute. reflexivity.
Defined.

(** Alice holds the role of her stored plan [plan_basic] through the
    subscription [sub_1]. An updated event with status active for another
    subscription, [sub_2], whose price resolves to [plan_pro], is dropped by
    the guard: she keeps [role_basic] and is not granted [role_pro]. *)
Lemma plan_change_on_foreign_subscription :
  holds_role
    (snd (webhook (Sample.accepting (Sample.updated "sub_2" "active" "price_pro"))
            Sample.config Sample.request
            (Sample.state (Sample.subscribed "sub_1" Sample.basic)
               [("alice", "role_basic")])))
    "alice" "role_pro" = false
  /\ holds_role
       (snd (webhook (Sample.accepting (Sample.updated "sub_2" "active" "price_pro"))
               Sample.config Sample.request
               (Sample.state (Sample.subscribed "sub_1" Sample.basic)
                  [("alice", "role_basic")])))
       "alice" "role_basic" = true.
Proof. split; vm_compute; reflexivity. Qed.

(** When the two plans grant the same role, the change of plan leaves the
    user without it: the role is revoked, and the snapshot read before the
    revocation still shows it, so that it is not granted again. *)
Lemma plan_change_between_plans_of_one_role :
  holds_role
    (snd (webhook (Sample.accepting (Sample.updated "sub_1" "active" "price_yearly"))
            Sample.config Sample.request
            (Sample.shared_role_state (Sample.subscribed "sub_1" Sample.basic)
               [("alice", "role_basic")])))
    "alice" "role_basic" = false.
Proof. vm_compute. reflexivity. Qed.

(** ** The end of a subscription *)

(** C6. A deleted event that carries the user's stored external subscription
    id, for a user who holds the role of the event's plan: the handler
    returns with that role revoked and the user row holding the status of
    the event, no plan and no external subscription id; the update of the
    row is followed by one notification of the updated profile. *)
Theorem deleted_revokes_role_and_clears_row :
  forall constructEvent config request s event userProfile subscriptionPlan user,
    verified constructEvent config request = Some event ->
    Stripe.type event = "customer.subscription.deleted" ->
    UserProfilesRepository.lookup (Stripe.customer (Stripe.data_object event))
      (userProfiles s) = Some userProfile ->
    event_plan s (Stripe.data_object event) = Some subscriptionPlan ->
    UsersRepository.lookup (UserProfile.userId userProfile) (users s)
      = Some user ->
    User.stripeSubscriptionId user = Some (Stripe.id (Stripe.data_object event)) ->
    holds_role s (UserProfile.userId userProfile)
      (SubscriptionPlan.roleId subscriptionPlan) = true ->
    exists s',
      webhook constructEvent config request s = (Ok Undefined, s')
      /\ holds_role s' (UserProfile.userId userProfile)
           (SubscriptionPlan.roleId subscriptionPlan) = false
      /\ UsersRepository.lookup (UserProfile.userId userProfile) (users s')
         = Some (User.mk (User.id user)
                   (Stripe.status (Stripe.data_object event)) None None)
      /\ statusCode s' = Some 204
      /\ trace s'
         = trace s
           ++ [DbRead UserProfiles; ReplyCode 204; DbRead SubscriptionPlans;
               DbRead Users; RoleRead (UserProfile.userId userProfile);
               RoleUnassign (UserProfile.userId userProfile)
                 (SubscriptionPlan.roleId subscriptionPlan);
               Log Info
                 (role_message (UserProfile.userId userProfile) "unassigned"
                    (SubscriptionPlan.roleId subscriptionPlan) "deletion");
               DbWrite Users; Pack (UserProfile.userId userProfile);
               Publish (UserProfile.userId userProfile) "meUpdated"].
Proof.
  intros constructEvent config request s event userProfile plan user
    Hv Ht Hp Hplan Huser Hid Hholds.
  rewrite (webhook_dispatch _ _ _ _ _ _ Hv Hp), (handle_deleted _ _ _ Ht).
  rewrite (deleted_run _ _ plan user);
    [ | exact Hplan | exact Huser | apply passes_guard_same; exact Hid ].
  unfold holds_role in *. eexists. split; [ reflexivity | ].
  unfold dropped, dropped_trace. cbn [replied roleAssignments users statusCode trace].
  rewrite Hholds. repeat split.
  - rewrite holds_revoke, !String.eqb_refl. apply andb_false_r.
  - rewrite lookup_patch_rows, Huser. reflexivity.
  - norm_trace. reflexivity.
Qed.

Lemma deleted_revokes_role_and_clears_row_witness :
  exists s',
    webhook (Sample.accepting (Sample.deleted "sub_1" "price_basic"))
      Sample.config Sample.request
      (Sample.state (Sample.subscribed "sub_1" Sample.basic)
         [("alice", "role_basic")])
    = (Ok Undefined, s')
    /\ holds_role s' "alice" "role_basic" = false
    /\ UsersRepository.lookup "alice" (users s')
       = Some (User.mk "alice" "canceled" None None)
    /\ statusCode s' = Some 204
    /\ trace s'
       = [DbRead UserProfiles; ReplyCode 204; DbRead SubscriptionPlans;
          DbRead Users; RoleRead "alice"; RoleUnassign "alice" "role_basic";
          Log Info (role_message "alice" "unassigned" "role_basic" "deletion");
          DbWrite Users; Pack "alice"; Publish "alice" "meUpdated"].
Proof.
  apply (deleted_revokes_role_and_clears_row
           (Sample.accepting (Sample.deleted "sub_1" "price_basic"))
           Sample.config Sample.request
           (Sample.state (Sample.subscribed "sub_1" Sample.basic)
              [("alice", "role_basic")])
           (Sample.deleted "sub_1" "price_basic")
           Sample.profile Sample.basic
           (Sample.subscribed "sub_1" Sample.basic));
    reflexivity.
Defined.

(** C10, as the code has it. Whatever the outcome of a deleted event, no
    role is granted by it and the only assignment it can take away is the
    one of the event's plan's role to the user of the event. When the event
    passes the guard and the user row refers to a plan whose role is not the
    role of the event's plan, that role stays assigned to the user while the
    plan of the user row is set to null. *)
Theorem deleted_revokes_only_the_event_plan_role :
  forall constructEvent config request s event r s',
    verified constructEvent config request = Some event ->
    Stripe.type event = "customer.subscription.deleted" ->
    webhook constructEvent config request s = (r, s') ->
    (forall userId roleId,
        holds_role s' userId roleId = true -> holds_role s userId roleId = true)
    /\ (forall userId roleId,
           holds_role s userId roleId = true ->
           holds_role s' userId roleId = false ->
           exists userProfile subscriptionPlan,
             UserProfilesRepository.lookup
               (Stripe.customer (Stripe.data_object event)) (userProfiles s)
               = Some userProfile
             /\ event_plan s (Stripe.data_object event) = Some subscriptionPlan
             /\ userId = UserProfile.userId userProfile
             /\ roleId = SubscriptionPlan.roleId subscriptionPlan)
    /\ (forall userProfile subscriptionPlan user storedPlan,
           UserProfilesRepository.lookup
             (Stripe.customer (Stripe.data_object event)) (userProfiles s)
             = Some userProfile ->
           event_plan s (Stripe.data_object event) = Some subscriptionPlan ->
           UsersRepository.lookup (UserProfile.userId userProfile) (users s)
             = Some user ->
           passes_guard user (Stripe.data_object event) = true ->
           User.subscriptionPlanId user
             = Some (SubscriptionPlan.id storedPlan) ->
           SubscriptionPlansRepository.lookup
             (SubscriptionPlansRepository.by_id (User.subscriptionPlanId user))
             (subscriptionPlans s) = Some storedPlan ->
           SubscriptionPlan.roleId storedPlan
             <> SubscriptionPlan.roleId subscriptionPlan ->
           holds_role s (UserProfile.userId userProfile)
             (SubscriptionPlan.roleId storedPlan) = true ->
           r = Ok Undefined
           /\ holds_role s' (UserProfile.userId userProfile)
                (SubscriptionPlan.roleId storedPlan) = true
           /\ option_map User.subscriptionPlanId
                (UsersRepository.lookup (UserProfile.userId userProfile)
                   (users s')) = Some None).
Proof.
  intros constructEvent config request s event r s' Hv Ht Hrun.
  destruct (UserProfilesRepository.lookup
              (Stripe.customer (Stripe.data_object event)) (userProfiles s))
    as [ userProfile | ] eqn:Hp.
  2: { destruct (webhook_no_profile _ _ _ _ _ Hv Hp) as [m Hm].
       rewrite Hm in Hrun. injection Hrun as <- <-. unfold holds_role.
       cbn [roleAssignments]. repeat split; congruence. }
  rewrite (webhook_dispatch _ _ _ _ _ _ Hv Hp), (handle_deleted _ _ _ Ht) in Hrun.
  assert (Hobserved : forall r0 es,
             customer_subscription_deleted userProfile (Stripe.data_object event)
               (replied 204 [DbRead UserProfiles; ReplyCode 204] s)
             = (r0, observed es
                      (replied 204 [DbRead UserProfiles; ReplyCode 204] s)) ->
             (forall userId roleId,
                 holds_role s' userId roleId = true ->
                 holds_role s userId roleId = true)
             /\ (forall userId roleId,
                    holds_role s userId roleId = true ->
                    holds_role s' userId roleId = false -> False)).
  { intros r0 es Hobs. rewrite Hobs in Hrun. injection Hrun as <- <-.
    unfold holds_role. cbn [observed replied roleAssignments].
    split; [ auto | congruence ]. }
  destruct (event_plan s (Stripe.data_object event)) as [ plan | ] eqn:Hplan.
  2: { destruct (deleted_no_plan userProfile (Stripe.data_object event)
                   (replied 204 [DbRead UserProfiles; ReplyCode 204] s) Hplan)
         as (e & es & Hobs).
       destruct (Hobserved _ _ Hobs) as [H1 H2].
       split; [ exact H1 | ]. split; [ | congruence ].
       intros u ro Hb Ha. destruct (H2 u ro Hb Ha). }
  destruct (UsersRepository.lookup (UserProfile.userId userProfile) (users s))
    as [ user | ] eqn:Huser.
  2: { destruct (deleted_no_user userProfile (Stripe.data_object event) plan
                   (replied 204 [DbRead UserProfiles; ReplyCode 204] s)
                   Hplan Huser)
         as (e & es & Hobs).
       destruct (Hobserved _ _ Hobs) as [H1 H2].
       split; [ exact H1 | ]. split; [ | congruence ].
       intros u ro Hb Ha. destruct (H2 u ro Hb Ha). }
  destruct (passes_guard user (Stripe.data_object event)) eqn:Hguard.
  2: { destruct (Hobserved _ _ (deleted_foreign_run userProfile
                                  (Stripe.data_object event) plan user
                                  (replied 204 [DbRead UserProfiles; ReplyCode 204] s)
                                  Hplan Huser Hguard))
         as [H1 H2].
       split; [ exact H1 | ]. split; [ | congruence ].
       intros u ro Hb Ha. destruct (H2 u ro Hb Ha). }
  rewrite (deleted_run _ _ plan user) in Hrun; try assumption.
  injection Hrun as <- <-. unfold holds_role.
  cbn [replied roleAssignments users subscriptionPlans].
  split; [ | split ].
  - intros u ro. rewrite holds_dropped. intros H.
    apply andb_true_iff in H. tauto.
  - intros u ro Hbefore. rewrite holds_dropped, Hbefore. cbn [andb].
    intros H. apply negb_false_iff in H. apply andb_true_iff in H.
    destruct H as [Eu Er]. apply String.eqb_eq in Eu, Er.
    exists userProfile, plan. auto.
  - intros userProfile' plan' user' stored Hp' Hplan' Huser' Hguard' _ Hstored
      Hroles Hheld.
    injection Hp' as <-. injection Hplan' as <-.
    split; [ reflexivity | ]. split.
    + rewrite holds_dropped, Hheld, String.eqb_refl. cbn [andb].
      apply negb_true_iff. apply String.eqb_neq. exact Hroles.
    + rewrite lookup_patch_rows, Huser. reflexivity.
Qed.

Lemma deleted_revokes_only_the_event_plan_role_witness :
  (forall userId roleId,
      holds_role
        (Sample.after (Sample.deleted "sub_1" "price_basic")
           (Sample.state (Sample.subscribed "sub_1" Sample.pro)
              [("alice", "role_pro"); ("alice", "role_basic")]))
        userId roleId = true ->
      holds_role
        (Sample.state (Sample.subscribed "sub_1" Sample.pro)
           [("alice", "role_pro"); ("alice", "role_basic")])
        userId roleId = true)
  /\ holds_role
       (Sample.after (Sample.deleted "sub_1" "price_basic")
          (Sample.state (Sample.subscribed "sub_1" Sample.pro)
             [("alice", "role_pro"); ("alice", "role_basic")]))
       (UserProfile.userId Sample.profile)
       (SubscriptionPlan.roleId Sample.pro) = true
  /\ option_map User.subscriptionPlanId
       (UsersRepository.lookup (UserProfile.userId Sample.profile)
          (users
             (Sample.after (Sample.deleted "sub_1" "price_basic")
                (Sample.state (Sample.subscribed "sub_1" Sample.pro)
                   [("alice", "role_pro"); ("alice", "role_basic")]))))
     = Some None.
Proof.
  assert (Hrun : webhook (Sample.accepting (Sample.deleted "sub_1" "price_basic"))
                   Sample.config Sample.request
                   (Sample.state (Sample.subscribed "sub_1" Sample.pro)
                      [("alice", "role_pro"); ("alice", "role_basic")])
                 = (Ok Undefined,
                    Sample.after (Sample.deleted "sub_1" "price_basic")
                      (Sample.state (Sample.subscribed "sub_1" Sample.pro)
                         [("alice", "role_pro"); ("alice", "role_basic")])))
    by (vm_compute; reflexivity).
  destruct (deleted_revokes_only_the_event_plan_role
              (Sample.accepting (Sample.deleted "sub_1" "price_basic"))
              Sample.config Sample.request
              (Sample.state (Sample.subscribed "sub_1" Sample.pro)
                 [("alice", "role_pro"); ("alice", "role_basic")])
              (Sample.deleted "sub_1" "price_basic") (Ok Undefined)
              (Sample.after (Sample.deleted "sub_1" "price_basic")
                 (Sample.state (Sample.subscribed "sub_1" Sample.pro)
                    [("alice", "role_pro"); ("alice", "role_basic")]))
              eq_refl eq_refl Hrun)
    as (Hno_grant & _ & Hstale).
  split; [ exact Hno_grant | ].
  assert (Hheld : holds_role
                    (Sample.state (Sample.subscribed "sub_1" Sample.pro)
                       [("alice", "role_pro"); ("alice", "role_basic")])
                    (UserProfile.userId Sample.profile)
                    (SubscriptionPlan.roleId Sample.pro) = true)
    by (vm_compute; reflexivity).
  assert (Hroles : SubscriptionPlan.roleId Sample.pro
                   <> SubscriptionPlan.roleId Sample.basic)
    by discriminate.
  destruct (Hstale Sample.profile Sample.basic
              (Sample.subscribed "sub_1" Sample.pro) Sample.pro
              eq_refl eq_refl eq_refl eq_refl eq_refl eq_refl Hroles Hheld)
    as (_ & Hafter & Hplan).
  split; [ exact Hafter | exact Hplan ].
Defined.

(** When the stored plan and the event's plan grant the same role, the
    deleted event takes the stored plan's role away. *)
Lemma deleted_for_a_plan_of_the_same_role :
  User.subscriptionPlanId (Sample.subscribed "sub_1" Sample.yearly)
  <> Some (SubscriptionPlan.id Sample.basic)
  /\ holds_role
       (Sample.shared_role_state (Sample.subscribed "sub_1" Sample.yearly)
          [("alice", "role_basic")])
       "alice" (SubscriptionPlan.roleId Sample.yearly) = true
  /\ holds_role
       (Sample.after (Sample.deleted "sub_1" "price_basic")
          (Sample.shared_role_state (Sample.subscribed "sub_1" Sample.yearly)
             [("alice", "role_basic")]))
       "alice" (SubscriptionPlan.roleId Sample.yearly) = false.
Proof.
  split; [ discriminate | ]. split; vm_compute; reflexivity.
Qed.

(** Alice holds [role_pro] through her stored plan [plan_pro]. A deleted
    event for her subscription whose price is the one of [plan_basic] clears
    the plan of her row and leaves [role_pro] assigned. *)
Lemma deleted_for_another_plan_leaves_role :
  fst (Sample.run (Sample.deleted "sub_1" "price_basic")
         (Sample.state (Sample.subscribed "sub_1" Sample.pro)
            [("alice", "role_pro")]))
  = Ok Undefined
  /\ users (Sample.after (Sample.deleted "sub_1" "price_basic")
              (Sample.state (Sample.subscribed "sub_1" Sample.pro)
                 [("alice", "role_pro")]))
     = [User.mk "alice" "canceled" None None]
  /\ holds_role
       (Sample.after (Sample.deleted "sub_1" "price_basic")
          (Sample.state (Sample.subscribed "sub_1" Sample.pro)
             [("alice", "role_pro")]))
       "alice" "role_pro" = true.
Proof. vm_compute. repeat split. Qed.

(** ** Roles and plan, reconciled *)








(** ** The outcomes of a delivery *)

Lemma quiet_observed es s : forallb idle es = true -> quiet s (observed es s).
Proof.
  intros H. split.
  - repeat split.
  - exists es. split; [ reflexivity | exact H ].
Qed.

Lemma lookup_failed_quiet s r s' :
  lookup_failed s (r, s') -> r <> Throw AlreadyAssigned /\ quiet s s'.
Proof.
  intros (e & es & Hout & He & Hes). injection Hout as -> ->. split.
  - intros E. injection E as E. contradiction.
  - apply quiet_observed. exact Hes.
Qed.

Lemma lookup_patch_rows_other id id' p us :
  id' <> id ->
  UsersRepository.lookup id' (UsersRepository.patch_rows id p us)
  = UsersRepository.lookup id' us.
Proof.
  intros Hneq. unfold UsersRepository.lookup, UsersRepository.patch_rows.
  induction us as [ | u us IH ]; [ reflexivity | ].
  cbn [map find]. destruct (UsersRepository.by_id id u) eqn:E.
  - rewrite by_id_apply.
    assert (Hother : UsersRepository.by_id id' u = false).
    { unfold UsersRepository.by_id in *. apply String.eqb_eq in E.
      apply String.eqb_neq. congruence. }
    rewrite Hother. exact IH.
  - destruct (UsersRepository.by_id id' u); [ reflexivity | exact IH ].
Qed.

(** The role blocks act on the roles of one user. *)
Lemma holds_ensured_other userId roleId seen ra u r :
  u <> userId ->
  RoleService.holds u r (ensured userId roleId seen ra)
  = RoleService.holds u r ra.
Proof.
  intros Hneq. rewrite holds_ensured.
  assert (E : (userId =? u) = false)
    by (apply String.eqb_neq; congruence).
  rewrite E, andb_false_r. cbn [andb]. apply orb_false_r.
Qed.

Lemma holds_dropped_other userId roleId seen ra u r :
  u <> userId ->
  RoleService.holds u r (dropped userId roleId seen ra)
  = RoleService.holds u r ra.
Proof.
  intros Hneq. unfold dropped.
  destruct (RoleService.holds userId roleId seen); [ | reflexivity ].
  rewrite holds_revoke.
  assert (E : (u =? userId) = false) by (apply String.eqb_neq; exact Hneq).
  rewrite E. cbn [andb negb]. apply andb_true_r.
Qed.

Lemma holds_others_revoked_other roles roleIds userId roleId ra u r :
  u <> userId ->
  RoleService.holds u r (others_revoked roles roleIds userId roleId ra)
  = RoleService.holds u r ra.
Proof.
  intros Hneq. rewrite holds_others_revoked_eq.
  assert (E : (u =? userId) = false) by (apply String.eqb_neq; exact Hneq).
  rewrite E. cbn [andb negb]. apply andb_true_r.
Qed.

(** The role blocks make no call to a table or to the publisher. *)
Lemma changes_roles_ensured_trace userId roleId eventName seen :
  forallb changes_roles (ensured_trace userId roleId eventName seen) = true.
Proof.
  unfold ensured_trace. destruct (RoleService.holds userId roleId seen);
    reflexivity.
Qed.

Lemma changes_roles_dropped_trace userId roleId eventName seen :
  forallb changes_roles (dropped_trace userId roleId eventName seen) = true.
Proof.
  unfold dropped_trace. destruct (RoleService.holds userId roleId seen);
    reflexivity.
Qed.

Lemma changes_roles_others_revoked_trace roles roleIds userId roleId :
  forallb changes_roles (others_revoked_trace roles roleIds userId roleId) = true.
Proof.
  induction roles as [ | role roles IH ]; [ reflexivity | ].
  cbn [others_revoked_trace]. rewrite forallb_app, IH.
  destruct (includes roleIds (Role.id role) && negb (Role.id role =? roleId));
    reflexivity.
Qed.

(** The calls of the role block of the created transition: the lookup of
    the roles, then the grant. *)
Lemma created_role_trace_split userId roleId status ra :
  exists reads changes,
    created_role_trace userId roleId status ra = reads ++ changes
    /\ forallb looks reads = true
    /\ forallb changes_roles changes = true.
Proof.
  unfold created_role_trace. destruct (status =? "active").
  - exists [RoleRead userId], (ensured_trace userId roleId "creation" ra).
    split; [ reflexivity | ]. split; [ reflexivity | ].
    apply changes_roles_ensured_trace.
  - exists [], []. repeat split.
Qed.

Lemma looks_preparatory es :
  forallb looks es = true -> forallb preparatory es = true.
Proof.
  intros H. rewrite forallb_forall in *. intros e He.
  specialize (H e He). destruct e; (reflexivity || discriminate).
Qed.

Lemma changes_roles_preparatory es :
  forallb changes_roles es = true -> forallb preparatory es = true.
Proof.
  intros H. rewrite forallb_forall in *. intros e He.
  specialize (H e He). destruct e; (reflexivity || discriminate).
Qed.

(** A settled delivery, with the lookups and the role reconciliation taken
    together. *)
Lemma settled_preparatory userId s s' :
  settled userId s s' ->
  exists es,
    trace s'
    = trace s ++ es ++ [DbWrite Users; Pack userId; Publish userId "meUpdated"]
    /\ forallb preparatory es = true.
Proof.
  intros (_ & _ & _ & _ & reads & changes & Ht & Hreads & Hchanges).
  exists (reads ++ changes). split; [ exact Ht | ].
  rewrite forallb_app, (looks_preparatory _ Hreads),
    (changes_roles_preparatory _ Hchanges). reflexivity.
Qed.

(** *** The created transition *)

Lemma created_no_plan userProfile subscription s :
  event_plan s subscription = None ->
  lookup_failed s (customer_subscription_created userProfile subscription s).
Proof.
  intros Hplan. unfold customer_subscription_created. unfold_steps.
  unfold event_plan in Hplan.
  destruct (Stripe.items_data subscription) as [ | item items ].
  - exists TypeError, []. split; [ | split; [ discriminate | reflexivity ] ].
    unfold observed. rewrite app_nil_r. destruct s; reflexivity.
  - proj. rewrite Hplan.
    exists (EntityNotFoundError SubscriptionPlans), [DbRead SubscriptionPlans].
    split; [ | split; [ discriminate | reflexivity ] ].
    unfold observed. settle.
Qed.

Lemma created_no_user userProfile subscription subscriptionPlan s :
  event_plan s subscription = Some subscriptionPlan ->
  UsersRepository.lookup (UserProfile.userId userProfile) (users s) = None ->
  lookup_failed s (customer_subscription_created userProfile subscription s).
Proof.
  intros Hplan Huser. unfold customer_subscription_created. unfold_steps.
  unfold event_plan in Hplan.
  destruct (Stripe.items_data subscription) as [ | item items ];
    [ discriminate | ].
  proj. rewrite Hplan. proj. rewrite Huser.
  exists (EntityNotFoundError Users), [DbRead SubscriptionPlans; DbRead Users].
  split; [ | split; [ discriminate | reflexivity ] ].
  unfold observed. settle.
Qed.

Lemma created_outcome userProfile subscription s r s' :
  customer_subscription_created userProfile subscription s = (r, s') ->
  (r <> Throw AlreadyAssigned /\ quiet s s')
  \/ (r = Ok Undefined /\ statusCode s' = statusCode s
      /\ settled (UserProfile.userId userProfile) s s').
Proof.
  intros Hrun.
  destruct (event_plan s subscription) as [ plan | ] eqn:Hplan.
  2: { left. apply lookup_failed_quiet. rewrite <- Hrun.
       apply created_no_plan. exact Hplan. }
  destruct (UsersRepository.lookup (UserProfile.userId userProfile) (users s))
    as [ user | ] eqn:Huser.
  2: { left. apply lookup_failed_quiet. rewrite <- Hrun.
       apply (created_no_user _ _ plan); assumption. }
  destruct (User.stripeSubscriptionId user) as [ sid | ] eqn:Hid.
  - left. rewrite (created_noop_run _ _ plan user) in Hrun;
      [ | assumption | assumption | congruence ].
    injection Hrun as <- <-. split; [ discriminate | ].
    apply quiet_observed. reflexivity.
  - right. rewrite (created_run _ _ plan user) in Hrun; try assumption.
    injection Hrun as <- <-. split; [ reflexivity | ].
    split; [ reflexivity | ].
    split; [ reflexivity | ]. split; [ reflexivity | ].
    split; [ eexists; reflexivity | ]. split.
    + intros u r Hneq. cbn [roleAssignments]. unfold created_roles.
      destruct (Stripe.status subscription =? "active"); [ | reflexivity ].
      apply holds_ensured_other. exact Hneq.
    + cbn [trace].
      destruct (created_role_trace_split (UserProfile.userId userProfile)
                  (SubscriptionPlan.roleId plan) (Stripe.status subscription)
                  (roleAssignments s))
        as (reads & changes & Hsplit & Hreads & Hchanges).
      rewrite Hsplit.
      exists ([DbRead SubscriptionPlans; DbRead Users] ++ reads), changes.
      split; [ norm_trace; reflexivity | ].
      split; [ | exact Hchanges ].
      cbn [app forallb looks andb]. exact Hreads.
Qed.

(** *** The updated transition *)

Lemma updated_no_user event userProfile subscription s :
  UsersRepository.lookup (UserProfile.userId userProfile) (users s) = None ->
  lookup_failed s
    (customer_subscription_updated event userProfile subscription s).
Proof.
  intros Huser. unfold customer_subscription_updated. unfold_steps. proj.
  rewrite Huser. exists (EntityNotFoundError Users), [DbRead Users].
  split; [ | split; [ discriminate | reflexivity ] ].
  unfold observed. settle.
Qed.

Lemma updated_no_plan event userProfile subscription user s :
  UsersRepository.lookup (UserProfile.userId userProfile) (users s) = Some user ->
  event_plan s subscription = None ->
  lookup_failed s
    (customer_subscription_updated event userProfile subscription s).
Proof.
  intros Huser Hplan. unfold customer_subscription_updated. unfold_steps. proj.
  rewrite Huser. proj. unfold event_plan in Hplan.
  destruct (Stripe.items_data subscription) as [ | item items ].
  - exists TypeError, [DbRead Users].
    split; [ | split; [ discriminate | reflexivity ] ].
    unfold observed. settle.
  - proj. rewrite Hplan.
    exists (EntityNotFoundError SubscriptionPlans),
      [DbRead Users; DbRead SubscriptionPlans].
    split; [ | split; [ discriminate | reflexivity ] ].
    unfold observed. settle.
Qed.

Lemma settled_updated_state user plan subscription ra reads changes s userId :
  User.id user = userId ->
  (forall u r,
      u <> userId ->
      RoleService.holds u r ra = RoleService.holds u r (roleAssignments s)) ->
  forallb looks reads = true ->
  forallb changes_roles changes = true ->
  settled userId s
    (updated_state user plan subscription ra (reads ++ changes) s).
Proof.
  intros Hid Hroles Hreads Hchanges. unfold updated_state.
  split; [ reflexivity | ]. split; [ reflexivity | ].
  split; [ rewrite Hid; eexists; reflexivity | ].
  split; [ exact Hroles | ].
  cbn [trace]. rewrite Hid.
  exists ([DbRead Users; DbRead SubscriptionPlans] ++ reads), changes.
  split; [ norm_trace; reflexivity | ].
  split; [ | exact Hchanges ].
  cbn [app forallb looks andb]. exact Hreads.
Qed.

Lemma updated_outcome event userProfile subscription s r s' :
  customer_subscription_updated event userProfile subscription s = (r, s') ->
  (r <> Throw AlreadyAssigned /\ quiet s s')
  \/ (r = Ok Undefined /\ statusCode s' = statusCode s
      /\ settled (UserProfile.userId userProfile) s s').
Proof.
  intros Hrun.
  destruct (UsersRepository.lookup (UserProfile.userId userProfile) (users s))
    as [ user | ] eqn:Huser.
  2: { left. apply lookup_failed_quiet. rewrite <- Hrun.
       apply updated_no_user. exact Huser. }
  destruct (event_plan s subscription) as [ plan | ] eqn:Hplan.
  2: { left. apply lookup_failed_quiet. rewrite <- Hrun.
       apply (updated_no_plan _ _ _ user); assumption. }
  pose proof (lookup_id _ _ _ Huser) as Hid.
  destruct (passes_guard user subscription) eqn:Hguard.
  2: { left. rewrite (updated_foreign_run _ _ _ plan user) in Hrun;
         try assumption.
       injection Hrun as <- <-. split; [ discriminate | ].
       apply quiet_observed. reflexivity. }
  destruct (Stripe.status subscription =? "active") eqn:Hactive.
  - apply String.eqb_eq in Hactive.
    destruct (truthy_opt (User.subscriptionPlanId user)) eqn:Hsome.
    + destruct (strict_neq (User.subscriptionPlanId user)
                  (SubscriptionPlan.id plan)) eqn:Hneq.
      * destruct (SubscriptionPlansRepository.lookup
                    (SubscriptionPlansRepository.by_id
                       (User.subscriptionPlanId user))
                    (subscriptionPlans s)) as [ old | ] eqn:Hold.
        -- right.
           rewrite (updated_plan_change_run _ _ _ plan old user) in Hrun;
             try assumption.
           injection Hrun as <- <-. split; [ reflexivity | ].
           split; [ reflexivity | ].
           apply (settled_updated_state _ _ _ _
                    [DbRead SubscriptionPlans; RoleRead (User.id user)]
                    (dropped_trace (User.id user) (SubscriptionPlan.roleId old)
                       "update" (roleAssignments s)
                     ++ ensured_trace (User.id user)
                          (SubscriptionPlan.roleId plan) "update"
                          (roleAssignments s)));
             [ exact Hid | | reflexivity | ].
           ++ intros u r0 Hu. rewrite Hid in *.
              rewrite holds_ensured_other, holds_dropped_other by exact Hu.
              reflexivity.
           ++ rewrite forallb_app, changes_roles_dropped_trace,
                changes_roles_ensured_trace. reflexivity.
        -- left.
           rewrite (updated_plan_change_throws _ _ _ plan user) in Hrun;
             try assumption.
           injection Hrun as <- <-. split; [ discriminate | ].
           apply quiet_observed. reflexivity.
      * destruct (previous_status_truthy (Stripe.data_previous_attributes event))
          eqn:Hprev; right.
        -- rewrite (updated_status_change_run _ _ _ plan user) in Hrun;
             try assumption.
           injection Hrun as <- <-. split; [ reflexivity | ].
           split; [ reflexivity | ].
           apply (settled_updated_state _ _ _ _
                    [RoleRead (User.id user)]
                    (ensured_trace (User.id user)
                       (SubscriptionPlan.roleId plan) "update"
                       (roleAssignments s)));
             [ exact Hid | | reflexivity | ].
           ++ intros u r0 Hu. rewrite Hid in *.
              apply holds_ensured_other. exact Hu.
           ++ apply changes_roles_ensured_trace.
        -- rewrite (updated_same_run _ _ _ plan user) in Hrun;
             try assumption.
           injection Hrun as <- <-. split; [ reflexivity | ].
           split; [ reflexivity | ].
           apply (settled_updated_state _ _ _ _ [] []);
             [ exact Hid | reflexivity | reflexivity | reflexivity ].
    + right. rewrite (updated_new_plan_run _ _ _ plan user) in Hrun;
        try assumption.
      injection Hrun as <- <-. split; [ reflexivity | ].
      split; [ reflexivity | ].
      match goal with
      | |- context [ others_revoked_trace ?roles ?roleIds ?u ?r ] =>
          apply (settled_updated_state _ _ _ _
                   [DbRead SubscriptionPlans; RoleRead (User.id user)]
                   (others_revoked_trace roles roleIds u r
                    ++ ensured_trace (User.id user)
                         (SubscriptionPlan.roleId plan) "update"
                         (roleAssignments s)));
            [ exact Hid | | reflexivity | ]
      end.
      * intros u r0 Hu. rewrite Hid in *.
        rewrite holds_ensured_other, holds_others_revoked_other by exact Hu.
        reflexivity.
      * rewrite forallb_app, changes_roles_others_revoked_trace,
          changes_roles_ensured_trace. reflexivity.
  - destruct (Stripe.cancel_at_period_end subscription) eqn:Hcancel.
    + left. rewrite (updated_cancel_run _ _ _ plan user) in Hrun;
        try assumption.
      injection Hrun as <- <-. split; [ discriminate | ].
      apply quiet_observed. reflexivity.
    + right. rewrite (updated_inactive_run _ _ _ plan user) in Hrun;
        try assumption.
      injection Hrun as <- <-. split; [ reflexivity | ].
      split; [ reflexivity | ].
      apply (settled_updated_state _ _ _ _ [] []);
        [ exact Hid | reflexivity | reflexivity | reflexivity ].
Qed.

Lemma count_none p q es :
  (forall e, p e = true -> q e = false) ->
  forallb p es = true -> count q es = 0.
Proof.
  intros Hpq. unfold count. induction es as [ | e es IH ]; [ reflexivity | ].
  cbn [forallb filter]. intros H. apply andb_true_iff in H.
  destruct H as [He Hes]. rewrite (Hpq e He). apply IH. exact Hes.
Qed.

Lemma idle_no_row_write e : idle e = true -> is_row_write e = false.
Proof. destruct e; (reflexivity || discriminate). Qed.

Lemma idle_no_publish e : idle e = true -> is_publish e = false.
Proof. destruct e; (reflexivity || discriminate). Qed.

Lemma idle_no_role_call e : idle e = true -> is_role_call e = false.
Proof. destruct e; (reflexivity || discriminate). Qed.

Lemma preparatory_no_row_write e : preparatory e = true -> is_row_write e = false.
Proof. destruct e; (reflexivity || discriminate). Qed.

Lemma preparatory_no_publish e : preparatory e = true -> is_publish e = false.
Proof. destruct e; (reflexivity || discriminate). Qed.

(** *** The deleted transition *)

Lemma deleted_plan_lookup_fails userProfile subscription s :
  event_plan s subscription = None ->
  lookup_failed s (customer_subscription_deleted userProfile subscription s).
Proof.
  intros Hplan. unfold customer_subscription_deleted. unfold_steps.
  unfold event_plan in Hplan.
  destruct (Stripe.items_data subscription) as [ | item items ].
  - exists TypeError, []. split; [ | split; [ discriminate | reflexivity ] ].
    unfold observed. rewrite app_nil_r. destruct s; reflexivity.
  - proj. rewrite Hplan.
    exists (EntityNotFoundError SubscriptionPlans), [DbRead SubscriptionPlans].
    split; [ | split; [ discriminate | reflexivity ] ].
    unfold observed. settle.
Qed.

Lemma deleted_user_lookup_fails userProfile subscription subscriptionPlan s :
  event_plan s subscription = Some subscriptionPlan ->
  UsersRepository.lookup (UserProfile.userId userProfile) (users s) = None ->
  lookup_failed s (customer_subscription_deleted userProfile subscription s).
Proof.
  intros Hplan Huser. unfold customer_subscription_deleted. unfold_steps.
  unfold event_plan in Hplan.
  destruct (Stripe.items_data subscription) as [ | item items ];
    [ discriminate | ].
  proj. rewrite Hplan. proj. rewrite Huser.
  exists (EntityNotFoundError Users), [DbRead SubscriptionPlans; DbRead Users].
  split; [ | split; [ discriminate | reflexivity ] ].
  unfold observed. settle.
Qed.

Lemma deleted_outcome userProfile subscription s r s' :
  customer_subscription_deleted userProfile subscription s = (r, s') ->
  (r <> Throw AlreadyAssigned /\ quiet s s')
  \/ (r = Ok Undefined /\ statusCode s' = statusCode s
      /\ settled (UserProfile.userId userProfile) s s').
Proof.
  intros Hrun.
  destruct (event_plan s subscription) as [ plan | ] eqn:Hplan.
  2: { left. apply lookup_failed_quiet. rewrite <- Hrun.
       apply deleted_plan_lookup_fails. exact Hplan. }
  destruct (UsersRepository.lookup (UserProfile.userId userProfile) (users s))
    as [ user | ] eqn:Huser.
  2: { left. apply lookup_failed_quiet. rewrite <- Hrun.
       apply (deleted_user_lookup_fails _ _ plan); assumption. }
  destruct (passes_guard user subscription) eqn:Hguard.
  2: { left. rewrite (deleted_foreign_run _ _ plan user) in Hrun;
         try assumption.
       injection Hrun as <- <-. split; [ discriminate | ].
       apply quiet_observed. reflexivity. }
  right. rewrite (deleted_run _ _ plan user) in Hrun; try assumption.
  injection Hrun as <- <-. split; [ reflexivity | ].
  split; [ reflexivity | ].
  split; [ reflexivity | ]. split; [ reflexivity | ].
  split; [ eexists; reflexivity | ]. split.
  - intros u r Hneq. apply holds_dropped_other. exact Hneq.
  - cbn [trace].
    exists [DbRead SubscriptionPlans; DbRead Users;
            RoleRead (UserProfile.userId userProfile)],
      (dropped_trace (UserProfile.userId userProfile)
         (SubscriptionPlan.roleId plan) "deletion" (roleAssignments s)).
    split; [ norm_trace; reflexivity | ].
    split; [ reflexivity | ]. apply changes_roles_dropped_trace.
Qed.

(** *** The handler *)

(** A request that is not verified ends with one error logged and a status
    code set, 503 without the configuration and 400 with it; the handler
    returns the reply object. *)
Lemma webhook_unverified constructEvent config request s :
  verified constructEvent config request = None ->
  exists message,
    webhook constructEvent config request s
    = (Ok TheReply,
       replied (if stripe_configured config then 400 else 503)
         [Log Error message;
          ReplyCode (if stripe_configured config then 400 else 503)] s).
Proof.
  unfold verified. intros Hv. cbv [webhook]. unfold_monad.
  destruct (stripe_configured config); proj.
  - destruct (body_truthy _); proj.
    + destruct (header_truthy _); proj.
      * cbn [andb] in Hv. rewrite Hv. eexists. unfold replied. settle.
      * eexists. unfold replied. settle.
    + eexists. unfold replied. settle.
  - eexists. unfold replied. settle.
Qed.

Lemma handle_unrecognized event userProfile subscription s :
  recognized (Stripe.type event) = false ->
  handle_event event userProfile subscription s
  = (Ok TheReply,
     replied 400
       [Log Warn ("Unhandled event type: " ++ Stripe.type event);
        ReplyCode 400] s).
Proof.
  intros Hr. destruct (recognized_false _ Hr) as (H1 & H2 & H3).
  unfold handle_event. rewrite H1, H2, H3. unfold_monad. unfold replied.
  settle.
Qed.

Lemma quiet_replied code es s : forallb idle es = true -> quiet s (replied code es s).
Proof.
  intros H. split.
  - repeat split.
  - exists es. split; [ reflexivity | exact H ].
Qed.

Lemma quiet_after_replied code pre s s' :
  forallb idle pre = true -> quiet (replied code pre s) s' -> quiet s s'.
Proof.
  intros Hpre [(Hp & Hu & Hc & Hr) (es & Ht & Hes)].
  cbn [replied userProfiles users subscriptionPlans roleAssignments trace] in *.
  split.
  - repeat split; assumption.
  - exists (pre ++ es). split.
    + rewrite Ht, app_assoc. reflexivity.
    + rewrite forallb_app, Hpre, Hes. reflexivity.
Qed.

Lemma settled_after_replied userId code pre s s' :
  forallb looks pre = true ->
  settled userId (replied code pre s) s' -> settled userId s s'.
Proof.
  intros Hpre (Hp & Hc & Hu & Hr & reads & changes & Ht & Hreads & Hchanges).
  cbn [replied userProfiles users subscriptionPlans roleAssignments trace] in *.
  repeat (split; [ assumption | ]).
  exists (pre ++ reads), changes. split.
  - rewrite Ht, <- !app_assoc. reflexivity.
  - split; [ | exact Hchanges ].
    rewrite forallb_app, Hpre, Hreads. reflexivity.
Qed.

(** Every delivery is quiet, or it returns with the reply at 204 after
    settling the user of a verified event of a recognized type. *)
Lemma webhook_outcome constructEvent config request s r s' :
  webhook constructEvent config request s = (r, s') ->
  (r <> Throw AlreadyAssigned /\ quiet s s')
  \/ (r = Ok Undefined
      /\ statusCode s' = Some 204
      /\ exists event userProfile,
           verified constructEvent config request = Some event
           /\ recognized (Stripe.type event) = true
           /\ UserProfilesRepository.lookup
                (Stripe.customer (Stripe.data_object event)) (userProfiles s)
              = Some userProfile
           /\ settled (UserProfile.userId userProfile) s s').
Proof.
  intros Hrun.
  destruct (verified constructEvent config request) as [ event | ] eqn:Hv.
  2: { left. destruct (webhook_unverified _ _ _ s Hv) as [m Hm].
       rewrite Hm in Hrun. injection Hrun as <- <-.
       split; [ discriminate | ]. apply quiet_replied. reflexivity. }
  destruct (UserProfilesRepository.lookup
              (Stripe.customer (Stripe.data_object event)) (userProfiles s))
    as [ userProfile | ] eqn:Hp.
  2: { left. destruct (webhook_no_profile _ _ _ _ _ Hv Hp) as [m Hm].
       rewrite Hm in Hrun. injection Hrun as <- <-.
       split; [ discriminate | ]. split.
       - repeat split.
       - eexists. split; [ reflexivity | reflexivity ]. }
  rewrite (webhook_dispatch _ _ _ _ _ _ Hv Hp) in Hrun.
  assert (Hlift :
            (r <> Throw AlreadyAssigned
             /\ quiet (replied 204 [DbRead UserProfiles; ReplyCode 204] s) s')
            \/ (r = Ok Undefined
                /\ statusCode s'
                   = statusCode (replied 204 [DbRead UserProfiles; ReplyCode 204] s)
                /\ settled (UserProfile.userId userProfile)
                     (replied 204 [DbRead UserProfiles; ReplyCode 204] s) s') ->
            recognized (Stripe.type event) = true ->
            (r <> Throw AlreadyAssigned /\ quiet s s')
            \/ (r = Ok Undefined
                /\ statusCode s' = Some 204
                /\ exists event0 userProfile0,
                     Some event = Some event0
                     /\ recognized (Stripe.type event0) = true
                     /\ UserProfilesRepository.lookup
                          (Stripe.customer (Stripe.data_object event0))
                          (userProfiles s)
                        = Some userProfile0
                     /\ settled (UserProfile.userId userProfile0) s s')).
  { intros [ [Hr Hq] | (Hr & Hcode & Hs) ] Hrec.
    - left. split; [ exact Hr | ].
      apply (quiet_after_replied 204 [DbRead UserProfiles; ReplyCode 204]);
        [ reflexivity | exact Hq ].
    - right. split; [ exact Hr | ]. split; [ exact Hcode | ].
      exists event, userProfile. repeat (split; [ assumption || reflexivity | ]).
      apply (settled_after_replied _ 204 [DbRead UserProfiles; ReplyCode 204]);
        [ reflexivity | exact Hs ]. }
  destruct (recognized (Stripe.type event)) eqn:Hrec.
  - destruct (recognized_true _ Hrec) as [Ht | [Ht | Ht]].
    + rewrite (handle_created _ _ _ Ht) in Hrun.
      apply Hlift; [ | reflexivity ]. eapply created_outcome. exact Hrun.
    + rewrite (handle_updated _ _ _ Ht) in Hrun.
      apply Hlift; [ | reflexivity ]. eapply updated_outcome. exact Hrun.
    + rewrite (handle_deleted _ _ _ Ht) in Hrun.
      apply Hlift; [ | reflexivity ]. eapply deleted_outcome. exact Hrun.
  - left. rewrite (handle_unrecognized _ _ _ _ Hrec) in Hrun.
    injection Hrun as <- <-. split; [ discriminate | ].
    apply (quiet_after_replied 204 [DbRead UserProfiles; ReplyCode 204]);
      [ reflexivity | ].
    apply quiet_replied. reflexivity.
Qed.

(** ** Requests that are turned away *)

(** X1. Without the Stripe configuration (no [stripe] section, or an unset
    or empty secret key or webhook secret) the handler logs one error, sets
    the status code 503 on the reply and returns the reply object. These are
    its only calls: the body, the signature and the verification are not
    looked at, no store is reached, and the reply is not sent. *)
Theorem unconfigured_handler_sets_503_and_returns_the_reply :
  forall constructEvent config request s,
    stripe_configured config = false ->
    webhook constructEvent config request s
    = (Ok TheReply,
       replied 503
         [Log Error "The Stripe webhook configuration is not set correctly.";
          ReplyCode 503] s).
Proof.
  intros constructEvent config request s Hc.
  cbv [webhook]. unfold_monad. rewrite Hc. unfold replied. settle.
Qed.

Lemma unconfigured_handler_sets_503_and_returns_the_reply_witness :
  webhook (Sample.accepting (Sample.created "active" "price_basic"))
    (Config.mk (Some (Config.mkStripe (Some "sk_test") (Some EmptyString))))
    Sample.request (Sample.state Sample.fresh [])
  = (Ok TheReply,
     replied 503
       [Log Error "The Stripe webhook configuration is not set correctly.";
        ReplyCode 503] (Sample.state Sample.fresh [])).
Proof.
  apply unconfigured_handler_sets_503_and_returns_the_reply. reflexivity.
Defined.

(** X2. With the configuration set, the body is checked before the
    signature: for a request without a body (none, or an empty string) the
    handler logs the error of the body and sets the status code 400 whatever
    the signature header, and for a request with a body (a buffer counts,
    even an empty one) and no signature header (none, or an empty string) it
    logs the error of the signature and sets the status code 400. In both
    cases these are its only calls, neither the verification nor a store is
    reached, and the handler returns the reply object without sending it. *)
Theorem body_is_checked_before_signature :
  forall constructEvent config request s,
    stripe_configured config = true ->
    (body_truthy (Request.rawBody request) = false ->
     webhook constructEvent config request s
     = (Ok TheReply,
        replied 400
          [Log Error "Request body from Stripe webhook is empty.";
           ReplyCode 400] s))
    /\ (body_truthy (Request.rawBody request) = true ->
        header_truthy (Request.stripe_signature request) = false ->
        webhook constructEvent config request s
        = (Ok TheReply,
           replied 400
             [Log Error "Webhook does not contain a signature.";
              ReplyCode 400] s)).
Proof.
  intros constructEvent config request s Hc. split.
  - intros Hb. cbv [webhook]. unfold_monad. rewrite Hc, Hb.
    unfold replied. settle.
  - intros Hb Hh. cbv [webhook]. unfold_monad. rewrite Hc, Hb, Hh.
    unfold replied. settle.
Qed.

Lemma body_is_checked_before_signature_witness :
  webhook (Sample.accepting (Sample.created "active" "price_basic"))
    Sample.config (Request.mk (BodyString EmptyString) HeaderUndefined)
    (Sample.state Sample.fresh [])
  = (Ok TheReply,
     replied 400
       [Log Error "Request body from Stripe webhook is empty."; ReplyCode 400]
       (Sample.state Sample.fresh []))
  /\ webhook (Sample.accepting (Sample.created "active" "price_basic"))
       Sample.config (Request.mk (BodyBuffer []) (HeaderString EmptyString))
       (Sample.state Sample.fresh [])
     = (Ok TheReply,
        replied 400
          [Log Error "Webhook does not contain a signature."; ReplyCode 400]
          (Sample.state Sample.fresh [])).
Proof.
  split.
  - apply (proj1 (body_is_checked_before_signature
                    (Sample.accepting (Sample.created "active" "price_basic"))
                    Sample.config
                    (Request.mk (BodyString EmptyString) HeaderUndefined)
                    (Sample.state Sample.fresh []) eq_refl)).
    reflexivity.
  - apply (proj2 (body_is_checked_before_signature
                    (Sample.accepting (Sample.created "active" "price_basic"))
                    Sample.config
                    (Request.mk (BodyBuffer []) (HeaderString EmptyString))
                    (Sample.state Sample.fresh []) eq_refl));
      reflexivity.
Defined.

(** X3. A verified event whose customer has no user profile, of whatever
    type, makes the handler throw a plain error after the profile lookup and
    one warning that names the customer: no status code is set on the reply,
    and no store is changed. *)
Theorem missing_profile_throws_before_any_reply :
  forall constructEvent config request s event,
    verified constructEvent config request = Some event ->
    UserProfilesRepository.lookup (Stripe.customer (Stripe.data_object event))
      (userProfiles s) = None ->
    webhook constructEvent config request s
    = (Throw PlainError,
       observed
         [DbRead UserProfiles;
          Log Warn ("CustomerId: " ++ dquote
                    ++ Stripe.customer (Stripe.data_object event) ++ dquote
                    ++ " has no user profile found.")] s).
Proof.
  intros constructEvent config request s event Hv Hp.
  destruct (verified_inv _ _ _ _ Hv) as (Hc & Hb & Hh & Hce).
  cbv [webhook preprocessEvent]. unfold_monad.
  rewrite Hc, Hb, Hh, Hce. proj. rewrite Hp. unfold observed. settle.
Qed.

Lemma missing_profile_throws_before_any_reply_witness :
  webhook (Sample.accepting (Sample.created "active" "price_basic"))
    Sample.config Sample.request
    (mkState [] [Sample.fresh] [Sample.basic] [] None [])
  = (Throw PlainError,
     observed
       [DbRead UserProfiles;
        Log Warn ("CustomerId: " ++ dquote
                  ++ Stripe.customer
                       (Stripe.data_object
                          (Sample.created "active" "price_basic"))
                  ++ dquote ++ " has no user profile found.")]
       (mkState [] [Sample.fresh] [Sample.basic] [] None [])).
Proof.
  apply missing_profile_throws_before_any_reply; reflexivity.
Defined.

(** ** The created transition, further *)

(** The paths of the created transition. *)
Lemma created_cases userProfile subscription s :
  lookup_failed s (customer_subscription_created userProfile subscription s)
  \/ (exists es,
         customer_subscription_created userProfile subscription s
         = (Ok Undefined, observed es s)
         /\ forallb idle es = true)
  \/ (exists plan user,
         event_plan s subscription = Some plan
         /\ UsersRepository.lookup (UserProfile.userId userProfile) (users s)
            = Some user
         /\ User.stripeSubscriptionId user = None).
Proof.
  destruct (event_plan s subscription) as [ plan | ] eqn:Hplan.
  2: { left. apply created_no_plan. exact Hplan. }
  destruct (UsersRepository.lookup (UserProfile.userId userProfile) (users s))
    as [ user | ] eqn:Huser.
  2: { left. apply (created_no_user _ _ plan); assumption. }
  destruct (User.stripeSubscriptionId user) as [ sid | ] eqn:Hid.
  - right. left. eexists. split.
    + apply (created_noop_run _ _ plan user); congruence.
    + reflexivity.
  - right. right. exists plan, user. auto.
Qed.

(** X4. A created event for a user without a stored external subscription
    id: the handler returns with the reply at 204, the user row holding the
    status, the plan and the subscription id of the event, and the update
    followed by one notification. The role of the plan is held afterwards
    exactly when it was held before or the status is active; [assign] is
    called once when the status is active and the role was not held, and not
    at all otherwise; [unassign] is never called. *)
Theorem created_subscribes_the_user :
  forall constructEvent config request s event userProfile subscriptionPlan user,
    verified constructEvent config request = Some event ->
    Stripe.type event = "customer.subscription.created" ->
    UserProfilesRepository.lookup (Stripe.customer (Stripe.data_object event))
      (userProfiles s) = Some userProfile ->
    event_plan s (Stripe.data_object event) = Some subscriptionPlan ->
    UsersRepository.lookup (UserProfile.userId userProfile) (users s)
      = Some user ->
    User.stripeSubscriptionId user = None ->
    exists s' es,
      webhook constructEvent config request s = (Ok Undefined, s')
      /\ statusCode s' = Some 204
      /\ UsersRepository.lookup (UserProfile.userId userProfile) (users s')
         = Some (User.mk (User.id user)
                   (Stripe.status (Stripe.data_object event))
                   (Some (SubscriptionPlan.id subscriptionPlan))
                   (Some (Stripe.id (Stripe.data_object event))))
      /\ trace s'
         = trace s ++ es
           ++ [DbWrite Users; Pack (UserProfile.userId userProfile);
               Publish (UserProfile.userId userProfile) "meUpdated"]
      /\ (forall r,
             holds_role s' (UserProfile.userId userProfile) r
             = holds_role s (UserProfile.userId userProfile) r
               || (Stripe.status (Stripe.data_object event) =? "active")
                  && (SubscriptionPlan.roleId subscriptionPlan =? r))
      /\ count is_assign es
         = (if (Stripe.status (Stripe.data_object event) =? "active")
               && negb (holds_role s (UserProfile.userId userProfile)
                          (SubscriptionPlan.roleId subscriptionPlan))
            then 1 else 0)
      /\ count is_unassign es = 0.
Proof.
  intros constructEvent config request s event userProfile plan user
    Hv Ht Hp Hplan Huser Hid.
  rewrite (webhook_dispatch _ _ _ _ _ _ Hv Hp), (handle_created _ _ _ Ht).
  rewrite (created_run _ _ plan user); try assumption.
  eexists.
  exists ([DbRead UserProfiles; ReplyCode 204; DbRead SubscriptionPlans;
           DbRead Users]
          ++ created_role_trace (UserProfile.userId userProfile)
               (SubscriptionPlan.roleId plan)
               (Stripe.status (Stripe.data_object event)) (roleAssignments s)).
  split; [ reflexivity | ].
  unfold holds_role.
  cbn [replied statusCode users trace roleAssignments].
  split; [ reflexivity | ].
  split; [ rewrite lookup_patch_rows, Huser; reflexivity | ].
  split; [ norm_trace; reflexivity | ].
  unfold created_roles, created_role_trace.
  destruct (Stripe.status (Stripe.data_object event) =? "active");
    cbn [andb].
  - repeat split.
    + intros r. rewrite holds_ensured, !String.eqb_refl. cbn [andb].
      rewrite andb_true_r.
      destruct (RoleService.holds (UserProfile.userId userProfile)
                  (SubscriptionPlan.roleId plan) (roleAssignments s)) eqn:Hheld;
        cbn [negb andb]; [ | reflexivity ].
      rewrite orb_false_r.
      destruct (SubscriptionPlan.roleId plan =? r) eqn:E;
        [ | rewrite orb_false_r; reflexivity ].
      apply String.eqb_eq in E. subst r. rewrite Hheld. reflexivity.
    + unfold ensured_trace.
      destruct (RoleService.holds (UserProfile.userId userProfile)
                  (SubscriptionPlan.roleId plan) (roleAssignments s));
        reflexivity.
    + unfold ensured_trace.
      destruct (RoleService.holds (UserProfile.userId userProfile)
                  (SubscriptionPlan.roleId plan) (roleAssignments s));
        reflexivity.
  - repeat split. intros r. rewrite orb_false_r. reflexivity.
Qed.

Lemma created_subscribes_the_user_witness :
  exists s' es,
    webhook (Sample.accepting (Sample.created "active" "price_basic"))
      Sample.config Sample.request (Sample.state Sample.fresh [])
    = (Ok Undefined, s')
    /\ statusCode s' = Some 204
    /\ UsersRepository.lookup (UserProfile.userId Sample.profile) (users s')
       = Some (User.mk (User.id Sample.fresh)
                 (Stripe.status
                    (Stripe.data_object (Sample.created "active" "price_basic")))
                 (Some (SubscriptionPlan.id Sample.basic))
                 (Some (Stripe.id
                          (Stripe.data_object
                             (Sample.created "active" "price_basic")))))
    /\ trace s'
       = trace (Sample.state Sample.fresh []) ++ es
         ++ [DbWrite Users; Pack (UserProfile.userId Sample.profile);
             Publish (UserProfile.userId Sample.profile) "meUpdated"]
    /\ (forall r,
           holds_role s' (UserProfile.userId Sample.profile) r
           = holds_role (Sample.state Sample.fresh [])
               (UserProfile.userId Sample.profile) r
             || (Stripe.status
                   (Stripe.data_object (Sample.created "active" "price_basic"))
                 =? "active")
                && (SubscriptionPlan.roleId Sample.basic =? r))
    /\ count is_assign es
       = (if (Stripe.status
                (Stripe.data_object (Sample.created "active" "price_basic"))
              =? "active")
             && negb (holds_role (Sample.state Sample.fresh [])
                        (UserProfile.userId Sample.profile)
                        (SubscriptionPlan.roleId Sample.basic))
          then 1 else 0)
    /\ count is_unassign es = 0.
Proof.
  apply (created_subscribes_the_user
           (Sample.accepting (Sample.created "active" "price_basic"))
           Sample.config Sample.request (Sample.state Sample.fresh [])
           (Sample.created "active" "price_basic")
           Sample.profile Sample.basic Sample.fresh);
    reflexivity.
Defined.

(** X5. A created event never takes a role away: whatever its outcome, every
    role any user held before the delivery is held after it. *)
Theorem created_never_revokes :
  forall constructEvent config request s event,
    verified constructEvent config request = Some event ->
    Stripe.type event = "customer.subscription.created" ->
    forall userId roleId,
      holds_role s userId roleId = true ->
      holds_role (snd (webhook constructEvent config request s)) userId roleId
      = true.
Proof.
  intros constructEvent config request s event Hv Ht userId roleId Hheld.
  unfold holds_role in *.
  destruct (UserProfilesRepository.lookup
              (Stripe.customer (Stripe.data_object event)) (userProfiles s))
    as [ userProfile | ] eqn:Hp.
  2: { destruct (webhook_no_profile _ _ _ _ _ Hv Hp) as [m Hm].
       rewrite Hm. exact Hheld. }
  rewrite (webhook_dispatch _ _ _ _ _ _ Hv Hp), (handle_created _ _ _ Ht).
  destruct (created_cases userProfile (Stripe.data_object event)
              (replied 204 [DbRead UserProfiles; ReplyCode 204] s))
    as [ (e & es & Hrun & _) | [ (es & Hrun & _)
       | (plan & user & Hplan & Huser & Hid) ] ].
  - rewrite Hrun. exact Hheld.
  - rewrite Hrun. exact Hheld.
  - rewrite (created_run _ _ plan user); try assumption.
    cbn [snd replied roleAssignments]. unfold created_roles.
    destruct (Stripe.status (Stripe.data_object event) =? "active");
      [ | exact Hheld ].
    rewrite holds_ensured, Hheld. reflexivity.
Qed.

Lemma created_never_revokes_witness :
  holds_role
    (snd (webhook (Sample.accepting (Sample.created "active" "price_pro"))
            Sample.config Sample.request
            (Sample.state Sample.fresh [("alice", "role_basic")])))
    "alice" "role_basic"
  = true.
Proof.
  apply (created_never_revokes
           (Sample.accepting (Sample.created "active" "price_pro"))
           Sample.config Sample.request
           (Sample.state Sample.fresh [("alice", "role_basic")])
           (Sample.created "active" "price_pro"));
    reflexivity.
Defined.

(** ** The updated transition, further *)

Lemma holds_ensured_self userId roleId ra r :
  RoleService.holds userId r (ensured userId roleId ra ra)
  = RoleService.holds userId r ra || (roleId =? r).
Proof.
  rewrite holds_ensured, String.eqb_refl, andb_true_r.
  destruct (RoleService.holds userId roleId ra) eqn:Hheld; cbn [negb andb];
    [ | reflexivity ].
  destruct (roleId =? r) eqn:E; [ | reflexivity ].
  apply String.eqb_eq in E. subst r. rewrite Hheld. reflexivity.
Qed.

(** The paths of the updated transition under a status other than active. *)
Lemma updated_inactive_cases event userProfile subscription s :
  (Stripe.status subscription =? "active") = false ->
  (exists r es,
      customer_subscription_updated event userProfile subscription s
      = (r, observed es s)
      /\ forallb idle es = true)
  \/ (exists user plan,
        UsersRepository.lookup (UserProfile.userId userProfile) (users s)
        = Some user
        /\ event_plan s subscription = Some plan
        /\ passes_guard user subscription = true
        /\ Stripe.cancel_at_period_end subscription = false
        /\ customer_subscription_updated event userProfile subscription s
           = (Ok Undefined,
              updated_state user plan subscription (roleAssignments s) [] s)).
Proof.
  intros Hstatus.
  destruct (UsersRepository.lookup (UserProfile.userId userProfile) (users s))
    as [ user | ] eqn:Huser.
  2: { left. destruct (updated_no_user event userProfile subscription s Huser)
         as (e & es & Hrun & _ & Hes).
       exists (Throw e), es. auto. }
  destruct (event_plan s subscription) as [ plan | ] eqn:Hplan.
  2: { left.
       destruct (updated_no_plan event userProfile subscription user s
                   Huser Hplan) as (e & es & Hrun & _ & Hes).
       exists (Throw e), es. auto. }
  destruct (passes_guard user subscription) eqn:Hguard.
  2: { left. do 2 eexists. split.
       - apply (updated_foreign_run _ _ _ plan user); assumption.
       - reflexivity. }
  destruct (Stripe.cancel_at_period_end subscription) eqn:Hcancel.
  - left. do 2 eexists. split.
    + apply (updated_cancel_run _ _ _ plan user); assumption.
    + reflexivity.
  - right. exists user, plan. repeat (split; [ assumption || reflexivity | ]).
    apply updated_inactive_run; assumption.
Qed.

(** X6. An updated event whose status is not active never reaches the role
    service: whatever its outcome, the role assignments are as before and no
    call to [getUserRoles], [assign] or [unassign] is made, even when the
    event changes the plan of the user row. *)
Theorem inactive_update_leaves_roles_alone :
  forall constructEvent config request s event,
    verified constructEvent config request = Some event ->
    Stripe.type event = "customer.subscription.updated" ->
    (Stripe.status (Stripe.data_object event) =? "active") = false ->
    roleAssignments (snd (webhook constructEvent config request s))
    = roleAssignments s
    /\ exists es,
         trace (snd (webhook constructEvent config request s)) = trace s ++ es
         /\ count is_role_call es = 0.
Proof.
  intros constructEvent config request s event Hv Ht Hstatus.
  destruct (UserProfilesRepository.lookup
              (Stripe.customer (Stripe.data_object event)) (userProfiles s))
    as [ userProfile | ] eqn:Hp.
  2: { destruct (webhook_no_profile _ _ _ _ _ Hv Hp) as [m Hm].
       rewrite Hm. split; [ reflexivity | ]. eexists.
       split; reflexivity. }
  rewrite (webhook_dispatch _ _ _ _ _ _ Hv Hp), (handle_updated _ _ _ Ht).
  destruct (updated_inactive_cases event userProfile (Stripe.data_object event)
              (replied 204 [DbRead UserProfiles; ReplyCode 204] s) Hstatus)
    as [ (r & es & Hrun & Hes)
       | (user & plan & _ & _ & _ & _ & Hrun) ];
    rewrite Hrun; cbn [snd observed updated_state replied roleAssignments trace].
  - split; [ reflexivity | ].
    exists ([DbRead UserProfiles; ReplyCode 204] ++ es).
    split; [ norm_trace; reflexivity | ].
    rewrite count_app. cbn [plus].
    apply (count_none idle); [ exact idle_no_role_call | exact Hes ].
  - split; [ reflexivity | ]. eexists.
    split; [ norm_trace; reflexivity | reflexivity ].
Qed.

Lemma inactive_update_leaves_roles_alone_witness :
  roleAssignments
    (snd (webhook (Sample.accepting (Sample.updated "sub_1" "past_due" "price_pro"))
            Sample.config Sample.request
            (Sample.state (Sample.subscribed "sub_1" Sample.basic)
               [("alice", "role_basic")])))
  = roleAssignments
      (Sample.state (Sample.subscribed "sub_1" Sample.basic)
         [("alice", "role_basic")])
  /\ exists es,
       trace
         (snd (webhook
                 (Sample.accepting (Sample.updated "sub_1" "past_due" "price_pro"))
                 Sample.config Sample.request
                 (Sample.state (Sample.subscribed "sub_1" Sample.basic)
                    [("alice", "role_basic")])))
       = trace (Sample.state (Sample.subscribed "sub_1" Sample.basic)
                  [("alice", "role_basic")])
         ++ es
       /\ count is_role_call es = 0.
Proof.
  apply (inactive_update_leaves_roles_alone
           (Sample.accepting (Sample.updated "sub_1" "past_due" "price_pro"))
           Sample.config Sample.request
           (Sample.state (Sample.subscribed "sub_1" Sample.basic)
              [("alice", "role_basic")])
           (Sample.updated "sub_1" "past_due" "price_pro"));
    reflexivity.
Defined.

(** X7. An updated event whose status is not active and whose subscription
    is set to cancel at the end of the period stores nothing: whatever the
    lookups give, the reply is 204, the stores are as before and only idle
    calls are made. *)
Theorem pending_cancellation_stores_nothing :
  forall constructEvent config request s event userProfile,
    verified constructEvent config request = Some event ->
    Stripe.type event = "customer.subscription.updated" ->
    UserProfilesRepository.lookup (Stripe.customer (Stripe.data_object event))
      (userProfiles s) = Some userProfile ->
    (Stripe.status (Stripe.data_object event) =? "active") = false ->
    Stripe.cancel_at_period_end (Stripe.data_object event) = true ->
    exists r es,
      webhook constructEvent config request s = (r, replied 204 es s)
      /\ forallb idle es = true.
Proof.
  intros constructEvent config request s event userProfile
    Hv Ht Hp Hstatus Hcancel.
  rewrite (webhook_dispatch _ _ _ _ _ _ Hv Hp), (handle_updated _ _ _ Ht).
  destruct (updated_inactive_cases event userProfile (Stripe.data_object event)
              (replied 204 [DbRead UserProfiles; ReplyCode 204] s) Hstatus)
    as [ (r & es & Hrun & Hes)
       | (user & plan & _ & _ & _ & Hnot & _) ]; [ | congruence ].
  rewrite Hrun. exists r, ([DbRead UserProfiles; ReplyCode 204] ++ es). split.
  - unfold observed, replied. settle.
  - cbn [app forallb idle andb]. exact Hes.
Qed.

Lemma pending_cancellation_stores_nothing_witness :
  exists r es,
    webhook
      (Sample.accepting
         (Stripe.mkEvent "customer.subscription.updated"
            (Sample.subscription "sub_1" "past_due" "price_basic" true) None))
      Sample.config Sample.request
      (Sample.state (Sample.subscribed "sub_1" Sample.basic)
         [("alice", "role_basic")])
    = (r,
       replied 204 es
         (Sample.state (Sample.subscribed "sub_1" Sample.basic)
            [("alice", "role_basic")]))
    /\ forallb idle es = true.
Proof.
  apply (pending_cancellation_stores_nothing
           (Sample.accepting
              (Stripe.mkEvent "customer.subscription.updated"
                 (Sample.subscription "sub_1" "past_due" "price_basic" true)
                 None))
           Sample.config Sample.request
           (Sample.state (Sample.subscribed "sub_1" Sample.basic)
              [("alice", "role_basic")])
           (Stripe.mkEvent "customer.subscription.updated"
              (Sample.subscription "sub_1" "past_due" "price_basic" true) None)
           Sample.profile);
    reflexivity.
Defined.

(** X8. An updated event with status active that passes the guard, for a
    user whose row refers to no plan (null, or the empty string): the handler
    returns with the row persisted and, of the roles of the catalog, the user
    holds the role of the event's plan and no other; the roles that belong
    to no plan are as before. *)
Theorem first_plan_leaves_exactly_its_role :
  forall constructEvent config request s event userProfile subscriptionPlan user,
    verified constructEvent config request = Some event ->
    Stripe.type event = "customer.subscription.updated" ->
    UserProfilesRepository.lookup (Stripe.customer (Stripe.data_object event))
      (userProfiles s) = Some userProfile ->
    UsersRepository.lookup (UserProfile.userId userProfile) (users s)
      = Some user ->
    event_plan s (Stripe.data_object event) = Some subscriptionPlan ->
    passes_guard user (Stripe.data_object event) = true ->
    Stripe.status (Stripe.data_object event) = "active" ->
    truthy_opt (User.subscriptionPlanId user) = false ->
    exists s',
      webhook constructEvent config request s = (Ok Undefined, s')
      /\ UsersRepository.lookup (UserProfile.userId userProfile) (users s')
         = Some (updated_row user subscriptionPlan (Stripe.data_object event))
      /\ (forall r,
             catalog_role s r = true ->
             (holds_role s' (UserProfile.userId userProfile) r = true
              <-> r = SubscriptionPlan.roleId subscriptionPlan))
      /\ (forall r,
             catalog_role s r = false ->
             holds_role s' (UserProfile.userId userProfile) r
             = holds_role s (UserProfile.userId userProfile) r).
Proof.
  intros constructEvent config request s event userProfile plan user
    Hv Ht Hp Huser Hplan Hguard Hstatus Hnone.
  pose proof (lookup_id _ _ _ Huser) as Hid.
  assert (Hcatalog : catalog_role s (SubscriptionPlan.roleId plan) = true).
  { unfold event_plan in Hplan.
    destruct (Stripe.items_data (Stripe.data_object event)); [ discriminate | ].
    eapply lookup_catalog_role; eauto. }
  rewrite (webhook_dispatch _ _ _ _ _ _ Hv Hp), (handle_updated _ _ _ Ht).
  rewrite (updated_new_plan_run _ _ _ plan user); try assumption.
  eexists. split; [ reflexivity | ].
  unfold holds_role, updated_state.
  cbn [replied users roleAssignments subscriptionPlans].
  rewrite Hid.
  pose proof (holds_after_new_plan s (UserProfile.userId userProfile)
                (SubscriptionPlan.roleId plan)) as Hra.
  split; [ | split ].
  - rewrite lookup_patch_rows, Huser. cbn [option_map].
    rewrite updated_patch_apply by assumption. reflexivity.
  - intros r Hr. rewrite Hra, Hr. cbn [andb]. rewrite negb_involutive. split.
    + intros H. apply orb_true_iff in H. destruct H as [H | H];
        apply andb_true_iff in H; destruct H as [_ H];
        apply String.eqb_eq in H; congruence.
    + intros ->. rewrite !String.eqb_refl, andb_true_r.
      destruct (RoleService.holds _ _ _); reflexivity.
  - intros r Hr. rewrite Hra, Hr. cbn [andb negb].
    assert (E : (SubscriptionPlan.roleId plan =? r) = false).
    { apply String.eqb_neq. intros E. subst r. congruence. }
    rewrite E, andb_true_r, andb_false_r, orb_false_r. reflexivity.
Qed.

Lemma first_plan_leaves_exactly_its_role_witness :
  exists s',
    webhook (Sample.accepting (Sample.updated "sub_1" "active" "price_pro"))
      Sample.config Sample.request
      (Sample.state Sample.fresh
         [("alice", "role_basic"); ("alice", "moderator")])
    = (Ok Undefined, s')
    /\ UsersRepository.lookup (UserProfile.userId Sample.profile) (users s')
       = Some (updated_row Sample.fresh Sample.pro
                 (Stripe.data_object
                    (Sample.updated "sub_1" "active" "price_pro")))
    /\ (forall r,
           catalog_role
             (Sample.state Sample.fresh
                [("alice", "role_basic"); ("alice", "moderator")]) r = true ->
           (holds_role s' (UserProfile.userId Sample.profile) r = true
            <-> r = SubscriptionPlan.roleId Sample.pro))
    /\ (forall r,
           catalog_role
             (Sample.state Sample.fresh
                [("alice", "role_basic"); ("alice", "moderator")]) r = false ->
           holds_role s' (UserProfile.userId Sample.profile) r
           = holds_role
               (Sample.state Sample.fresh
                  [("alice", "role_basic"); ("alice", "moderator")])
               (UserProfile.userId Sample.profile) r).
Proof.
  apply (first_plan_leaves_exactly_its_role
           (Sample.accepting (Sample.updated "sub_1" "active" "price_pro"))
           Sample.config Sample.request
           (Sample.state Sample.fresh
              [("alice", "role_basic"); ("alice", "moderator")])
           (Sample.updated "sub_1" "active" "price_pro")
           Sample.profile Sample.pro Sample.fresh);
    reflexivity.
Defined.

(** X9. An updated event with status active that passes the guard and whose
    plan is the plan of the user row: the handler returns with the row
    persisted and never calls [unassign]. The role of the plan is granted
    (unless held) only when the event carries a previous status; without one
    the role service is not called at all and a missing role stays
    missing. *)
Theorem unchanged_plan_grants_only_on_status_change :
  forall constructEvent config request s event userProfile subscriptionPlan user,
    verified constructEvent config request = Some event ->
    Stripe.type event = "customer.subscription.updated" ->
    UserProfilesRepository.lookup (Stripe.customer (Stripe.data_object event))
      (userProfiles s) = Some userProfile ->
    UsersRepository.lookup (UserProfile.userId userProfile) (users s)
      = Some user ->
    event_plan s (Stripe.data_object event) = Some subscriptionPlan ->
    passes_guard user (Stripe.data_object event) = true ->
    Stripe.status (Stripe.data_object event) = "active" ->
    User.subscriptionPlanId user = Some (SubscriptionPlan.id subscriptionPlan) ->
    truthy (SubscriptionPlan.id subscriptionPlan) = true ->
    exists s' es,
      webhook constructEvent config request s = (Ok Undefined, s')
      /\ trace s' = trace s ++ es
      /\ UsersRepository.lookup (UserProfile.userId userProfile) (users s')
         = Some (updated_row user subscriptionPlan (Stripe.data_object event))
      /\ (forall r,
             holds_role s' (UserProfile.userId userProfile) r
             = holds_role s (UserProfile.userId userProfile) r
               || previous_status_truthy (Stripe.data_previous_attributes event)
                  && (SubscriptionPlan.roleId subscriptionPlan =? r))
      /\ count is_unassign es = 0
      /\ (previous_status_truthy (Stripe.data_previous_attributes event) = false ->
          count is_role_call es = 0).
Proof.
  intros constructEvent config request s event userProfile plan user
    Hv Ht Hp Huser Hplan Hguard Hstatus Hstored Htruthy.
  pose proof (lookup_id _ _ _ Huser) as Hid.
  assert (Hsome : truthy_opt (User.subscriptionPlanId user) = true)
    by (rewrite Hstored; exact Htruthy).
  assert (Hsame : strict_neq (User.subscriptionPlanId user)
                    (SubscriptionPlan.id plan) = false).
  { rewrite Hstored. cbn [strict_neq]. rewrite String.eqb_refl. reflexivity. }
  rewrite (webhook_dispatch _ _ _ _ _ _ Hv Hp), (handle_updated _ _ _ Ht).
  assert (Hrow : UsersRepository.lookup (UserProfile.userId userProfile)
                   (UsersRepository.patch_rows (UserProfile.userId userProfile)
                      (updated_patch user plan (Stripe.data_object event))
                      (users s))
                 = Some (updated_row user plan (Stripe.data_object event))).
  { rewrite lookup_patch_rows, Huser. cbn [option_map].
    rewrite updated_patch_apply by assumption. reflexivity. }
  destruct (previous_status_truthy (Stripe.data_previous_attributes event))
    eqn:Hprev.
  - rewrite (updated_status_change_run _ _ _ plan user); try assumption.
    unfold holds_role, updated_state.
    cbn [replied users roleAssignments trace]. rewrite Hid. eexists.
    exists ([DbRead UserProfiles; ReplyCode 204; DbRead Users;
             DbRead SubscriptionPlans;
             RoleRead (UserProfile.userId userProfile)]
            ++ ensured_trace (UserProfile.userId userProfile)
                 (SubscriptionPlan.roleId plan) "update" (roleAssignments s)
            ++ [DbWrite Users; Pack (UserProfile.userId userProfile);
                Publish (UserProfile.userId userProfile) "meUpdated"]).
    split; [ reflexivity | ]. cbn [users roleAssignments trace].
    split; [ norm_trace; reflexivity | ].
    split; [ exact Hrow | ].
    split; [ intros r; apply holds_ensured_self | ].
    split; [ | discriminate ].
    rewrite !count_app. unfold ensured_trace.
    destruct (RoleService.holds _ _ _); reflexivity.
  - rewrite (updated_same_run _ _ _ plan user); try assumption.
    unfold holds_role, updated_state.
    cbn [replied users roleAssignments trace]. rewrite Hid. eexists.
    exists [DbRead UserProfiles; ReplyCode 204; DbRead Users;
            DbRead SubscriptionPlans; DbWrite Users;
            Pack (UserProfile.userId userProfile);
            Publish (UserProfile.userId userProfile) "meUpdated"].
    split; [ reflexivity | ]. cbn [users roleAssignments trace].
    split; [ norm_trace; reflexivity | ].
    split; [ exact Hrow | ].
    split; [ intros r; cbn [andb]; rewrite orb_false_r; reflexivity | ].
    split; reflexivity.
Qed.

Lemma unchanged_plan_grants_only_on_status_change_witness :
  exists s' es,
    webhook (Sample.accepting (Sample.updated "sub_1" "active" "price_basic"))
      Sample.config Sample.request
      (Sample.state (Sample.subscribed "sub_1" Sample.basic) [])
    = (Ok Undefined, s')
    /\ trace s'
       = trace (Sample.state (Sample.subscribed "sub_1" Sample.basic) []) ++ es
    /\ UsersRepository.lookup (UserProfile.userId Sample.profile) (users s')
       = Some (updated_row (Sample.subscribed "sub_1" Sample.basic) Sample.basic
                 (Stripe.data_object
                    (Sample.updated "sub_1" "active" "price_basic")))
    /\ (forall r,
           holds_role s' (UserProfile.userId Sample.profile) r
           = holds_role (Sample.state (Sample.subscribed "sub_1" Sample.basic) [])
               (UserProfile.userId Sample.profile) r
             || previous_status_truthy
                  (Stripe.data_previous_attributes
                     (Sample.updated "sub_1" "active" "price_basic"))
                && (SubscriptionPlan.roleId Sample.basic =? r))
    /\ count is_unassign es = 0
    /\ (previous_status_truthy
          (Stripe.data_previous_attributes
             (Sample.updated "sub_1" "active" "price_basic")) = false ->
        count is_role_call es = 0).
Proof.
  apply (unchanged_plan_grants_only_on_status_change
           (Sample.accepting (Sample.updated "sub_1" "active" "price_basic"))
           Sample.config Sample.request
           (Sample.state (Sample.subscribed "sub_1" Sample.basic) [])
           (Sample.updated "sub_1" "active" "price_basic")
           Sample.profile Sample.basic
           (Sample.subscribed "sub_1" Sample.basic));
    reflexivity.
Defined.

(** X10. An updated event with status active that changes the plan of a user
    whose stored plan is no longer in the catalog: the lookup of the old plan
    throws. The reply is already at 204, and neither a role nor the user row
    has been written. *)
Theorem plan_change_from_an_unknown_plan_throws :
  forall constructEvent config request s event userProfile subscriptionPlan user,
    verified constructEvent config request = Some event ->
    Stripe.type event = "customer.subscription.updated" ->
    UserProfilesRepository.lookup (Stripe.customer (Stripe.data_object event))
      (userProfiles s) = Some userProfile ->
    UsersRepository.lookup (UserProfile.userId userProfile) (users s)
      = Some user ->
    event_plan s (Stripe.data_object event) = Some subscriptionPlan ->
    passes_guard user (Stripe.data_object event) = true ->
    Stripe.status (Stripe.data_object event) = "active" ->
    truthy_opt (User.subscriptionPlanId user) = true ->
    strict_neq (User.subscriptionPlanId user)
      (SubscriptionPlan.id subscriptionPlan) = true ->
    SubscriptionPlansRepository.lookup
      (SubscriptionPlansRepository.by_id (User.subscriptionPlanId user))
      (subscriptionPlans s) = None ->
    webhook constructEvent config request s
    = (Throw (EntityNotFoundError SubscriptionPlans),
       replied 204
         [DbRead UserProfiles; ReplyCode 204; DbRead Users;
          DbRead SubscriptionPlans; DbRead SubscriptionPlans] s).
Proof.
  intros constructEvent config request s event userProfile plan user
    Hv Ht Hp Huser Hplan Hguard Hstatus Hsome Hneq Hold.
  rewrite (webhook_dispatch _ _ _ _ _ _ Hv Hp), (handle_updated _ _ _ Ht).
  rewrite (updated_plan_change_throws _ _ _ plan user); try assumption.
  unfold observed, replied. settle.
Qed.

Lemma plan_change_from_an_unknown_plan_throws_witness :
  webhook (Sample.accepting (Sample.updated "sub_1" "active" "price_pro"))
    Sample.config Sample.request
    (Sample.state (User.mk "alice" "active" (Some "plan_retired") (Some "sub_1"))
       [("alice", "role_retired")])
  = (Throw (EntityNotFoundError SubscriptionPlans),
     replied 204
       [DbRead UserProfiles; ReplyCode 204; DbRead Users;
        DbRead SubscriptionPlans; DbRead SubscriptionPlans]
       (Sample.state
          (User.mk "alice" "active" (Some "plan_retired") (Some "sub_1"))
          [("alice", "role_retired")])).
Proof.
  apply (plan_change_from_an_unknown_plan_throws
           (Sample.accepting (Sample.updated "sub_1" "active" "price_pro"))
           Sample.config Sample.request
           (Sample.state
              (User.mk "alice" "active" (Some "plan_retired") (Some "sub_1"))
              [("alice", "role_retired")])
           (Sample.updated "sub_1" "active" "price_pro")
           Sample.profile Sample.pro
           (User.mk "alice" "active" (Some "plan_retired") (Some "sub_1")));
    reflexivity.
Defined.

(** ** The deleted transition, further *)

(** X11. A deleted event that passes the guard, for a user who does not hold
    the role of the event's plan: the handler returns without a call to
    [unassign], the role assignments as before, the user row cleared under
    the status of the event, and one notification published. *)
Theorem deleted_without_the_role_only_clears_the_row :
  forall constructEvent config request s event userProfile subscriptionPlan user,
    verified constructEvent config request = Some event ->
    Stripe.type event = "customer.subscription.deleted" ->
    UserProfilesRepository.lookup (Stripe.customer (Stripe.data_object event))
      (userProfiles s) = Some userProfile ->
    event_plan s (Stripe.data_object event) = Some subscriptionPlan ->
    UsersRepository.lookup (UserProfile.userId userProfile) (users s)
      = Some user ->
    passes_guard user (Stripe.data_object event) = true ->
    holds_role s (UserProfile.userId userProfile)
      (SubscriptionPlan.roleId subscriptionPlan) = false ->
    exists s',
      webhook constructEvent config request s = (Ok Undefined, s')
      /\ roleAssignments s' = roleAssignments s
      /\ UsersRepository.lookup (UserProfile.userId userProfile) (users s')
         = Some (cleared user (Stripe.status (Stripe.data_object event)))
      /\ statusCode s' = Some 204
      /\ trace s'
         = trace s
           ++ [DbRead UserProfiles; ReplyCode 204; DbRead SubscriptionPlans;
               DbRead Users; RoleRead (UserProfile.userId userProfile);
               DbWrite Users; Pack (UserProfile.userId userProfile);
               Publish (UserProfile.userId userProfile) "meUpdated"].
Proof.
  intros constructEvent config request s event userProfile plan user
    Hv Ht Hp Hplan Huser Hguard Hfree.
  rewrite (webhook_dispatch _ _ _ _ _ _ Hv Hp), (handle_deleted _ _ _ Ht).
  rewrite (deleted_run _ _ plan user); try assumption.
  unfold holds_role in Hfree. eexists. split; [ reflexivity | ].
  unfold dropped, dropped_trace.
  cbn [replied roleAssignments users statusCode trace].
  rewrite Hfree. repeat split.
  - rewrite lookup_patch_rows, Huser. reflexivity.
  - norm_trace. reflexivity.
Qed.

Lemma deleted_without_the_role_only_clears_the_row_witness :
  exists s',
    webhook (Sample.accepting (Sample.deleted "sub_1" "price_basic"))
      Sample.config Sample.request
      (Sample.state (User.mk "alice" "incomplete" (Some "plan_basic") None)
         [("alice", "moderator")])
    = (Ok Undefined, s')
    /\ roleAssignments s'
       = roleAssignments
           (Sample.state (User.mk "alice" "incomplete" (Some "plan_basic") None)
              [("alice", "moderator")])
    /\ UsersRepository.lookup (UserProfile.userId Sample.profile) (users s')
       = Some (cleared (User.mk "alice" "incomplete" (Some "plan_basic") None)
                 (Stripe.status
                    (Stripe.data_object (Sample.deleted "sub_1" "price_basic"))))
    /\ statusCode s' = Some 204
    /\ trace s'
       = trace (Sample.state
                  (User.mk "alice" "incomplete" (Some "plan_basic") None)
                  [("alice", "moderator")])
         ++ [DbRead UserProfiles; ReplyCode 204; DbRead SubscriptionPlans;
             DbRead Users; RoleRead (UserProfile.userId Sample.profile);
             DbWrite Users; Pack (UserProfile.userId Sample.profile);
             Publish (UserProfile.userId Sample.profile) "meUpdated"].
Proof.
  apply (deleted_without_the_role_only_clears_the_row
           (Sample.accepting (Sample.deleted "sub_1" "price_basic"))
           Sample.config Sample.request
           (Sample.state (User.mk "alice" "incomplete" (Some "plan_basic") None)
              [("alice", "moderator")])
           (Sample.deleted "sub_1" "price_basic")
           Sample.profile Sample.basic
           (User.mk "alice" "incomplete" (Some "plan_basic") None));
    reflexivity.
Defined.

(** X12. A deleted event whose subscription id differs from a stored external
    subscription id that is set stores nothing: whatever the plan lookup
    gives, the reply is 204, the stores are as before, and only idle calls
    are made. *)
Theorem foreign_deleted_event_stores_nothing :
  forall constructEvent config request s event userProfile user,
    verified constructEvent config request = Some event ->
    Stripe.type event = "customer.subscription.deleted" ->
    UserProfilesRepository.lookup (Stripe.customer (Stripe.data_object event))
      (userProfiles s) = Some userProfile ->
    UsersRepository.lookup (UserProfile.userId userProfile) (users s)
      = Some user ->
    truthy_opt (User.stripeSubscriptionId user) = true ->
    strict_neq (User.stripeSubscriptionId user)
      (Stripe.id (Stripe.data_object event)) = true ->
    exists r es,
      webhook constructEvent config request s = (r, replied 204 es s)
      /\ forallb idle es = true.
Proof.
  intros constructEvent config request s event userProfile user
    Hv Ht Hp Huser Hset Hdiff.
  rewrite (webhook_dispatch _ _ _ _ _ _ Hv Hp), (handle_deleted _ _ _ Ht).
  destruct (event_plan s (Stripe.data_object event)) as [ plan | ] eqn:Hplan.
  - rewrite (deleted_foreign_run _ _ plan user); try assumption.
    + do 2 eexists. split; [ unfold observed, replied; settle | reflexivity ].
    + unfold passes_guard. rewrite Hset, Hdiff. reflexivity.
  - destruct (deleted_plan_lookup_fails userProfile (Stripe.data_object event)
                (replied 204 [DbRead UserProfiles; ReplyCode 204] s) Hplan)
      as (e & es & Hrun & _ & Hes).
    rewrite Hrun. exists (Throw e), ([DbRead UserProfiles; ReplyCode 204] ++ es).
    split.
    + unfold observed, replied. settle.
    + cbn [app forallb idle andb]. exact Hes.
Qed.

Lemma foreign_deleted_event_stores_nothing_witness :
  exists r es,
    webhook (Sample.accepting (Sample.deleted "sub_2" "price_basic"))
      Sample.config Sample.request
      (Sample.state (Sample.subscribed "sub_1" Sample.basic)
         [("alice", "role_basic")])
    = (r,
       replied 204 es
         (Sample.state (Sample.subscribed "sub_1" Sample.basic)
            [("alice", "role_basic")]))
    /\ forallb idle es = true.
Proof.
  apply (foreign_deleted_event_stores_nothing
           (Sample.accepting (Sample.deleted "sub_2" "price_basic"))
           Sample.config Sample.request
           (Sample.state (Sample.subscribed "sub_1" Sample.basic)
              [("alice", "role_basic")])
           (Sample.deleted "sub_2" "price_basic")
           Sample.profile (Sample.subscribed "sub_1" Sample.basic));
    reflexivity.
Defined.

Lemma apply_idempotent p u :
  UserPatch.apply p (UserPatch.apply p u) = UserPatch.apply p u.
Proof.
  destruct p as [[status | ] [plan | ] [sid | ]]; reflexivity.
Qed.

Lemma patch_rows_idempotent id p us :
  UsersRepository.patch_rows id p (UsersRepository.patch_rows id p us)
  = UsersRepository.patch_rows id p us.
Proof.
  unfold UsersRepository.patch_rows. rewrite map_map. apply map_ext.
  intros u. destruct (UsersRepository.by_id id u) eqn:E.
  - rewrite by_id_apply, E. apply apply_idempotent.
  - rewrite E. reflexivity.
Qed.

Lemma dropped_idempotent userId roleId ra :
  dropped userId roleId (dropped userId roleId ra ra)
    (dropped userId roleId ra ra)
  = dropped userId roleId ra ra.
Proof.
  unfold dropped at 1.
  rewrite holds_dropped, !String.eqb_refl. cbn [andb negb].
  rewrite andb_false_r. reflexivity.
Qed.

(** X13. Delivering a deleted event again stores nothing new: after a
    delivery that returned, the same event returns again and leaves the four
    stores exactly as the first delivery left them. *)
Theorem deleted_twice_stores_as_once :
  forall constructEvent config request s s1 event,
    verified constructEvent config request = Some event ->
    Stripe.type event = "customer.subscription.deleted" ->
    webhook constructEvent config request s = (Ok Undefined, s1) ->
    exists s2,
      webhook constructEvent config request (new_request s1) = (Ok Undefined, s2)
      /\ same_stores s1 s2.
Proof.
  intros constructEvent config request s s1 event Hv Ht Hrun.
  destruct (UserProfilesRepository.lookup
              (Stripe.customer (Stripe.data_object event)) (userProfiles s))
    as [ userProfile | ] eqn:Hp.
  2: { destruct (webhook_no_profile _ _ _ _ _ Hv Hp) as [m Hm].
       rewrite Hm in Hrun. discriminate. }
  rewrite (webhook_dispatch _ _ _ _ _ _ Hv Hp), (handle_deleted _ _ _ Ht) in Hrun.
  destruct (event_plan s (Stripe.data_object event)) as [ plan | ] eqn:Hplan.
  2: { destruct (deleted_plan_lookup_fails userProfile (Stripe.data_object event)
                   (replied 204 [DbRead UserProfiles; ReplyCode 204] s) Hplan)
         as (e & es & Hthrow & _).
       rewrite Hthrow in Hrun. discriminate. }
  destruct (UsersRepository.lookup (UserProfile.userId userProfile) (users s))
    as [ user | ] eqn:Huser.
  2: { destruct (deleted_user_lookup_fails userProfile (Stripe.data_object event)
                   plan (replied 204 [DbRead UserProfiles; ReplyCode 204] s)
                   Hplan Huser)
         as (e & es & Hthrow & _).
       rewrite Hthrow in Hrun. discriminate. }
  destruct (passes_guard user (Stripe.data_object event)) eqn:Hguard.
  - rewrite (deleted_run _ _ plan user) in Hrun; try assumption.
    injection Hrun as <-.
    rewrite (webhook_dispatch _ _ _ _ userProfile _ Hv);
      [ | exact Hp ].
    rewrite (handle_deleted _ _ _ Ht).
    rewrite (deleted_run _ _ plan
               (UserPatch.apply
                  (UserPatch.mk
                     (Some (Stripe.status (Stripe.data_object event)))
                     (Some None) (Some None))
                  user)).
    + eexists. split; [ reflexivity | ].
      cbn [new_request replied userProfiles users subscriptionPlans
           roleAssignments].
      repeat split.
      * apply patch_rows_idempotent.
      * apply dropped_idempotent.
    + exact Hplan.
    + cbn [new_request replied users]. rewrite lookup_patch_rows.
      cbn [replied users] in Huser. rewrite Huser. reflexivity.
    + reflexivity.
  - rewrite (deleted_foreign_run _ _ plan user) in Hrun; try assumption.
    injection Hrun as <-.
    rewrite (webhook_dispatch _ _ _ _ userProfile _ Hv); [ | exact Hp ].
    rewrite (handle_deleted _ _ _ Ht).
    rewrite (deleted_foreign_run _ _ plan user); try assumption.
    eexists. split; [ reflexivity | ]. repeat split.
Qed.

Lemma deleted_twice_stores_as_once_witness :
  exists s2,
    webhook (Sample.accepting (Sample.deleted "sub_1" "price_basic"))
      Sample.config Sample.request
      (new_request
         (Sample.after (Sample.deleted "sub_1" "price_basic")
            (Sample.state (Sample.subscribed "sub_1" Sample.basic)
               [("alice", "role_basic")])))
    = (Ok Undefined, s2)
    /\ same_stores
         (Sample.after (Sample.deleted "sub_1" "price_basic")
            (Sample.state (Sample.subscribed "sub_1" Sample.basic)
               [("alice", "role_basic")]))
         s2.
Proof.
  apply (deleted_twice_stores_as_once
           (Sample.accepting (Sample.deleted "sub_1" "price_basic"))
           Sample.config Sample.request
           (Sample.state (Sample.subscribed "sub_1" Sample.basic)
              [("alice", "role_basic")])
           (Sample.after (Sample.deleted "sub_1" "price_basic")
              (Sample.state (Sample.subscribed "sub_1" Sample.basic)
                 [("alice", "role_basic")]))
           (Sample.deleted "sub_1" "price_basic")).
  - reflexivity.
  - reflexivity.
  - vm_compute. reflexivity.
Defined.

(** ** Events without items *)

(** X14. A verified created or deleted event whose subscription has no item
    makes the handler throw a type error when it reads the price of the first
    item, before any lookup of the transition: the reply is at 204 and
    nothing is stored. The updated transition looks the user up first and
    throws the same error right after, when the user is found. *)
Theorem event_without_items_throws :
  forall constructEvent config request s event userProfile,
    verified constructEvent config request = Some event ->
    recognized (Stripe.type event) = true ->
    UserProfilesRepository.lookup (Stripe.customer (Stripe.data_object event))
      (userProfiles s) = Some userProfile ->
    Stripe.items_data (Stripe.data_object event) = [] ->
    (Stripe.type event = "customer.subscription.updated" ->
     UsersRepository.lookup (UserProfile.userId userProfile) (users s) <> None) ->
    webhook constructEvent config request s
    = (Throw TypeError,
       replied 204
         ([DbRead UserProfiles; ReplyCode 204]
          ++ (if Stripe.type event =? "customer.subscription.updated"
              then [DbRead Users] else []))
         s).
Proof.
  intros constructEvent config request s event userProfile
    Hv Hrec Hp Hitems Huser.
  rewrite (webhook_dispatch _ _ _ _ _ _ Hv Hp).
  destruct (recognized_true _ Hrec) as [Ht | [Ht | Ht]].
  - rewrite (handle_created _ _ _ Ht), Ht.
    unfold customer_subscription_created. unfold_steps. rewrite Hitems.
    unfold replied. settle.
  - rewrite (handle_updated _ _ _ Ht), Ht.
    specialize (Huser Ht).
    destruct (UsersRepository.lookup (UserProfile.userId userProfile) (users s))
      as [ user | ] eqn:Hfound; [ | contradiction ].
    unfold customer_subscription_updated. unfold_steps. unfold replied. proj.
    rewrite Hfound. proj. rewrite Hitems, String.eqb_refl. settle.
  - rewrite (handle_deleted _ _ _ Ht), Ht.
    unfold customer_subscription_deleted. unfold_steps. rewrite Hitems.
    unfold replied. settle.
Qed.

Lemma event_without_items_throws_witness :
  webhook
    (Sample.accepting
       (Stripe.mkEvent "customer.subscription.updated"
          (Stripe.mkSubscription "sub_1" "cus_alice" "active" false []) None))
    Sample.config Sample.request
    (Sample.state (Sample.subscribed "sub_1" Sample.basic)
       [("alice", "role_basic")])
  = (Throw TypeError,
     replied 204
       ([DbRead UserProfiles; ReplyCode 204]
        ++ (if Stripe.type
                 (Stripe.mkEvent "customer.subscription.updated"
                    (Stripe.mkSubscription "sub_1" "cus_alice" "active" false [])
                    None)
               =? "customer.subscription.updated"
            then [DbRead Users] else []))
       (Sample.state (Sample.subscribed "sub_1" Sample.basic)
          [("alice", "role_basic")])).
Proof.
  apply (event_without_items_throws
           (Sample.accepting
              (Stripe.mkEvent "customer.subscription.updated"
                 (Stripe.mkSubscription "sub_1" "cus_alice" "active" false [])
                 None))
           Sample.config Sample.request
           (Sample.state (Sample.subscribed "sub_1" Sample.basic)
              [("alice", "role_basic")])
           (Stripe.mkEvent "customer.subscription.updated"
              (Stripe.mkSubscription "sub_1" "cus_alice" "active" false []) None)
           Sample.profile).
  - reflexivity.
  - reflexivity.
  - reflexivity.
  - reflexivity.
  - intros _. discriminate.
Defined.

(** ** A subscription from its creation to its end *)

Lemma revoke_absent userId roleId ra :
  RoleService.holds userId roleId ra = false ->
  RoleService.revoke userId roleId ra = ra.
Proof.
  unfold RoleService.holds, RoleService.revoke.
  induction ra as [ | a ra IH ]; [ reflexivity | ].
  cbn [existsb filter]. intros H. apply orb_false_iff in H.
  destruct H as [Ha Hra]. rewrite Ha. cbn [negb]. rewrite IH by exact Hra.
  reflexivity.
Qed.

(** Granting and then dropping a role that was not held gives the role
    assignments back, whatever the status of the created event. *)
Lemma dropped_created_roles userId roleId status ra :
  RoleService.holds userId roleId ra = false ->
  dropped userId roleId (created_roles userId roleId status ra)
    (created_roles userId roleId status ra)
  = ra.
Proof.
  intros Hfree. unfold created_roles, ensured. rewrite Hfree.
  destruct (status =? "active").
  - unfold dropped. rewrite holds_grant, !String.eqb_refl, orb_true_r.
    unfold RoleService.revoke, RoleService.grant.
    rewrite filter_app. cbn [filter].
    assert (E : RoleService.is_assignment userId roleId (userId, roleId) = true).
    { unfold RoleService.is_assignment. cbn [fst snd].
      rewrite !String.eqb_refl. reflexivity. }
    rewrite E. cbn [negb]. rewrite app_nil_r.
    apply revoke_absent. exact Hfree.
  - unfold dropped. rewrite Hfree. reflexivity.
Qed.

(** X15. A subscription that is created and then deleted leaves the role
    assignments as they were. For a user without a stored external
    subscription id who does not hold the role of the plan, a created event
    of any status followed by the deleted event of the same subscription and
    price makes both deliveries return, and afterwards the role assignments
    are those of the start and the user row is cleared under the status of
    the deleted event. *)
Theorem subscribe_then_cancel_restores_the_roles :
  forall constructEvent config created_request deleted_request s
         created deleted userProfile subscriptionPlan user,
    verified constructEvent config created_request = Some created ->
    verified constructEvent config deleted_request = Some deleted ->
    Stripe.type created = "customer.subscription.created" ->
    Stripe.type deleted = "customer.subscription.deleted" ->
    Stripe.customer (Stripe.data_object deleted)
    = Stripe.customer (Stripe.data_object created) ->
    Stripe.id (Stripe.data_object deleted)
    = Stripe.id (Stripe.data_object created) ->
    Stripe.items_data (Stripe.data_object deleted)
    = Stripe.items_data (Stripe.data_object created) ->
    UserProfilesRepository.lookup (Stripe.customer (Stripe.data_object created))
      (userProfiles s) = Some userProfile ->
    event_plan s (Stripe.data_object created) = Some subscriptionPlan ->
    UsersRepository.lookup (UserProfile.userId userProfile) (users s)
      = Some user ->
    User.stripeSubscriptionId user = None ->
    holds_role s (UserProfile.userId userProfile)
      (SubscriptionPlan.roleId subscriptionPlan) = false ->
    exists s1 s2,
      webhook constructEvent config created_request s = (Ok Undefined, s1)
      /\ webhook constructEvent config deleted_request (new_request s1)
         = (Ok Undefined, s2)
      /\ roleAssignments s2 = roleAssignments s
      /\ UsersRepository.lookup (UserProfile.userId userProfile) (users s2)
         = Some (cleared user (Stripe.status (Stripe.data_object deleted))).
Proof.
  intros constructEvent config created_request deleted_request s
    created deleted userProfile plan user
    Hvc Hvd Htc Htd Hcustomer Hsame_id Hitems Hp Hplan Huser Hid Hfree.
  unfold holds_role in Hfree.
  rewrite (webhook_dispatch _ _ _ _ _ _ Hvc Hp), (handle_created _ _ _ Htc).
  rewrite (created_run _ _ plan user); try assumption.
  eexists. eexists. split; [ reflexivity | ].
  rewrite (webhook_dispatch _ _ _ _ userProfile _ Hvd);
    [ | rewrite Hcustomer; exact Hp ].
  rewrite (handle_deleted _ _ _ Htd).
  rewrite (deleted_run _ _ plan
             (UserPatch.apply
                (UserPatch.mk (Some (Stripe.status (Stripe.data_object created)))
                   (Some (Some (SubscriptionPlan.id plan)))
                   (Some (Some (Stripe.id (Stripe.data_object created)))))
                user)).
  - split; [ reflexivity | ].
    cbn [new_request replied roleAssignments users].
    split.
    + apply dropped_created_roles. exact Hfree.
    + rewrite !lookup_patch_rows, Huser. reflexivity.
  - unfold event_plan. rewrite Hitems. exact Hplan.
  - cbn [new_request replied users]. rewrite lookup_patch_rows, Huser.
    reflexivity.
  - apply passes_guard_same. rewrite Hsame_id. reflexivity.
Qed.

Lemma subscribe_then_cancel_restores_the_roles_witness :
  exists s1 s2,
    webhook Crowd.by_body Sample.config (Crowd.request "created")
      (Sample.state Sample.fresh [("alice", "moderator")])
    = (Ok Undefined, s1)
    /\ webhook Crowd.by_body Sample.config (Crowd.request "deleted")
         (new_request s1)
       = (Ok Undefined, s2)
    /\ roleAssignments s2
       = roleAssignments (Sample.state Sample.fresh [("alice", "moderator")])
    /\ UsersRepository.lookup (UserProfile.userId Sample.profile) (users s2)
       = Some (cleared Sample.fresh
                 (Stripe.status
                    (Stripe.data_object (Sample.deleted "sub_1" "price_basic")))).
Proof.
  apply (subscribe_then_cancel_restores_the_roles
           Crowd.by_body Sample.config
           (Crowd.request "created") (Crowd.request "deleted")
           (Sample.state Sample.fresh [("alice", "moderator")])
           (Sample.created "active" "price_basic")
           (Sample.deleted "sub_1" "price_basic")
           Sample.profile Sample.basic Sample.fresh);
    reflexivity.
Defined.

(** ** What no delivery does *)


(** X17. A delivery touches one user only. A user who is not the one the
    profile lookup resolves the event's customer to keeps the row and every
    role, whatever the outcome. *)
Theorem only_the_user_of_the_event_is_touched :
  forall constructEvent config request s userId,
    (forall event userProfile,
        verified constructEvent config request = Some event ->
        UserProfilesRepository.lookup
          (Stripe.customer (Stripe.data_object event)) (userProfiles s)
        = Some userProfile ->
        userId <> UserProfile.userId userProfile) ->
    UsersRepository.lookup userId
      (users (snd (webhook constructEvent config request s)))
    = UsersRepository.lookup userId (users s)
    /\ forall roleId,
         holds_role (snd (webhook constructEvent config request s)) userId roleId
         = holds_role s userId roleId.
Proof.
  intros constructEvent config request s userId Hother.
  destruct (webhook constructEvent config request s) as [r s'] eqn:Hrun.
  cbn [snd]. unfold holds_role.
  destruct (webhook_outcome _ _ _ _ _ _ Hrun)
    as [ [_ [(_ & Hu & _ & Hr) _]]
       | (_ & _ & event & userProfile & Hv & _ & Hp & _ & _ & [p Hu] & Hr & _) ].
  - rewrite Hu, Hr. auto.
  - specialize (Hother event userProfile Hv Hp). split.
    + rewrite Hu. apply lookup_patch_rows_other. exact Hother.
    + intros roleId. apply Hr. exact Hother.
Qed.

Lemma only_the_user_of_the_event_is_touched_witness :
  UsersRepository.lookup "bob"
    (users (snd (webhook
                   (Sample.accepting (Sample.updated "sub_1" "active" "price_pro"))
                   Sample.config Sample.request Crowd.state)))
  = UsersRepository.lookup "bob" (users Crowd.state)
  /\ forall roleId,
       holds_role
         (snd (webhook
                 (Sample.accepting (Sample.updated "sub_1" "active" "price_pro"))
                 Sample.config Sample.request Crowd.state))
         "bob" roleId
       = holds_role Crowd.state "bob" roleId.
Proof.
  apply (only_the_user_of_the_event_is_touched
           (Sample.accepting (Sample.updated "sub_1" "active" "price_pro"))
           Sample.config Sample.request Crowd.state "bob").
  intros event userProfile Hv Hp. vm_compute in Hv. injection Hv as <-.
  vm_compute in Hp. injection Hp as <-. discriminate.
Defined.

(** *** The order of the calls *)

Lemma count_cons p e es :
  count p (e :: es) = (if p e then 1 else 0) + count p es.
Proof. unfold count. cbn [filter]. destruct (p e); reflexivity. Qed.

Lemma count_after p pre e post :
  count p (pre ++ e :: post) = 0 -> count p post = 0.
Proof. rewrite count_app, count_cons. lia. Qed.

Lemma forallb_middle (p : Effect -> bool) pre e post :
  forallb p (pre ++ e :: post) = true -> p e = true.
Proof.
  rewrite forallb_app. cbn [forallb]. intros H.
  apply andb_true_iff in H. destruct H as [_ H].
  apply andb_true_iff in H. tauto.
Qed.

(** A write in a list of calls that starts with lookups lies past the
    lookups. *)
Lemma write_after_looks reads rest pre e post :
  reads ++ rest = pre ++ e :: post ->
  forallb looks reads = true ->
  is_write e = true ->
  exists rest', rest = rest' ++ e :: post.
Proof.
  revert pre. induction reads as [ | a reads IH ]; intros pre Heq Hreads He.
  - exists pre. exact Heq.
  - cbn [forallb] in Hreads. apply andb_true_iff in Hreads.
    destruct Hreads as [Ha Hreads].
    destruct pre as [ | b pre ]; cbn [app] in Heq; injection Heq as Hab Heq.
    + subst a. destruct e; discriminate.
    + apply (IH pre); assumption.
Qed.

(** The notification of a settled delivery is its last call. *)
Lemma publish_is_last es userId pre userId' eventName post :
  es ++ [DbWrite Users; Pack userId; Publish userId "meUpdated"]
  = pre ++ Publish userId' eventName :: post ->
  forallb preparatory es = true ->
  post = [] /\ pre = es ++ [DbWrite Users; Pack userId]
  /\ userId' = userId /\ eventName = "meUpdated".
Proof.
  revert pre. induction es as [ | a es IH ]; intros pre Heq Hes.
  - destruct pre as [ | b1 [ | b2 [ | b3 pre ] ] ]; cbn [app] in Heq;
      try discriminate.
    + injection Heq as H1 H2 Hu Hn Hpost. subst. repeat split.
    + injection Heq as _ _ _ Heq. destruct pre; discriminate.
  - cbn [forallb] in Hes. apply andb_true_iff in Hes. destruct Hes as [Ha Hes].
    destruct pre as [ | b pre ]; cbn [app] in Heq; injection Heq as Hab Heq.
    + subst a. discriminate.
    + destruct (IH pre Heq Hes) as (Hpost & Hpre & Hu & Hn).
      subst. repeat split.
Qed.

(** X18. No lookup follows a write. Once a delivery has called [assign],
    [unassign] or [update], it reads no repository and does not call
    [getUserRoles] any more. A delivery in which none of these three was
    called leaves the four stores as they were, and so does a delivery whose
    last call is a lookup, as is the case when a [findOneByOrFail] of the
    handler finds nothing. *)
Theorem no_lookup_follows_a_write :
  forall constructEvent config request s es,
    trace (snd (webhook constructEvent config request s)) = trace s ++ es ->
    (forall pre e post,
        es = pre ++ e :: post ->
        is_write e = true ->
        count is_lookup post = 0)
    /\ (count is_write es = 0 ->
        same_stores s (snd (webhook constructEvent config request s)))
    /\ (forall pre e,
          es = pre ++ [e] ->
          is_lookup e = true ->
          same_stores s (snd (webhook constructEvent config request s))).
Proof.
  intros constructEvent config request s es.
  destruct (webhook constructEvent config request s) as [r s'] eqn:Hrun.
  cbn [snd]. intros Htrace.
  destruct (webhook_outcome _ _ _ _ _ _ Hrun)
    as [ [_ [Hstores (es0 & Ht & Hes)]]
       | (_ & _ & event & userProfile & _ & _ & _ & _ & _ & _ & _
          & reads & changes & Ht & Hreads & Hchanges) ];
    rewrite Htrace in Ht; apply app_inv_head in Ht; subst es.
  - split; [ | split; intros; exact Hstores ].
    intros pre e post Heq He. rewrite Heq in Hes.
    apply forallb_middle in Hes. destruct e; discriminate.
  - split; [ | split ].
    2: { rewrite !count_app. cbn. lia. }
    2: { intros pre e Heq He.
         change [DbWrite Users; Pack (UserProfile.userId userProfile);
                 Publish (UserProfile.userId userProfile) "meUpdated"]
           with ([DbWrite Users; Pack (UserProfile.userId userProfile)]
                 ++ [Publish (UserProfile.userId userProfile) "meUpdated"])
           in Heq.
         rewrite app_assoc in Heq. apply app_inj_tail in Heq.
         destruct Heq as [_ Heq]. subst e. discriminate. }
    + intros pre e post Heq He. rewrite <- app_assoc in Heq.
      destruct (write_after_looks _ _ _ _ _ Heq Hreads He) as [rest Hrest].
      apply (count_after is_lookup rest e). rewrite <- Hrest.
      rewrite count_app.
      rewrite (count_none changes_roles is_lookup changes); [ reflexivity | | exact Hchanges ].
      intros a Ha. destruct a; (reflexivity || discriminate).
Qed.

Lemma no_lookup_follows_a_write_witness :
  (forall pre e post,
      trace (Sample.after (Sample.updated "sub_1" "active" "price_pro")
               (Sample.state (Sample.subscribed "sub_1" Sample.basic)
                  [("alice", "role_basic")]))
      = pre ++ e :: post ->
      is_write e = true ->
      count is_lookup post = 0)
  /\ (count is_write
        (trace (Sample.after (Sample.updated "sub_1" "active" "price_pro")
                  (Sample.state (Sample.subscribed "sub_1" Sample.basic)
                     [("alice", "role_basic")])))
      = 0 ->
      same_stores
        (Sample.state (Sample.subscribed "sub_1" Sample.basic)
           [("alice", "role_basic")])
        (snd (webhook
                (Sample.accepting (Sample.updated "sub_1" "active" "price_pro"))
                Sample.config Sample.request
                (Sample.state (Sample.subscribed "sub_1" Sample.basic)
                   [("alice", "role_basic")]))))
  /\ (forall pre e,
        trace (Sample.after (Sample.updated "sub_1" "active" "price_pro")
                 (Sample.state (Sample.subscribed "sub_1" Sample.basic)
                    [("alice", "role_basic")]))
        = pre ++ [e] ->
        is_lookup e = true ->
        same_stores
          (Sample.state (Sample.subscribed "sub_1" Sample.basic)
             [("alice", "role_basic")])
          (snd (webhook
                  (Sample.accepting (Sample.updated "sub_1" "active" "price_pro"))
                  Sample.config Sample.request
                  (Sample.state (Sample.subscribed "sub_1" Sample.basic)
                     [("alice", "role_basic")])))).
Proof.
  apply (no_lookup_follows_a_write
           (Sample.accepting (Sample.updated "sub_1" "active" "price_pro"))
           Sample.config Sample.request
           (Sample.state (Sample.subscribed "sub_1" Sample.basic)
              [("alice", "role_basic")])).
  vm_compute. reflexivity.
Defined.

(** X19. A delivery updates the user table at most once and publishes at
    most one notification, and it publishes only as its last call, right
    after the update of the user table and the packing of the same user, the
    notification being [meUpdated] to that user: nothing is published
    without the update. *)
Theorem a_notification_only_follows_the_row_update :
  forall constructEvent config request s es,
    trace (snd (webhook constructEvent config request s)) = trace s ++ es ->
    count is_row_write es <= 1
    /\ count is_publish es <= 1
    /\ forall pre userId eventName post,
         es = pre ++ Publish userId eventName :: post ->
         eventName = "meUpdated"
         /\ post = []
         /\ exists pre',
              pre = pre' ++ [DbWrite Users; Pack userId]
              /\ count is_row_write pre' = 0.
Proof.
  intros constructEvent config request s es.
  destruct (webhook constructEvent config request s) as [r s'] eqn:Hrun.
  cbn [snd]. intros Htrace.
  destruct (webhook_outcome _ _ _ _ _ _ Hrun)
    as [ [_ [_ (es0 & Ht & Hes)]]
       | (_ & _ & event & userProfile & _ & _ & _ & Hsettled) ].
  - rewrite Htrace in Ht. apply app_inv_head in Ht. subst es.
    rewrite (count_none idle is_row_write es0 idle_no_row_write Hes).
    rewrite (count_none idle is_publish es0 idle_no_publish Hes).
    split; [ lia | ]. split; [ lia | ].
    intros pre userId eventName post Heq. rewrite Heq in Hes.
    apply forallb_middle in Hes. discriminate.
  - destruct (settled_preparatory _ _ _ Hsettled) as (es0 & Ht & Hes).
    rewrite Htrace in Ht. apply app_inv_head in Ht. subst es.
    rewrite !count_app.
    rewrite (count_none preparatory is_row_write es0
               preparatory_no_row_write Hes).
    rewrite (count_none preparatory is_publish es0
               preparatory_no_publish Hes).
    split; [ cbn; lia | ]. split; [ cbn; lia | ].
    intros pre userId eventName post Heq.
    destruct (publish_is_last _ _ _ _ _ _ Heq Hes) as (Hpost & Hpre & Hu & Hn).
    subst. repeat split. exists es0. split; [ reflexivity | ].
    apply (count_none preparatory); [ exact preparatory_no_row_write | exact Hes ].
Qed.

Lemma a_notification_only_follows_the_row_update_witness :
  count is_row_write
    (trace (Sample.after (Sample.created "active" "price_basic")
              (Sample.state Sample.fresh [])))
  <= 1
  /\ count is_publish
       (trace (Sample.after (Sample.created "active" "price_basic")
                 (Sample.state Sample.fresh [])))
     <= 1
  /\ forall pre userId eventName post,
       trace (Sample.after (Sample.created "active" "price_basic")
                (Sample.state Sample.fresh []))
       = pre ++ Publish userId eventName :: post ->
       eventName = "meUpdated"
       /\ post = []
       /\ exists pre',
            pre = pre' ++ [DbWrite Users; Pack userId]
            /\ count is_row_write pre' = 0.
Proof.
  apply (a_notification_only_follows_the_row_update
           (Sample.accepting (Sample.created "active" "price_basic"))
           Sample.config Sample.request (Sample.state Sample.fresh [])).
  vm_compute. reflexivity.
Defined.

(** X20. A delivery that does not leave the reply at 204 has stored
    nothing: every status code 400 or 503 comes with the stores as they
    were. *)
Theorem nothing_is_stored_unless_the_reply_is_204 :
  forall constructEvent config request s,
    statusCode (snd (webhook constructEvent config request s)) <> Some 204 ->
    same_stores s (snd (webhook constructEvent config request s)).
Proof.
  intros constructEvent config request s.
  destruct (webhook constructEvent config request s) as [r s'] eqn:Hrun.
  cbn [snd]. intros Hcode.
  destruct (webhook_outcome _ _ _ _ _ _ Hrun)
    as [ [_ [Hstores _]] | (_ & H204 & _) ]; [ exact Hstores | contradiction ].
Qed.

Lemma nothing_is_stored_unless_the_reply_is_204_witness :
  same_stores
    (Sample.state (Sample.subscribed "sub_1" Sample.basic)
       [("alice", "role_basic")])
    (snd (webhook (Sample.accepting Sample.unknown) Sample.config Sample.request
            (Sample.state (Sample.subscribed "sub_1" Sample.basic)
               [("alice", "role_basic")]))).
Proof.
  apply (nothing_is_stored_unless_the_reply_is_204
           (Sample.accepting Sample.unknown) Sample.config Sample.request
           (Sample.state (Sample.subscribed "sub_1" Sample.basic)
              [("alice", "role_basic")])).
  vm_compute. discriminate.
Defined.
